(** * Annotation persistence and text re-anchoring of the PDF viewer extension

    The development follows the two halves of the extension:

    - the webview script (the [Webview] module): capture of a text selection
      as an anchor, the in-memory lists of highlights / annotations /
      comments / sticky notes / drawings, the summaries, index-based removal,
      clear-all, and the restoration that searches the rendered text layer;
    - the extension host ([Host]): class [PdfPreview], its per-document lists
      and their persistence in the key-value store [globalState].

    JavaScript strings are sequences of UTF-16 code units ([list N]); numbers
    that are indices, counts or page numbers are integers ([Z]); the rendered
    text layer is a tree of DOM nodes; the key-value store is a finite map. *)

From stdpp Require Import gmap strings list fin_maps.
From Stdlib Require Import ZArith NArith Lia.

(** ** JavaScript strings *)

Module Js.

(** A string is its sequence of UTF-16 code units. *)
Abbreviation jsstring := (list N).

(** String literals of the source, written with their Latin-1 characters. *)
Definition js (s : string) : jsstring :=
  Ascii.N_of_ascii <$> String.list_ascii_of_string s.

(** [s.length] *)
Definition jslength (s : jsstring) : Z := Z.of_nat (length s).

(** ECMAScript WhiteSpace and LineTerminator code points, the ones
    [String.prototype.trim] strips. *)
Definition isWhiteSpace (c : N) : bool :=
  bool_decide (c ∈ [9; 10; 11; 12; 13; 32; 160; 5760; 8232; 8233; 8239;
                    8287; 12288; 65279]%N)
  || ((8192 <=? c)%N && (c <=? 8202)%N).

Fixpoint trimStart (s : jsstring) : jsstring :=
  match s with
  | [] => []
  | c :: s' => if isWhiteSpace c then trimStart s' else s
  end.

Definition trimEnd (s : jsstring) : jsstring :=
  reverse (trimStart (reverse s)).

(** [s.trim()] *)
Definition trim (s : jsstring) : jsstring := trimEnd (trimStart s).

(** A string is truthy when it is not empty. *)
Definition truthy (s : jsstring) : bool :=
  match s with [] => false | _ :: _ => true end.

Fixpoint startsWith (p s : jsstring) : bool :=
  match p, s with
  | [], _ => true
  | _ :: _, [] => false
  | a :: p', b :: s' => (a =? b)%N && startsWith p' s'
  end.

Fixpoint indexOf_from (search s : jsstring) (i : Z) : Z :=
  if startsWith search s then i
  else match s with
       | [] => (-1)%Z
       | _ :: s' => indexOf_from search s' (i + 1)%Z
       end.

(** [s.indexOf(search)]: the smallest position at which [search] occurs
    in [s], or -1. *)
Definition indexOf (search s : jsstring) : Z := indexOf_from search s 0.

Definition clamp (len x : Z) : Z := Z.min (Z.max x 0) len.

(** [s.substring(start, end)] *)
Definition substring (s : jsstring) (start end_ : Z) : jsstring :=
  let len := jslength s in
  let a := clamp len start in
  let b := clamp len end_ in
  let from := Z.min a b in
  let to := Z.max a b in
  take (Z.to_nat (to - from)) (drop (Z.to_nat from) s).

(** Relative index of [slice]: negative positions count from the end. *)
Definition relative (len x : Z) : Z :=
  if (x <? 0)%Z then Z.max (len + x) 0 else Z.min x len.

(** [s.slice(start)] and [s.slice(start, end)] *)
Definition slice (s : jsstring) (start : Z) (end_ : option Z) : jsstring :=
  let len := jslength s in
  let from := relative len start in
  let to := match end_ with Some e => relative len e | None => len end in
  take (Z.to_nat (Z.max (to - from) 0)) (drop (Z.to_nat from) s).

(** The literal ['...'] *)
Definition ellipsis : jsstring := js "...".

(** [t.substring(0, n) + (t.length > n ? '...' : '')], the truncation of
    every summary. *)
Definition truncated (n : Z) (t : jsstring) : jsstring :=
  substring t 0 n ++ (if (jslength t >? n)%Z then ellipsis else []).

(** [t] occurs in [s] as a contiguous run of code units. *)
Definition occursIn (t s : jsstring) : Prop :=
  ∃ l1 l2, s = l1 ++ t ++ l2.

End Js.
Import Js.

(** ** The rendered document *)

Module Dom.

(** A [<span>] created by the script to mark an anchor.  [sp_id] stands for
    the identity of the element object (the value kept in the [element] field
    of the in-memory entries); [sp_class] is its [className] and [sp_color]
    its [dataset.color].  Inline style properties are not tracked. *)
Record Span := {
  sp_id : nat;
  sp_class : string;
  sp_color : string
}.

(** Elements of a text layer: what PDF.js rendered (text runs, line breaks),
    a marker span, or the icon appended to a comment marker. *)
Inductive tag :=
| PdfJs
| Marker (sp : Span)
| CommentIcon (id : nat).

#[warnings="-register-all"]
Inductive node :=
| Text (data : jsstring)
| Element (t : tag) (kids : list node).

(** A rendered page: the [.page] container with its [data-page-number], the
    child nodes of its [.textLayer] once PDF.js has rendered it, and the
    sticky-note panels appended to the container. *)
Record PageView := {
  pageNumber : Z;
  textLayer : option (list node);
  stickyEls : list nat
}.

Fixpoint node_size (n : node) : nat :=
  match n with
  | Text _ => 1
  | Element _ ks => S (list_sum (map node_size ks))
  end.

Definition forest_size (ns : list node) : nat := list_sum (map node_size ns).

(** The data of the text nodes below a node, in document order: the nodes a
    [TreeWalker] with [NodeFilter.SHOW_TEXT] visits. *)
Fixpoint textNodesOf (n : node) : list jsstring :=
  match n with
  | Text s => [s]
  | Element _ ks => flat_map textNodesOf ks
  end.

Definition textNodes (ns : list node) : list jsstring :=
  flat_map textNodesOf ns.

(** [textContent]: the concatenation of the text nodes. *)
Definition textContent (ns : list node) : jsstring := concat (textNodes ns).

(** The markup of a forest, tag by tag. *)
Inductive token :=
| TText (s : jsstring)
| TOpen (t : tag)
| TClose.

Fixpoint serializeNode (n : node) : list token :=
  match n with
  | Text s => [TText s]
  | Element t ks => TOpen t :: flat_map serializeNode ks ++ [TClose]
  end.

Definition serialize (ns : list node) : list token :=
  flat_map serializeNode ns.

Definition isMarker (t : tag) : bool :=
  match t with Marker _ => true | _ => false end.

(** Number of marker spans in a forest. *)
Fixpoint markersOf (n : node) : nat :=
  match n with
  | Text _ => 0
  | Element t ks =>
      (if isMarker t then 1 else 0) + list_sum (map markersOf ks)
  end.

Definition markerCount (ns : list node) : nat := list_sum (map markersOf ns).

(** [range.setStart(node, start); range.setEnd(node, end_);
    range.surroundContents(span)] on a text node with data [data], followed
    by appending [extra] to the span.  The range lies inside one text node, so
    the call cannot fail: the contents are extracted into a new text node (none
    when the range is collapsed), the original node is split at [start], and
    the span is inserted between the two halves. *)
Definition surroundTextRange (data : jsstring) (start end_ : nat)
    (sp : Span) (extra : list node) : list node :=
  let contents :=
    if decide (start < end_)
    then [Text (take (end_ - start) (drop start data))] else [] in
  [Text (take start data);
   Element (Marker sp) (contents ++ extra);
   Text (drop end_ data)].

(** The body of the search loop for one text node: [indexOf], and the wrap
    when the text is found. *)
Definition surroundMatch (text : jsstring) (sp : Span) (extra : list node)
    (data : jsstring) : option (list node) :=
  let index := indexOf text data in
  if (index =? -1)%Z then None
  else
    let i := Z.to_nat index in
    Some (surroundTextRange data i (i + length text) sp extra).

Section walk.
Context (f : jsstring → option (list node)).

(** [while ((node = walker.nextNode())) { ... return }]: visit the text nodes
    in document order and replace the first one on which [f] succeeds by the
    nodes [f] returns. [None]: the loop ran to the end. *)
Fixpoint walkNode (n : node) : option (list node) :=
  match n with
  | Text s => f s
  | Element t ks =>
      (λ ks', [Element t ks']) <$>
      (fix walkKids (ks : list node) : option (list node) :=
         match ks with
         | [] => None
         | k :: rest =>
             match walkNode k with
             | Some r => Some (r ++ rest)
             | None => (k ::.) <$> walkKids rest
             end
         end) ks
  end.

Fixpoint walk (ns : list node) : option (list node) :=
  match ns with
  | [] => None
  | k :: rest =>
      match walkNode k with
      | Some r => Some (r ++ rest)
      | None => (k ::.) <$> walk rest
      end
  end.

End walk.

Definition isSpan (id : nat) (t : tag) : bool :=
  match t with Marker sp => Nat.eqb (sp_id sp) id | _ => false end.

Section unwrap.
Context (id : nat).

(** Unwrapping the span [id]:
    [while (span.firstChild) parent.insertBefore(span.firstChild, span);
     parent.removeChild(span)].
    [None]: the span is not below these nodes. *)
Fixpoint unwrapNode (n : node) : option (list node) :=
  match n with
  | Text _ => None
  | Element t ks =>
      if isSpan id t then Some ks
      else
        (λ ks', [Element t ks']) <$>
        (fix unwrapKids (ks : list node) : option (list node) :=
           match ks with
           | [] => None
           | k :: rest =>
               match unwrapNode k with
               | Some r => Some (r ++ rest)
               | None => (k ::.) <$> unwrapKids rest
               end
           end) ks
  end.

Fixpoint unwrap (ns : list node) : option (list node) :=
  match ns with
  | [] => None
  | k :: rest =>
      match unwrapNode k with
      | Some r => Some (r ++ rest)
      | None => (k ::.) <$> unwrap rest
      end
  end.

End unwrap.

(** [document.querySelector('.page[data-page-number="p"] .textLayer')]: the
    first text layer inside a page container with that number. *)
Fixpoint querySelector_textLayer (p : Z) (pages : list PageView)
    : option (list node) :=
  match pages with
  | [] => None
  | pv :: rest =>
      if (pageNumber pv =? p)%Z then
        match textLayer pv with
        | Some layer => Some layer
        | None => querySelector_textLayer p rest
        end
      else querySelector_textLayer p rest
  end.

(** The document after the child nodes of that text layer became [layer']. *)
Fixpoint setTextLayer (p : Z) (layer' : list node) (pages : list PageView)
    : list PageView :=
  match pages with
  | [] => []
  | pv :: rest =>
      if (pageNumber pv =? p)%Z then
        match textLayer pv with
        | Some _ =>
            {| pageNumber := pageNumber pv; textLayer := Some layer';
               stickyEls := stickyEls pv |} :: rest
        | None => pv :: setTextLayer p layer' rest
        end
      else pv :: setTextLayer p layer' rest
  end.

(** Unwrapping a span wherever it is attached. [None]: it has no parent. *)
Fixpoint unwrapSpan (id : nat) (pages : list PageView)
    : option (list PageView) :=
  match pages with
  | [] => None
  | pv :: rest =>
      match textLayer pv ≫= unwrap id with
      | Some layer' =>
          Some ({| pageNumber := pageNumber pv; textLayer := Some layer';
                   stickyEls := stickyEls pv |} :: rest)
      | None => (pv ::.) <$> unwrapSpan id rest
      end
  end.

(** Detaching a sticky-note panel:
    [note.element.parentNode.removeChild(note.element)]. *)
Definition removeSticky (id : nat) (pages : list PageView) : list PageView :=
  (λ pv, {| pageNumber := pageNumber pv; textLayer := textLayer pv;
            stickyEls := filter (λ e, e ≠ id) (stickyEls pv) |}) <$> pages.

(** Marker spans and text of the whole document. *)
Definition documentMarkers (pages : list PageView) : nat :=
  list_sum ((λ pv, from_option markerCount 0 (textLayer pv)) <$> pages).

Definition documentText (pages : list PageView) : list jsstring :=
  (λ pv, from_option textContent [] (textLayer pv)) <$> pages.





End Dom.
Import Dom.

(** ** Anchor records

    The persisted form of each annotation kind, as the webview sends it to
    the host and as the host stores it ([HighlightData], [AnnotationData],
    [CommentData], [StickyNoteData], [DrawingData] of the host source). *)

Module Data.

Record HighlightData := {
  hd_text : jsstring;
  hd_color : string;
  hd_page : Z;
  hd_timestamp : Z;
  hd_textBefore : jsstring;
  hd_textAfter : jsstring
}.

Inductive AnnotationType := underline | strikethrough | squiggly.

Definition typeName (t : AnnotationType) : string :=
  match t with
  | underline => "underline"
  | strikethrough => "strikethrough"
  | squiggly => "squiggly"
  end.

Record AnnotationData := {
  ad_type : AnnotationType;
  ad_text : jsstring;
  ad_color : string;
  ad_page : Z;
  ad_timestamp : Z;
  ad_textBefore : jsstring;
  ad_textAfter : jsstring
}.

Record CommentData := {
  cd_text : jsstring;
  cd_comment : jsstring;
  cd_color : string;
  cd_page : Z;
  cd_timestamp : Z;
  cd_textBefore : jsstring;
  cd_textAfter : jsstring;
  cd_author : jsstring
}.

Record StickyNoteData := {
  sn_content : jsstring;
  sn_color : string;
  sn_page : Z;
  sn_x : Z;
  sn_y : Z;
  sn_timestamp : Z
}.

(** The shape of a drawing with its geometry (canvas coordinates). *)
Inductive Shape :=
| rectangle (x y width height : Z)
| circle (x y radius : Z)
| arrow (x1 y1 x2 y2 : Z)
| freehand (path : list (Z * Z)).

Record DrawingData := {
  dd_shape : Shape;
  dd_color : string;
  dd_strokeWidth : Z;
  dd_page : Z;
  dd_timestamp : Z
}.

(** One line of the highlight picker: [{index, color, text}]. *)
Record HighlightSummary := {
  hs_index : Z;
  hs_color : string;
  hs_text : jsstring
}.

(** One line of the comment picker. *)
Record CommentSummary := {
  cs_index : Z;
  cs_text : jsstring;
  cs_comment : jsstring;
  cs_page : Z;
  cs_color : string;
  cs_author : jsstring;
  cs_timestamp : Z
}.

(** Messages the webview posts to the host ([vscode.postMessage]). *)
Inductive Msg :=
| NoSelection
| HighlightAdded (color : string) (count : Z) (highlightData : HighlightData)
| HighlightError (error : string)
| HighlightsCleared (count : Z)
| HighlightsSummary (highlights : list HighlightSummary) (total : Z)
| HighlightRemovedWithData (index : Z)
| HighlightRemoved (remaining : Z)
| HighlightsRestored (count : Z)
| RequestStoredHighlights
| AnnotationAdded (annotationType : AnnotationType) (color : string)
    (count : Z) (annotationData : AnnotationData)
| AnnotationError (error : string)
| CommentAdded (color : string) (count : Z) (commentData : CommentData)
| CommentError (error : string)
| CommentsList (comments : list CommentSummary) (total : Z)
| StickyNoteAdded (count : Z) (noteData : StickyNoteData)
| StickyNoteDeleted (remaining : Z)
| StickyNoteUpdated (index : Z) (content : jsstring)
| StickyNotePositionChanged (index x y : Z)
| DrawingAdded (count : Z) (drawingData : DrawingData)
| DrawingDeleted (remaining : Z)
| DrawingsCleared (count : Z).

End Data.
Import Data.

(** [array.splice(index, 1)] for an index already checked to be in range, and
    [array.length] as a number. *)
Definition splice1 {A} (index : Z) (l : list A) : list A :=
  delete (Z.to_nat index) l.

Definition len {A} (l : list A) : Z := Z.of_nat (length l).

(** [index < 0 || index >= array.length] *)
Definition outOfRange {A} (index : Z) (l : list A) : bool :=
  (index <? 0)%Z || (index >=? len l)%Z.

(** ** The webview script *)

Module Webview.

(** Entries of the in-memory arrays: the anchor fields and the live marker
    element. *)
Record Highlight := {
  h_element : nat;
  h_color : string;
  h_text : jsstring;
  h_page : Z;
  h_textBefore : jsstring;
  h_textAfter : jsstring
}.

Record Annotation := {
  a_element : nat;
  a_type : AnnotationType;
  a_color : string;
  a_text : jsstring;
  a_page : Z;
  a_textBefore : jsstring;
  a_textAfter : jsstring;
  a_timestamp : Z
}.

Record Comment := {
  c_element : nat;
  c_icon : nat;
  c_text : jsstring;
  c_comment : jsstring;
  c_color : string;
  c_page : Z;
  c_textBefore : jsstring;
  c_textAfter : jsstring;
  c_timestamp : Z;
  c_author : jsstring
}.

Record StickyNote := {
  n_element : nat;
  n_content : jsstring;
  n_color : string;
  n_page : Z;
  n_x : Z;
  n_y : Z;
  n_timestamp : Z
}.

(** The module-level variables of the script, the part of the document and
    of the PDF.js viewer they act on, and the messages posted so far. *)
Record State := {
  pages : list PageView;
  pagesCount : Z;
  currentPageNumber : Z;
  highlights : list Highlight;
  annotations : list Annotation;
  comments : list Comment;
  stickyNotes : list StickyNote;
  drawingAnnotations : list DrawingData;
  currentHighlightIndex : Z;
  currentHighlightColor : string;
  nextElement : nat;
  outbox : list Msg
}.

Definition set_pages (x : list PageView) (st : State) : State :=
  {| pages := x; pagesCount := pagesCount st;
     currentPageNumber := currentPageNumber st; highlights := highlights st;
     annotations := annotations st; comments := comments st;
     stickyNotes := stickyNotes st;
     drawingAnnotations := drawingAnnotations st;
     currentHighlightIndex := currentHighlightIndex st;
     currentHighlightColor := currentHighlightColor st;
     nextElement := nextElement st; outbox := outbox st |}.

Definition set_page (x : Z) (st : State) : State :=
  {| pages := pages st; pagesCount := pagesCount st;
     currentPageNumber := x; highlights := highlights st;
     annotations := annotations st; comments := comments st;
     stickyNotes := stickyNotes st;
     drawingAnnotations := drawingAnnotations st;
     currentHighlightIndex := currentHighlightIndex st;
     currentHighlightColor := currentHighlightColor st;
     nextElement := nextElement st; outbox := outbox st |}.

Definition set_highlights (x : list Highlight) (st : State) : State :=
  {| pages := pages st; pagesCount := pagesCount st;
     currentPageNumber := currentPageNumber st; highlights := x;
     annotations := annotations st; comments := comments st;
     stickyNotes := stickyNotes st;
     drawingAnnotations := drawingAnnotations st;
     currentHighlightIndex := currentHighlightIndex st;
     currentHighlightColor := currentHighlightColor st;
     nextElement := nextElement st; outbox := outbox st |}.

Definition set_annotations (x : list Annotation) (st : State) : State :=
  {| pages := pages st; pagesCount := pagesCount st;
     currentPageNumber := currentPageNumber st; highlights := highlights st;
     annotations := x; comments := comments st;
     stickyNotes := stickyNotes st;
     drawingAnnotations := drawingAnnotations st;
     currentHighlightIndex := currentHighlightIndex st;
     currentHighlightColor := currentHighlightColor st;
     nextElement := nextElement st; outbox := outbox st |}.

Definition set_comments (x : list Comment) (st : State) : State :=
  {| pages := pages st; pagesCount := pagesCount st;
     currentPageNumber := currentPageNumber st; highlights := highlights st;
     annotations := annotations st; comments := x;
     stickyNotes := stickyNotes st;
     drawingAnnotations := drawingAnnotations st;
     currentHighlightIndex := currentHighlightIndex st;
     currentHighlightColor := currentHighlightColor st;
     nextElement := nextElement st; outbox := outbox st |}.

Definition set_stickyNotes (x : list StickyNote) (st : State) : State :=
  {| pages := pages st; pagesCount := pagesCount st;
     currentPageNumber := currentPageNumber st; highlights := highlights st;
     annotations := annotations st; comments := comments st;
     stickyNotes := x;
     drawingAnnotations := drawingAnnotations st;
     currentHighlightIndex := currentHighlightIndex st;
     currentHighlightColor := currentHighlightColor st;
     nextElement := nextElement st; outbox := outbox st |}.

Definition set_drawings (x : list DrawingData) (st : State) : State :=
  {| pages := pages st; pagesCount := pagesCount st;
     currentPageNumber := currentPageNumber st; highlights := highlights st;
     annotations := annotations st; comments := comments st;
     stickyNotes := stickyNotes st;
     drawingAnnotations := x;
     currentHighlightIndex := currentHighlightIndex st;
     currentHighlightColor := currentHighlightColor st;
     nextElement := nextElement st; outbox := outbox st |}.

Definition set_highlightIndex (x : Z) (st : State) : State :=
  {| pages := pages st; pagesCount := pagesCount st;
     currentPageNumber := currentPageNumber st; highlights := highlights st;
     annotations := annotations st; comments := comments st;
     stickyNotes := stickyNotes st;
     drawingAnnotations := drawingAnnotations st;
     currentHighlightIndex := x;
     currentHighlightColor := currentHighlightColor st;
     nextElement := nextElement st; outbox := outbox st |}.

(** [document.createElement]: [n] new element identities are taken. *)
Definition createElements (n : nat) (st : State) : State :=
  {| pages := pages st; pagesCount := pagesCount st;
     currentPageNumber := currentPageNumber st; highlights := highlights st;
     annotations := annotations st; comments := comments st;
     stickyNotes := stickyNotes st;
     drawingAnnotations := drawingAnnotations st;
     currentHighlightIndex := currentHighlightIndex st;
     currentHighlightColor := currentHighlightColor st;
     nextElement := n + nextElement st; outbox := outbox st |}.

(** [vscode.postMessage(m)] *)
Definition postMessage (m : Msg) (st : State) : State :=
  {| pages := pages st; pagesCount := pagesCount st;
     currentPageNumber := currentPageNumber st; highlights := highlights st;
     annotations := annotations st; comments := comments st;
     stickyNotes := stickyNotes st;
     drawingAnnotations := drawingAnnotations st;
     currentHighlightIndex := currentHighlightIndex st;
     currentHighlightColor := currentHighlightColor st;
     nextElement := nextElement st; outbox := outbox st ++ [m] |}.

(** The setter [PDFViewerApplication.pdfViewer.currentPageNumber = val] of
    PDF.js: a page number outside the document is reported on the console and
    leaves the current page as it is. *)
Definition assignCurrentPage (val : Z) (st : State) : State :=
  if (0 <? val)%Z && (val <=? pagesCount st)%Z then set_page val st else st.

(** *** The selection

    What the script reads from [window.getSelection()].  The [Range] methods
    belong to the browser; an argument of this type records their outcome on
    the selection at hand:
    - [preRangeText]: the string [preRange.toString()] of [getTextBefore],
      the text between the start of the parent of the selection's start
      container and the start of the selection; [None] when one of the calls
      leading to it throws;
    - [postRangeText]: the same for [postRange.toString()] of [getTextAfter];
    - [surroundContents span doc]: the document after
      [range.surroundContents(span)], and whether the call returned ([true])
      or threw ([false]);
    - [extractAndInsert span doc]: the document after
      [range.extractContents()], [span.appendChild(contents)],
      [range.insertNode(span)], with [span.textContent] when all three
      returned, [None] when one threw. *)
Record Range := {
  preRangeText : option jsstring;
  postRangeText : option jsstring;
  surroundContents : Span → list PageView → list PageView * bool;
  extractAndInsert : Span → list PageView → list PageView * option jsstring
}.

Record Selection := {
  sel_toString : jsstring;
  sel_range : Range
}.

(** [color || fallback] *)
Definition orColor (color : option string) (fallback : string) : string :=
  match color with
  | Some c => if decide (c = ""%string) then fallback else c
  | None => fallback
  end.

(** *** Capture *)

Definition getTextBefore (range : Range) (length : Z) : jsstring :=
  match preRangeText range with
  | Some text => slice text (- length) None
  | None => []
  end.

Definition getTextAfter (range : Range) (length : Z) : jsstring :=
  match postRangeText range with
  | Some text => slice text 0 (Some length)
  | None => []
  end.

(** [highlights.push(highlightData)] followed by the [highlightAdded]
    message, as both branches of [highlightSelection] do. *)
Definition recordHighlight (span : Span) (text : jsstring) (page : Z)
    (textBefore textAfter : jsstring) (now : Z) (st : State) : State :=
  let st := set_highlights
    (highlights st ++
       [{| h_element := sp_id span; h_color := sp_color span; h_text := text;
           h_page := page; h_textBefore := textBefore;
           h_textAfter := textAfter |}]) st in
  postMessage
    (HighlightAdded (sp_color span) (len (highlights st))
       {| hd_text := text; hd_color := sp_color span; hd_page := page;
          hd_timestamp := now; hd_textBefore := textBefore;
          hd_textAfter := textAfter |}) st.

Definition highlightSelection (color : option string)
    (selection : option Selection) (now : Z) (st : State) : State :=
  let highlightColor := orColor color (currentHighlightColor st) in
  match selection with
  | None => postMessage NoSelection st
  | Some selection =>
      if truthy (trim (sel_toString selection)) then
        let range := sel_range selection in
        let span := {| sp_id := nextElement st; sp_class := "pdf-highlight";
                       sp_color := highlightColor |} in
        let st := createElements 1 st in
        let text := trim (sel_toString selection) in
        let currentPage := currentPageNumber st in
        let textBefore := getTextBefore range 20 in
        let textAfter := getTextAfter range 20 in
        match surroundContents range span (pages st) with
        | (doc, true) =>
            recordHighlight span text currentPage textBefore textAfter now
              (set_pages doc st)
        | (doc, false) =>
            match extractAndInsert range span doc with
            | (doc, Some textContent) =>
                recordHighlight span textContent currentPage textBefore
                  textAfter now (set_pages doc st)
            | (doc, None) =>
                postMessage
                  (HighlightError "Cannot highlight across multiple elements")
                  (set_pages doc st)
            end
        end
      else postMessage NoSelection st
  end.

(** [annotations.push(annotationData)] and the [annotationAdded] message.
    [Date.now()] is read once for the entry and once for the message. *)
Definition recordAnnotation (type : AnnotationType) (span : Span)
    (text : jsstring) (page : Z) (textBefore textAfter : jsstring)
    (now now' : Z) (st : State) : State :=
  let st := set_annotations
    (annotations st ++
       [{| a_element := sp_id span; a_type := type; a_color := sp_color span;
           a_text := text; a_page := page; a_textBefore := textBefore;
           a_textAfter := textAfter; a_timestamp := now |}]) st in
  postMessage
    (AnnotationAdded type (sp_color span) (len (annotations st))
       {| ad_type := type; ad_text := text; ad_color := sp_color span;
          ad_page := page; ad_timestamp := now';
          ad_textBefore := textBefore; ad_textAfter := textAfter |}) st.

Definition annotateSelection (type : AnnotationType) (color : option string)
    (selection : option Selection) (now now' : Z) (st : State) : State :=
  let annotationColor := orColor color (currentHighlightColor st) in
  match selection with
  | None => postMessage NoSelection st
  | Some selection =>
      if negb (truthy (trim (sel_toString selection))) then
        postMessage NoSelection st
      else
        let range := sel_range selection in
        let span :=
          {| sp_id := nextElement st;
             sp_class := "pdf-annotation pdf-" +:+ typeName type;
             sp_color := annotationColor |} in
        let st := createElements 1 st in
        let text := trim (sel_toString selection) in
        let currentPage := currentPageNumber st in
        let textBefore := getTextBefore range 20 in
        let textAfter := getTextAfter range 20 in
        match surroundContents range span (pages st) with
        | (doc, true) =>
            recordAnnotation type span text currentPage textBefore textAfter
              now now' (set_pages doc st)
        | (doc, false) =>
            match extractAndInsert range span doc with
            | (doc, Some textContent) =>
                recordAnnotation type span textContent currentPage textBefore
                  textAfter now now' (set_pages doc st)
            | (doc, None) =>
                postMessage
                  (AnnotationError "Cannot annotate across multiple elements")
                  (set_pages doc st)
            end
        end
  end.

(** [span.appendChild(child)] for the span with identity [id]. *)
Fixpoint appendChildNode (id : nat) (child : node) (n : node) : node :=
  match n with
  | Text s => Text s
  | Element t ks =>
      let ks' := map (appendChildNode id child) ks in
      if isSpan id t then Element t (ks' ++ [child]) else Element t ks'
  end.

Definition appendChild (id : nat) (child : node) (doc : list PageView)
    : list PageView :=
  (λ pv, {| pageNumber := pageNumber pv;
            textLayer := map (appendChildNode id child) <$> textLayer pv;
            stickyEls := stickyEls pv |}) <$> doc.

(** The icon of a comment marker, [innerHTML = '💬'] (one code point, two
    code units). *)
Definition commentIcon (id : nat) : node :=
  Element (CommentIcon id) [Text [55357; 56492]%N].

Definition addCommentToSelection (commentText : jsstring)
    (color : option string) (selection : option Selection) (now now' : Z)
    (st : State) : State :=
  let commentColor := orColor color "#FFE4B5" in
  match selection with
  | None => postMessage NoSelection st
  | Some selection =>
      if negb (truthy (trim (sel_toString selection))) then
        postMessage NoSelection st
      else
        let range := sel_range selection in
        let selectedText := trim (sel_toString selection) in
        let currentPage := currentPageNumber st in
        let textBefore := getTextBefore range 20 in
        let textAfter := getTextAfter range 20 in
        let span := {| sp_id := nextElement st;
                       sp_class := "pdf-comment-highlight";
                       sp_color := commentColor |} in
        let icon := S (nextElement st) in
        let st := createElements 2 st in
        match surroundContents range span (pages st) with
        | (doc, true) =>
            let st :=
              set_pages (appendChild (sp_id span) (commentIcon icon) doc) st in
            let st := set_comments
              (comments st ++
                 [{| c_element := sp_id span; c_icon := icon;
                     c_text := selectedText; c_comment := commentText;
                     c_color := commentColor; c_page := currentPage;
                     c_textBefore := textBefore; c_textAfter := textAfter;
                     c_timestamp := now; c_author := js "User" |}]) st in
            postMessage
              (CommentAdded commentColor (len (comments st))
                 {| cd_text := selectedText; cd_comment := commentText;
                    cd_color := commentColor; cd_page := currentPage;
                    cd_timestamp := now'; cd_textBefore := textBefore;
                    cd_textAfter := textAfter; cd_author := js "User" |}) st
        | (doc, false) =>
            postMessage
              (CommentError "Cannot add comment across multiple elements")
              (set_pages doc st)
        end
  end.

(** *** Summaries *)

Definition getHighlightsSummary (st : State) : State :=
  let summary :=
    imap (λ i h, {| hs_index := Z.of_nat i + 1; hs_color := h_color h;
                    hs_text := truncated 50 (h_text h) |}) (highlights st) in
  postMessage (HighlightsSummary summary (len (highlights st))) st.

Definition getCommentsList (st : State) : State :=
  let summary :=
    imap (λ i c, {| cs_index := Z.of_nat i;
                    cs_text := truncated 30 (c_text c);
                    cs_comment := truncated 50 (c_comment c);
                    cs_page := c_page c; cs_color := c_color c;
                    cs_author := c_author c;
                    cs_timestamp := c_timestamp c |}) (comments st) in
  postMessage (CommentsList summary (len (comments st))) st.

(** *** Removal *)

Definition removeHighlight (index : Z) (st : State) : State :=
  if outOfRange index (highlights st) then
    postMessage (HighlightError "Invalid index") st
  else
    let st :=
      match highlights st !! Z.to_nat index with
      | Some highlightData =>
          match unwrapSpan (h_element highlightData) (pages st) with
          | Some doc => set_pages doc st
          | None => st
          end
      | None => st
      end in
    let st := set_highlights (splice1 index (highlights st)) st in
    let st :=
      if (currentHighlightIndex st >=? len (highlights st))%Z
      then set_highlightIndex (len (highlights st) - 1) st else st in
    let st := postMessage (HighlightRemovedWithData index) st in
    postMessage (HighlightRemoved (len (highlights st))) st.

(** One round of the [forEach] of [clearAllHighlights]: a span that still
    has a parent is unwrapped and counted. *)
Definition detachHighlight (acc : list PageView * Z) (h : Highlight)
    : list PageView * Z :=
  match unwrapSpan (h_element h) acc.1 with
  | Some doc => (doc, (acc.2 + 1)%Z)
  | None => acc
  end.

Definition clearAllHighlights (st : State) : State :=
  let result := foldl detachHighlight (pages st, 0%Z) (highlights st) in
  let st := set_pages result.1 st in
  let st := set_highlights [] st in
  let st := set_highlightIndex (-1) st in
  postMessage (HighlightsCleared result.2) st.

Definition deleteStickyNote (index : Z) (st : State) : State :=
  if outOfRange index (stickyNotes st) then st
  else
    let st :=
      match stickyNotes st !! Z.to_nat index with
      | Some note => set_pages (removeSticky (n_element note) (pages st)) st
      | None => st
      end in
    let st := set_stickyNotes (splice1 index (stickyNotes st)) st in
    postMessage (StickyNoteDeleted (len (stickyNotes st))) st.

(** The canvas is cleared and repainted from the array; only the array is
    kept here. *)
Definition clearDrawings (st : State) : State :=
  let currentPage := currentPageNumber st in
  let removed :=
    len (filter (λ d, dd_page d = currentPage) (drawingAnnotations st)) in
  let st :=
    set_drawings
      (filter (λ d, dd_page d ≠ currentPage) (drawingAnnotations st)) st in
  postMessage (DrawingsCleared removed) st.

Definition deleteDrawingAnnotation (index : Z) (st : State) : State :=
  if outOfRange index (drawingAnnotations st) then st
  else
    let st := set_drawings (splice1 index (drawingAnnotations st)) st in
    postMessage (DrawingDeleted (len (drawingAnnotations st))) st.

(** *** Restoration *)

(** The search loop shared by [restoreSingleHighlight],
    [restoreSingleAnnotation] and [restoreSingleComment]: the text layer of
    the anchor's page is looked up, its text nodes are walked, and the first
    node containing [text] is wrapped in [span] (to which [extra] is then
    appended). On success, the document after the wrap. *)
Definition findAndWrap (text : jsstring) (page : Z) (span : Span)
    (extra : list node) (doc : list PageView) : option (list PageView) :=
  match querySelector_textLayer page doc with
  | None => None
  | Some textLayer =>
      match walk (surroundMatch text span extra) textLayer with
      | Some layer => Some (setTextLayer page layer doc)
      | None => None
      end
  end.

(** [restoreSingleHighlight], the part that runs at once: the viewer jumps
    to the anchor's page. *)
Definition restoreSingleHighlight_jump (highlightData : HighlightData)
    (st : State) : State :=
  let page := hd_page highlightData in
  if negb (page =? 0)%Z && negb (currentPageNumber st =? page)%Z
  then assignCurrentPage page st else st.

Definition restoredHighlightSpan (highlightData : HighlightData) (id : nat)
    : Span :=
  {| sp_id := id; sp_class := "pdf-highlight restored-highlight";
     sp_color := hd_color highlightData |}.

(** [restoreSingleHighlight], the callback it defers by 500 ms. *)
Definition restoreSingleHighlight_find (highlightData : HighlightData)
    (st : State) : State :=
  let span := restoredHighlightSpan highlightData (nextElement st) in
  match findAndWrap (hd_text highlightData) (hd_page highlightData) span []
          (pages st) with
  | Some doc =>
      let st := createElements 1 (set_pages doc st) in
      set_highlights
        (highlights st ++
           [{| h_element := sp_id span; h_color := hd_color highlightData;
               h_text := hd_text highlightData;
               h_page := hd_page highlightData;
               h_textBefore := hd_textBefore highlightData;
               h_textAfter := hd_textAfter highlightData |}]) st
  | None => st
  end.

(** One call of [restoreSingleHighlight] with its timer, when nothing else
    runs in between. *)
Definition restoreSingleHighlight (highlightData : HighlightData)
    (st : State) : State :=
  restoreSingleHighlight_find highlightData
    (restoreSingleHighlight_jump highlightData st).

(** The searches deferred by the calls of [restoreSingleHighlight] run in
    the order in which they were scheduled. *)
Definition deferredSearches (savedHighlights : list HighlightData)
    (st : State) : State :=
  foldl (λ st h, restoreSingleHighlight_find h st) st savedHighlights.

(** [restoreHighlights], from the moment its own timer fires: the [forEach]
    runs the immediate part for every anchor and schedules the searches, the
    [highlightsRestored] message is posted, and then the deferred searches
    run. *)
Definition restoreHighlights (savedHighlights : list HighlightData)
    (st : State) : State :=
  match savedHighlights with
  | [] => st
  | _ :: _ =>
      let st := foldl (λ st h, restoreSingleHighlight_jump h st) st
                  savedHighlights in
      let st :=
        if (len (highlights st) >? 0)%Z
        then postMessage (HighlightsRestored (len (highlights st))) st
        else st in
      deferredSearches savedHighlights st
  end.

Definition restoredAnnotationSpan (annotData : AnnotationData) (id : nat)
    : Span :=
  {| sp_id := id;
     sp_class := "pdf-annotation pdf-" +:+ typeName (ad_type annotData)
                   +:+ " restored-annotation";
     sp_color := ad_color annotData |}.

Definition restoreSingleAnnotation (annotData : AnnotationData) (st : State)
    : State :=
  let span := restoredAnnotationSpan annotData (nextElement st) in
  match findAndWrap (ad_text annotData) (ad_page annotData) span []
          (pages st) with
  | Some doc =>
      let st := createElements 1 (set_pages doc st) in
      set_annotations
        (annotations st ++
           [{| a_element := sp_id span; a_type := ad_type annotData;
               a_color := ad_color annotData; a_text := ad_text annotData;
               a_page := ad_page annotData;
               a_textBefore := ad_textBefore annotData;
               a_textAfter := ad_textAfter annotData;
               a_timestamp := ad_timestamp annotData |}]) st
  | None => st
  end.

Definition restoredCommentSpan (commentData : CommentData) (id : nat)
    : Span :=
  {| sp_id := id; sp_class := "pdf-comment-highlight restored-comment";
     sp_color := cd_color commentData |}.

Definition restoreSingleComment (commentData : CommentData) (st : State)
    : State :=
  let span := restoredCommentSpan commentData (nextElement st) in
  let icon := S (nextElement st) in
  match findAndWrap (cd_text commentData) (cd_page commentData) span
          [commentIcon icon] (pages st) with
  | Some doc =>
      let st := createElements 2 (set_pages doc st) in
      set_comments
        (comments st ++
           [{| c_element := sp_id span; c_icon := icon;
               c_text := cd_text commentData;
               c_comment := cd_comment commentData;
               c_color := cd_color commentData;
               c_page := cd_page commentData;
               c_textBefore := cd_textBefore commentData;
               c_textAfter := cd_textAfter commentData;
               c_timestamp := cd_timestamp commentData;
               c_author := cd_author commentData |}]) st
  | None => st
  end.

End Webview.

(** ** The extension host: class [PdfPreview] *)

Module Host.

(** A value of the key-value store: the JSON array of one kind. *)
Inductive Stored :=
| StoredHighlights (l : list HighlightData)
| StoredAnnotations (l : list AnnotationData)
| StoredComments (l : list CommentData)
| StoredStickyNotes (l : list StickyNoteData)
| StoredDrawings (l : list DrawingData).

(** Messages the host posts to the webview. *)
Inductive ToWebview :=
| RestoreHighlights (highlights : list HighlightData)
| RemoveHighlight (index : Z)
| ClearAllHighlights
| GetHighlightsSummary
| GetCommentsList
| ClearDrawings.

(** Notifications shown to the user, by message key and numeric arguments. *)
Inductive Notice :=
| Information (key : string) (args : list Z)
| Warning (key : string)
| ErrorMessage (key : string).

(** The fields of a [PdfPreview] that the annotation code uses:
    [resource.toString()], [context.globalState], the five [_saved...]
    arrays, and what was sent to the webview and shown to the user. *)
Record PdfPreview := {
  resource : string;
  globalState : gmap string Stored;
  _savedHighlights : list HighlightData;
  _savedAnnotations : list AnnotationData;
  _savedComments : list CommentData;
  _savedStickyNotes : list StickyNoteData;
  _savedDrawings : list DrawingData;
  posted : list ToWebview;
  shown : list Notice
}.

(** [this.context.globalState.update(key, value)] *)
Definition update (key : string) (value : Stored) (this : PdfPreview)
    : PdfPreview :=
  {| resource := resource this;
     globalState := <[key := value]> (globalState this);
     _savedHighlights := _savedHighlights this;
     _savedAnnotations := _savedAnnotations this;
     _savedComments := _savedComments this;
     _savedStickyNotes := _savedStickyNotes this;
     _savedDrawings := _savedDrawings this;
     posted := posted this; shown := shown this |}.

Definition set_savedHighlights (x : list HighlightData) (this : PdfPreview)
    : PdfPreview :=
  {| resource := resource this; globalState := globalState this;
     _savedHighlights := x;
     _savedAnnotations := _savedAnnotations this;
     _savedComments := _savedComments this;
     _savedStickyNotes := _savedStickyNotes this;
     _savedDrawings := _savedDrawings this;
     posted := posted this; shown := shown this |}.

Definition set_savedAnnotations (x : list AnnotationData)
    (this : PdfPreview) : PdfPreview :=
  {| resource := resource this; globalState := globalState this;
     _savedHighlights := _savedHighlights this;
     _savedAnnotations := x;
     _savedComments := _savedComments this;
     _savedStickyNotes := _savedStickyNotes this;
     _savedDrawings := _savedDrawings this;
     posted := posted this; shown := shown this |}.

Definition set_savedComments (x : list CommentData) (this : PdfPreview)
    : PdfPreview :=
  {| resource := resource this; globalState := globalState this;
     _savedHighlights := _savedHighlights this;
     _savedAnnotations := _savedAnnotations this;
     _savedComments := x;
     _savedStickyNotes := _savedStickyNotes this;
     _savedDrawings := _savedDrawings this;
     posted := posted this; shown := shown this |}.

Definition set_savedStickyNotes (x : list StickyNoteData)
    (this : PdfPreview) : PdfPreview :=
  {| resource := resource this; globalState := globalState this;
     _savedHighlights := _savedHighlights this;
     _savedAnnotations := _savedAnnotations this;
     _savedComments := _savedComments this;
     _savedStickyNotes := x;
     _savedDrawings := _savedDrawings this;
     posted := posted this; shown := shown this |}.

Definition set_savedDrawings (x : list DrawingData) (this : PdfPreview)
    : PdfPreview :=
  {| resource := resource this; globalState := globalState this;
     _savedHighlights := _savedHighlights this;
     _savedAnnotations := _savedAnnotations this;
     _savedComments := _savedComments this;
     _savedStickyNotes := _savedStickyNotes this;
     _savedDrawings := x;
     posted := posted this; shown := shown this |}.

(** [this.webviewEditor.webview.postMessage(m)] *)
Definition postMessage (m : ToWebview) (this : PdfPreview) : PdfPreview :=
  {| resource := resource this; globalState := globalState this;
     _savedHighlights := _savedHighlights this;
     _savedAnnotations := _savedAnnotations this;
     _savedComments := _savedComments this;
     _savedStickyNotes := _savedStickyNotes this;
     _savedDrawings := _savedDrawings this;
     posted := posted this ++ [m]; shown := shown this |}.

(** [vscode.window.show...Message] *)
Definition show (n : Notice) (this : PdfPreview) : PdfPreview :=
  {| resource := resource this; globalState := globalState this;
     _savedHighlights := _savedHighlights this;
     _savedAnnotations := _savedAnnotations this;
     _savedComments := _savedComments this;
     _savedStickyNotes := _savedStickyNotes this;
     _savedDrawings := _savedDrawings this;
     posted := posted this; shown := shown this ++ [n] |}.

(** *** Highlights *)

Definition getHighlightsKey (this : PdfPreview) : string :=
  "pdf-highlights-" +:+ resource this.

Definition loadHighlights (this : PdfPreview) : PdfPreview :=
  set_savedHighlights
    (match globalState this !! getHighlightsKey this with
     | Some (StoredHighlights l) => l
     | _ => []
     end) this.

Definition saveHighlights (this : PdfPreview) : PdfPreview :=
  update (getHighlightsKey this) (StoredHighlights (_savedHighlights this))
    this.

Definition restoreHighlights (this : PdfPreview) : PdfPreview :=
  if (len (_savedHighlights this) >? 0)%Z
  then postMessage (RestoreHighlights (_savedHighlights this)) this
  else this.

Definition addHighlightToStorage (highlight : HighlightData)
    (this : PdfPreview) : PdfPreview :=
  saveHighlights
    (set_savedHighlights (_savedHighlights this ++ [highlight]) this).

Definition removeHighlightFromStorage (index : Z) (this : PdfPreview)
    : PdfPreview :=
  if (index >=? 0)%Z && (index <? len (_savedHighlights this))%Z then
    saveHighlights
      (set_savedHighlights (splice1 index (_savedHighlights this)) this)
  else this.

Definition clearHighlightsStorage (this : PdfPreview) : PdfPreview :=
  saveHighlights (set_savedHighlights [] this).

(** *** The other kinds *)

Definition annotationsKey (this : PdfPreview) : string :=
  "pdf.annotations." +:+ resource this.

Definition commentsKey (this : PdfPreview) : string :=
  "pdf.comments." +:+ resource this.

Definition stickyNotesKey (this : PdfPreview) : string :=
  "pdf.stickyNotes." +:+ resource this.

Definition drawingsKey (this : PdfPreview) : string :=
  "pdf.drawings." +:+ resource this.

Definition loadAnnotations (this : PdfPreview) : PdfPreview :=
  set_savedAnnotations
    (match globalState this !! annotationsKey this with
     | Some (StoredAnnotations l) => l
     | _ => []
     end) this.

Definition saveAnnotations (this : PdfPreview) : PdfPreview :=
  update (annotationsKey this) (StoredAnnotations (_savedAnnotations this))
    this.

Definition loadComments (this : PdfPreview) : PdfPreview :=
  set_savedComments
    (match globalState this !! commentsKey this with
     | Some (StoredComments l) => l
     | _ => []
     end) this.

Definition saveComments (this : PdfPreview) : PdfPreview :=
  update (commentsKey this) (StoredComments (_savedComments this)) this.

Definition loadStickyNotes (this : PdfPreview) : PdfPreview :=
  set_savedStickyNotes
    (match globalState this !! stickyNotesKey this with
     | Some (StoredStickyNotes l) => l
     | _ => []
     end) this.

Definition saveStickyNotes (this : PdfPreview) : PdfPreview :=
  update (stickyNotesKey this) (StoredStickyNotes (_savedStickyNotes this))
    this.

Definition loadDrawings (this : PdfPreview) : PdfPreview :=
  set_savedDrawings
    (match globalState this !! drawingsKey this with
     | Some (StoredDrawings l) => l
     | _ => []
     end) this.

Definition saveDrawings (this : PdfPreview) : PdfPreview :=
  update (drawingsKey this) (StoredDrawings (_savedDrawings this)) this.

Definition saveHighlightsStorage (this : PdfPreview) : PdfPreview :=
  update ("pdf.highlights." +:+ resource this)
    (StoredHighlights (_savedHighlights this)) this.

Definition saveAllAnnotations (this : PdfPreview) : PdfPreview :=
  saveDrawings (saveStickyNotes (saveComments (saveAnnotations
    (saveHighlightsStorage this)))).

(** Defined by the class; no method or handler calls it. *)
Definition loadAllAnnotations (this : PdfPreview) : PdfPreview :=
  loadDrawings (loadStickyNotes (loadComments (loadAnnotations
    (loadHighlights this)))).

Definition addAnnotationToStorage (annotationData : AnnotationData)
    (this : PdfPreview) : PdfPreview :=
  saveAllAnnotations
    (set_savedAnnotations (_savedAnnotations this ++ [annotationData]) this).

Definition addCommentToStorage (commentData : CommentData)
    (this : PdfPreview) : PdfPreview :=
  saveAllAnnotations
    (set_savedComments (_savedComments this ++ [commentData]) this).

Definition addStickyNoteToStorage (noteData : StickyNoteData)
    (this : PdfPreview) : PdfPreview :=
  saveAllAnnotations
    (set_savedStickyNotes (_savedStickyNotes this ++ [noteData]) this).

Definition addDrawingToStorage (drawingData : DrawingData)
    (this : PdfPreview) : PdfPreview :=
  saveAllAnnotations
    (set_savedDrawings (_savedDrawings this ++ [drawingData]) this).

Definition updateStickyNoteInStorage (index : Z) (content : jsstring)
    (this : PdfPreview) : PdfPreview :=
  if (index >=? 0)%Z && (index <? len (_savedStickyNotes this))%Z then
    saveStickyNotes
      (set_savedStickyNotes
         (alter (λ n, {| sn_content := content; sn_color := sn_color n;
                         sn_page := sn_page n; sn_x := sn_x n;
                         sn_y := sn_y n; sn_timestamp := sn_timestamp n |})
            (Z.to_nat index) (_savedStickyNotes this)) this)
  else this.

Definition updateStickyNotePositionInStorage (index x y : Z)
    (this : PdfPreview) : PdfPreview :=
  if (index >=? 0)%Z && (index <? len (_savedStickyNotes this))%Z then
    saveStickyNotes
      (set_savedStickyNotes
         (alter (λ n, {| sn_content := sn_content n; sn_color := sn_color n;
                         sn_page := sn_page n; sn_x := x; sn_y := y;
                         sn_timestamp := sn_timestamp n |})
            (Z.to_nat index) (_savedStickyNotes this)) this)
  else this.

(** *** Construction and message handling *)

(** [new PdfPreview(extensionRoot, resource, webviewEditor, context)], as far
    as annotations go: of the loaders only [loadHighlights] is called. *)
Definition new (resource : string) (globalState : gmap string Stored)
    : PdfPreview :=
  loadHighlights
    {| resource := resource; globalState := globalState;
       _savedHighlights := []; _savedAnnotations := [];
       _savedComments := []; _savedStickyNotes := [];
       _savedDrawings := []; posted := []; shown := [] |}.

(** The [switch (message.type)] of [onDidReceiveMessage], for the messages
    of the annotation code.  The pickers opened for the list messages act
    through later commands; messages without a [case] are ignored. *)
Definition onDidReceiveMessage (message : Msg) (this : PdfPreview)
    : PdfPreview :=
  match message with
  | NoSelection => show (Warning "msg.noSelection") this
  | HighlightAdded _ count highlightData =>
      show (Information "msg.highlightAdded" [count])
        (addHighlightToStorage highlightData this)
  | HighlightRemovedWithData index => removeHighlightFromStorage index this
  | HighlightRemoved remaining =>
      show (Information "msg.highlightRemoved" [remaining]) this
  | HighlightsCleared count =>
      show (Information "msg.highlightsCleared" [count])
        (clearHighlightsStorage this)
  | RequestStoredHighlights => restoreHighlights this
  | AnnotationAdded _ _ count annotationData =>
      show (Information "msg.annotationAdded" [count])
        (addAnnotationToStorage annotationData this)
  | AnnotationError _ => show (ErrorMessage "msg.annotationError") this
  | CommentAdded _ count commentData =>
      show (Information "msg.commentAdded" [count])
        (addCommentToStorage commentData this)
  | CommentError _ => show (ErrorMessage "msg.commentError") this
  | StickyNoteAdded count noteData =>
      show (Information "msg.stickyNoteAdded" [count])
        (addStickyNoteToStorage noteData this)
  | StickyNoteDeleted remaining =>
      show (Information "msg.stickyNoteDeleted" [remaining]) this
  | StickyNoteUpdated index content =>
      updateStickyNoteInStorage index content this
  | StickyNotePositionChanged index x y =>
      updateStickyNotePositionInStorage index x y this
  | DrawingAdded count drawingData =>
      show (Information "msg.drawingAdded" [count])
        (addDrawingToStorage drawingData this)
  | DrawingDeleted remaining =>
      show (Information "msg.drawingDeleted" [remaining]) this
  | DrawingsCleared count =>
      show (Information "msg.drawingsCleared" [count]) this
  | HighlightsSummary highlights _ =>
      match highlights with
      | [] => show (Information "msg.noHighlights" []) this
      | _ :: _ => this
      end
  | CommentsList _ total =>
      if (total =? 0)%Z then show (Information "msg.noComments" []) this
      else this
  | HighlightError _ | HighlightsRestored _ => this
  end.

(** The webview's messages are handled one after the other. *)
Definition receiveAll (messages : list Msg) (this : PdfPreview)
    : PdfPreview :=
  foldl (λ this m, onDidReceiveMessage m this) this messages.

(** The next editor session on the same document: a new [PdfPreview] for
    the same resource over the key-value store as the last session left it. *)
Definition reopen (this : PdfPreview) : PdfPreview :=
  new (resource this) (globalState this).

End Host.

(** ** Vocabulary of the statements *)

(** An anchor misses a document when its page has no text layer, or no text
    node of that layer contains its text. *)
Definition missesIn (text : jsstring) (page : Z) (doc : list PageView)
    : Prop :=
  ∀ layer, querySelector_textLayer page doc = Some layer →
           ∀ s, s ∈ textNodes layer → ¬ occursIn text s.

(** A stored anchor of one of the kinds restored by a text search. *)
Inductive TextAnchor :=
| HighlightAnchor (h : HighlightData)
| AnnotationAnchor (a : AnnotationData)
| CommentAnchor (c : CommentData).

Definition anchorText (a : TextAnchor) : jsstring :=
  match a with
  | HighlightAnchor h => hd_text h
  | AnnotationAnchor a => ad_text a
  | CommentAnchor c => cd_text c
  end.

Definition anchorPage (a : TextAnchor) : Z :=
  match a with
  | HighlightAnchor h => hd_page h
  | AnnotationAnchor a => ad_page a
  | CommentAnchor c => cd_page c
  end.

(** The same anchor with other context strings. *)
Definition withContext (before after : jsstring) (a : TextAnchor)
    : TextAnchor :=
  match a with
  | HighlightAnchor h =>
      HighlightAnchor
        {| hd_text := hd_text h; hd_color := hd_color h; hd_page := hd_page h;
           hd_timestamp := hd_timestamp h; hd_textBefore := before;
           hd_textAfter := after |}
  | AnnotationAnchor a =>
      AnnotationAnchor
        {| ad_type := ad_type a; ad_text := ad_text a; ad_color := ad_color a;
           ad_page := ad_page a; ad_timestamp := ad_timestamp a;
           ad_textBefore := before; ad_textAfter := after |}
  | CommentAnchor c =>
      CommentAnchor
        {| cd_text := cd_text c; cd_comment := cd_comment c;
           cd_color := cd_color c; cd_page := cd_page c;
           cd_timestamp := cd_timestamp c; cd_textBefore := before;
           cd_textAfter := after; cd_author := cd_author c |}
  end.

(** The marker span the restoring function of the anchor's kind creates,
    and what it appends to it. *)
Definition restoredSpan (a : TextAnchor) (id : nat) : Span :=
  match a with
  | HighlightAnchor h => Webview.restoredHighlightSpan h id
  | AnnotationAnchor a => Webview.restoredAnnotationSpan a id
  | CommentAnchor c => Webview.restoredCommentSpan c id
  end.

Definition restoredExtra (a : TextAnchor) (id : nat) : list node :=
  match a with
  | CommentAnchor _ => [Webview.commentIcon (S id)]
  | _ => []
  end.

(** The search of the anchor's kind. *)
Definition restoreAnchor (a : TextAnchor) (st : Webview.State)
    : Webview.State :=
  match a with
  | HighlightAnchor h => Webview.restoreSingleHighlight_find h st
  | AnnotationAnchor a => Webview.restoreSingleAnnotation a st
  | CommentAnchor c => Webview.restoreSingleComment c st
  end.

(** Entries of the three in-memory lists of text-bound markers. *)
Definition liveMarkers (st : Webview.State) : nat :=
  length (Webview.highlights st) + length (Webview.annotations st)
  + length (Webview.comments st).




(** ** Sample data

    A two-page document whose first page is rendered with three text runs,
    and anchors on it; used to evaluate the functions on concrete inputs. *)

Module Sample.

Definition layer : list node :=
  [Element PdfJs [Text (js "Lorem ipsum dolor")];
   Element PdfJs [Text (js "sit ipsum amet")];
   Element PdfJs [Text (js "abcdefghijklmnopqrstuvwxyz0123456789")]].

Definition state : Webview.State :=
  {| Webview.pages :=
       [{| pageNumber := 1; textLayer := Some layer; stickyEls := [] |};
        {| pageNumber := 2; textLayer := None; stickyEls := [] |}];
     Webview.pagesCount := 2;
     Webview.currentPageNumber := 1;
     Webview.highlights := [];
     Webview.annotations := [];
     Webview.comments := [];
     Webview.stickyNotes := [];
     Webview.drawingAnnotations := [];
     Webview.currentHighlightIndex := -1;
     Webview.currentHighlightColor := "#FFFF00";
     Webview.nextElement := 0;
     Webview.outbox := [] |}.

(** A highlight of "ipsum" on page 1. *)
Definition ipsum : HighlightData :=
  {| hd_text := js "ipsum"; hd_color := "#FFFF00"; hd_page := 1;
     hd_timestamp := 1700000000000; hd_textBefore := js "Lorem ";
     hd_textAfter := js " dolor" |}.

(** A highlight whose text is not on the page, and one on a page beyond the
    document. *)
Definition absent : HighlightData :=
  {| hd_text := js "consectetur"; hd_color := "#FFFF00"; hd_page := 1;
     hd_timestamp := 1700000000001; hd_textBefore := [];
     hd_textAfter := [] |}.


End Sample.

(** Anchors of the other kinds, a document identity, a view with drawings on
    two pages, and a view with one sticky note. *)

Module SampleStore.

Definition uri : string := "file:///docs/paper.pdf".


(** A comment on a selection of 36 characters. *)
Definition remark : CommentData :=
  {| cd_text := js "abcdefghijklmnopqrstuvwxyz0123456789";
     cd_comment := js "check this"; cd_color := "#FFE4B5"; cd_page := 1;
     cd_timestamp := 1700000000200; cd_textBefore := []; cd_textAfter := [];
     cd_author := js "User" |}.

Definition note : StickyNoteData :=
  {| sn_content := js "check this"; sn_color := "#FFFACD"; sn_page := 1;
     sn_x := 120; sn_y := 80; sn_timestamp := 1700000000300 |}.




(** The sample view with the sticky note on page 1 (panel element 7). *)
Definition noted : Webview.State :=
  Webview.set_stickyNotes
    [{| Webview.n_element := 7; Webview.n_content := sn_content note;
        Webview.n_color := sn_color note; Webview.n_page := 1;
        Webview.n_x := 120; Webview.n_y := 80;
        Webview.n_timestamp := sn_timestamp note |}]
    (Webview.set_pages
       [{| pageNumber := 1; textLayer := Some Sample.layer;
           stickyEls := [7] |};
        {| pageNumber := 2; textLayer := None; stickyEls := [] |}]
       Sample.state).

(** The host of that view: the note was stored when it was added. *)
Definition notedHost : Host.PdfPreview :=
  Host.onDidReceiveMessage (StickyNoteAdded 1 note) (Host.new uri ∅).


End SampleStore.

(** ** Capture operations *)

(** The three text-bound capture functions with their arguments. *)
Inductive CaptureOp :=
| HighlightOp (color : option string)
| AnnotateOp (type : AnnotationType) (color : option string)
| CommentOp (commentText : jsstring) (color : option string).

(** [now] and [now'] are the two readings of [Date.now()] of a capture
    ([highlightSelection] reads it once). *)
Definition capture (op : CaptureOp) (selection : option Webview.Selection)
    (now now' : Z) (st : Webview.State) : Webview.State :=
  match op with
  | HighlightOp color => Webview.highlightSelection color selection now st
  | AnnotateOp type color =>
      Webview.annotateSelection type color selection now now' st
  | CommentOp commentText color =>
      Webview.addCommentToSelection commentText color selection now now' st
  end.

(** No selection, or a selected string that is empty or made of white space
    only. *)
Definition blankSelection (selection : option Webview.Selection) : bool :=
  match selection with
  | None => true
  | Some s => forallb isWhiteSpace (Webview.sel_toString s)
  end.

(** The anchor fields a capture message carries: text, page, and the two
    context strings. *)
Definition anchorOf (m : Msg) : option (jsstring * Z * jsstring * jsstring) :=
  match m with
  | HighlightAdded _ _ d =>
      Some (hd_text d, hd_page d, hd_textBefore d, hd_textAfter d)
  | AnnotationAdded _ _ _ d =>
      Some (ad_text d, ad_page d, ad_textBefore d, ad_textAfter d)
  | CommentAdded _ _ d =>
      Some (cd_text d, cd_page d, cd_textBefore d, cd_textAfter d)
  | _ => None
  end.

(** Selections on the sample page. *)

Module SampleSelection.

(** A range inside one text node: the first occurrence of [selected] on
    [page].  [surroundContents] wraps it; the fallback is never reached. *)
Definition rangeOver (selected : jsstring) (page : Z)
    (before after : jsstring) : Webview.Range :=
  {| Webview.preRangeText := Some before;
     Webview.postRangeText := Some after;
     Webview.surroundContents := λ span doc,
       match Webview.findAndWrap selected page span [] doc with
       | Some doc' => (doc', true)
       | None => (doc, false)
       end;
     Webview.extractAndInsert := λ _ doc, (doc, None) |}.

(** " ipsum " selected in the first run, with the spaces around the word. *)
Definition word : Webview.Selection :=
  {| Webview.sel_toString := js " ipsum ";
     Webview.sel_range := rangeOver (js " ipsum ") 1 (js "Lorem") (js "dolor") |}.

(** The whole third run, 36 characters. *)
Definition long : Webview.Selection :=
  {| Webview.sel_toString := js "abcdefghijklmnopqrstuvwxyz0123456789";
     Webview.sel_range :=
       rangeOver (js "abcdefghijklmnopqrstuvwxyz0123456789") 1 [] [] |}.

(** A space, a tab and a no-break space. *)
Definition spaces : Webview.Selection :=
  {| Webview.sel_toString := [32; 9; 160]%N;
     Webview.sel_range := rangeOver [32; 9; 160]%N 1 [] [] |}.

(** From "ipsum" in the first run to the end of "sit " in the second: the
    range partially contains the two run elements, so [surroundContents]
    throws and leaves the document as it is; the fallback moves the selected
    part of both runs into the span, which is inserted between the
    remainders. *)
Definition acrossRuns : Webview.Selection :=
  {| Webview.sel_toString := js "ipsum dolorsit ";
     Webview.sel_range :=
       {| Webview.preRangeText := Some (js "Lorem ");
          Webview.postRangeText := Some (js "ipsum amet");
          Webview.surroundContents := λ _ doc, (doc, false);
          Webview.extractAndInsert := λ span doc,
            (setTextLayer 1
               [Element PdfJs [Text (js "Lorem ")];
                Element (Marker span)
                  [Element PdfJs [Text (js "ipsum dolor")];
                   Element PdfJs [Text (js "sit ")]];
                Element PdfJs [Text (js "ipsum amet")];
                Element PdfJs
                  [Text (js "abcdefghijklmnopqrstuvwxyz0123456789")]]
               doc,
             Some (js "ipsum dolorsit ")) |} |}.

End SampleSelection.

(** * The rest of the two halves

    Highlight sessions, the cursor of the highlight list, navigation and
    histories of the host, comments, the highlight picker and the reading
    position. *)

(** ** Highlight sessions *)

(** What an entry of the view's list and an entry of the host's list have in
    common: text, colour, page and the two context strings. *)
Definition viewAnchor (h : Webview.Highlight)
    : jsstring * string * Z * jsstring * jsstring :=
  (Webview.h_text h, Webview.h_color h, Webview.h_page h,
   Webview.h_textBefore h, Webview.h_textAfter h).

Definition storedAnchor (d : HighlightData)
    : jsstring * string * Z * jsstring * jsstring :=
  (hd_text d, hd_color d, hd_page d, hd_textBefore d, hd_textAfter d).

(** The host's list mirrors the view's list entry by entry. *)
Definition aligned (st : Webview.State) (host : Host.PdfPreview) : Prop :=
  viewAnchor <$> Webview.highlights st
  = storedAnchor <$> Host._savedHighlights host.

(** The messages a step of the view posted. *)
Definition newMessages (st st' : Webview.State) : list Msg :=
  drop (length (Webview.outbox st)) (Webview.outbox st').

(** The highlight cases of the view's message listener:
    ['highlightSelection'], ['getHighlightsSummary'], ['removeHighlight'] and
    ['clearAllHighlights'].  The selection and the clock are read by
    [highlightSelection] itself. *)
Inductive HighlightRequest :=
| HighlightSelectionRequest (color : option string)
    (selection : option Webview.Selection) (now : Z)
| GetHighlightsSummaryRequest
| RemoveHighlightRequest (index : Z)
| ClearAllHighlightsRequest.

Definition handleRequest (message : HighlightRequest) (st : Webview.State)
    : Webview.State :=
  match message with
  | HighlightSelectionRequest color selection now =>
      Webview.highlightSelection color selection now st
  | GetHighlightsSummaryRequest => Webview.getHighlightsSummary st
  | RemoveHighlightRequest index => Webview.removeHighlight index st
  | ClearAllHighlightsRequest => Webview.clearAllHighlights st
  end.

(** A run of the two halves: the view handles each request, and the host
    handles the messages the view posted for it before the next request. *)
Fixpoint session (requests : list HighlightRequest) (st : Webview.State)
    (host : Host.PdfPreview) : Webview.State * Host.PdfPreview :=
  match requests with
  | [] => (st, host)
  | message :: rest =>
      let st' := handleRequest message st in
      session rest st' (Host.receiveAll (newMessages st st') host)
  end.

(** The list the host would load for its document from the store. *)
Definition storedHighlights (this : Host.PdfPreview) : list HighlightData :=
  match Host.globalState this !! Host.getHighlightsKey this with
  | Some (Host.StoredHighlights l) => l
  | _ => []
  end.

(** The prefixes of the keys the annotation code writes. *)
Definition keyPrefixes : list string :=
  ["pdf-highlights-"; "pdf.highlights."; "pdf.annotations."; "pdf.comments.";
   "pdf.stickyNotes."; "pdf.drawings."]%string.

(** ** Arrays *)

(** [array[i]] for a number [i]: [undefined] outside the array. *)
Definition at_ {A} (l : list A) (i : Z) : option A :=
  if (i <? 0)%Z then None else l !! Z.to_nat i.

(** [array.slice(start, end)] *)
Definition sliceArray {A} (l : list A) (start end_ : Z) : list A :=
  let from := relative (len l) start in
  let to := relative (len l) end_ in
  take (Z.to_nat (Z.max (to - from) 0)) (drop (Z.to_nat from) l).

(** ** Moving between highlights

    [jumpToNextHighlight] and [jumpToHighlightIndex] of the webview script.
    Their messages ([noHighlights], [highlightJumped]) are posted like every
    other message; the host only shows a notification for them, and they are
    kept beside the state here.  Scrolling and the flash of the target span
    are effects on the layout and are not tracked. *)

Module Jump.

Inductive Reply :=
| NoHighlights
| HighlightJumped (index total : Z) (color : string).

(** [%] of JavaScript takes the sign of the dividend. *)
Definition jumpToNextHighlight (st : Webview.State)
    : Webview.State * list Reply :=
  if (len (Webview.highlights st) =? 0)%Z then (st, [NoHighlights])
  else
    let st :=
      Webview.set_highlightIndex
        (Z.rem (Webview.currentHighlightIndex st + 1)
           (len (Webview.highlights st))) st in
    match at_ (Webview.highlights st) (Webview.currentHighlightIndex st) with
    | Some highlightData =>
        (st, [HighlightJumped (Webview.currentHighlightIndex st + 1)
                (len (Webview.highlights st))
                (Webview.h_color highlightData)])
    | None => (st, [])
    end.

Definition jumpToHighlightIndex (index : Z) (st : Webview.State)
    : Webview.State * list Reply :=
  if outOfRange index (Webview.highlights st) then (st, [NoHighlights])
  else
    let st := Webview.set_highlightIndex index st in
    match at_ (Webview.highlights st) index with
    | Some highlightData =>
        (st, [HighlightJumped (index + 1) (len (Webview.highlights st))
                (Webview.h_color highlightData)])
    | None => (st, [])
    end.

(** The highlight cases of the message listener, with the two jumps and
    ['restoreHighlights']. *)
Inductive Request :=
| Annotate (message : HighlightRequest)
| JumpToHighlightIndex (index : Z)
| JumpToNextHighlight
| RestoreHighlights (highlights : list HighlightData).

Definition handle (message : Request) (st : Webview.State)
    : Webview.State * list Reply :=
  match message with
  | Annotate message => (handleRequest message st, [])
  | JumpToHighlightIndex index => jumpToHighlightIndex index st
  | JumpToNextHighlight => jumpToNextHighlight st
  | RestoreHighlights highlights =>
      (Webview.restoreHighlights highlights st, [])
  end.

(** The state after a sequence of requests, and after [n] presses of
    "next highlight". *)
Definition handleAll (messages : list Request) (st : Webview.State)
    : Webview.State :=
  foldl (λ st message, (handle message st).1) st messages.

Definition pressNext (n : nat) (st : Webview.State) : Webview.State :=
  Nat.iter n (λ st, (jumpToNextHighlight st).1) st.

(** The cursor is -1 or the position of an entry of the list. *)
Definition cursorInBounds (st : Webview.State) : bool :=
  (-1 <=? Webview.currentHighlightIndex st)%Z
  && (Webview.currentHighlightIndex st <? len (Webview.highlights st))%Z.

End Jump.

(** ** Navigation, bookmarks and histories of the extension host

    The part of class [PdfPreview] that moves between pages and keeps the
    per-document bookmarks, the page history of the session, the recent
    positions and the search history.  [updateStatusBar], which these
    functions call, only draws the status bar and feeds the reading
    statistics; neither is tracked here. *)

Module Reader.

Record Bookmark := {
  bm_page : Z;
  bm_label : jsstring;
  bm_timestamp : Z
}.

Record RecentPosition := {
  rp_uri : string;
  rp_page : Z;
  rp_timestamp : Z;
  rp_fileName : string
}.

Record SearchHistoryItem := {
  sh_query : jsstring;
  sh_timestamp : Z;
  sh_resultsCount : option Z
}.

(** Values of the key-value store under the keys of this part. *)
Inductive Stored :=
| StoredBookmarks (l : list Bookmark)
| StoredPositions (l : list RecentPosition)
| StoredSearches (l : list SearchHistoryItem).

Inductive ToWebview :=
| GotoPage (page : Z).

(** Arguments of a localised message. *)
Inductive Arg :=
| TextArg (s : jsstring)
| NumberArg (n : Z).

Inductive Notice :=
| Information (key : string) (args : list Arg)
| ErrorMessage (key : string).

(** The fields of a [PdfPreview] that this part uses.  [resource] is
    [resource.toString()] and [fileName] is [path.basename(resource.fsPath)]. *)
Record PdfPreview := {
  resource : string;
  fileName : string;
  globalState : gmap string Stored;
  _currentPage : Z;
  _totalPages : Z;
  _bookmarks : list Bookmark;
  _pageHistory : list Z;
  _historyIndex : Z;
  _isNavigating : bool;
  _searchHistory : list SearchHistoryItem;
  posted : list ToWebview;
  shown : list Notice
}.

(** [this.context.globalState.update(key, value)] *)
Definition update (key : string) (value : Stored) (this : PdfPreview)
    : PdfPreview :=
  {| resource := resource this; fileName := fileName this;
     globalState := <[key := value]> (globalState this);
     _currentPage := _currentPage this; _totalPages := _totalPages this;
     _bookmarks := _bookmarks this; _pageHistory := _pageHistory this;
     _historyIndex := _historyIndex this;
     _isNavigating := _isNavigating this;
     _searchHistory := _searchHistory this; posted := posted this;
     shown := shown this |}.

Definition set_currentPage (x : Z) (this : PdfPreview) : PdfPreview :=
  {| resource := resource this; fileName := fileName this;
     globalState := globalState this;
     _currentPage := x; _totalPages := _totalPages this;
     _bookmarks := _bookmarks this; _pageHistory := _pageHistory this;
     _historyIndex := _historyIndex this;
     _isNavigating := _isNavigating this;
     _searchHistory := _searchHistory this; posted := posted this;
     shown := shown this |}.

Definition set_totalPages (x : Z) (this : PdfPreview) : PdfPreview :=
  {| resource := resource this; fileName := fileName this;
     globalState := globalState this;
     _currentPage := _currentPage this; _totalPages := x;
     _bookmarks := _bookmarks this; _pageHistory := _pageHistory this;
     _historyIndex := _historyIndex this;
     _isNavigating := _isNavigating this;
     _searchHistory := _searchHistory this; posted := posted this;
     shown := shown this |}.

Definition set_bookmarks (x : list Bookmark) (this : PdfPreview)
    : PdfPreview :=
  {| resource := resource this; fileName := fileName this;
     globalState := globalState this;
     _currentPage := _currentPage this; _totalPages := _totalPages this;
     _bookmarks := x; _pageHistory := _pageHistory this;
     _historyIndex := _historyIndex this;
     _isNavigating := _isNavigating this;
     _searchHistory := _searchHistory this; posted := posted this;
     shown := shown this |}.

Definition set_pageHistory (x : list Z) (this : PdfPreview) : PdfPreview :=
  {| resource := resource this; fileName := fileName this;
     globalState := globalState this;
     _currentPage := _currentPage this; _totalPages := _totalPages this;
     _bookmarks := _bookmarks this; _pageHistory := x;
     _historyIndex := _historyIndex this;
     _isNavigating := _isNavigating this;
     _searchHistory := _searchHistory this; posted := posted this;
     shown := shown this |}.

Definition set_historyIndex (x : Z) (this : PdfPreview) : PdfPreview :=
  {| resource := resource this; fileName := fileName this;
     globalState := globalState this;
     _currentPage := _currentPage this; _totalPages := _totalPages this;
     _bookmarks := _bookmarks this; _pageHistory := _pageHistory this;
     _historyIndex := x; _isNavigating := _isNavigating this;
     _searchHistory := _searchHistory this; posted := posted this;
     shown := shown this |}.

Definition set_isNavigating (x : bool) (this : PdfPreview) : PdfPreview :=
  {| resource := resource this; fileName := fileName this;
     globalState := globalState this;
     _currentPage := _currentPage this; _totalPages := _totalPages this;
     _bookmarks := _bookmarks this; _pageHistory := _pageHistory this;
     _historyIndex := _historyIndex this; _isNavigating := x;
     _searchHistory := _searchHistory this; posted := posted this;
     shown := shown this |}.

Definition set_searchHistory (x : list SearchHistoryItem) (this : PdfPreview)
    : PdfPreview :=
  {| resource := resource this; fileName := fileName this;
     globalState := globalState this;
     _currentPage := _currentPage this; _totalPages := _totalPages this;
     _bookmarks := _bookmarks this; _pageHistory := _pageHistory this;
     _historyIndex := _historyIndex this;
     _isNavigating := _isNavigating this; _searchHistory := x;
     posted := posted this; shown := shown this |}.

(** [this.webviewEditor.webview.postMessage(m)] *)
Definition postMessage (m : ToWebview) (this : PdfPreview) : PdfPreview :=
  {| resource := resource this; fileName := fileName this;
     globalState := globalState this;
     _currentPage := _currentPage this; _totalPages := _totalPages this;
     _bookmarks := _bookmarks this; _pageHistory := _pageHistory this;
     _historyIndex := _historyIndex this;
     _isNavigating := _isNavigating this;
     _searchHistory := _searchHistory this; posted := posted this ++ [m];
     shown := shown this |}.

(** [vscode.window.show...Message] *)
Definition show (n : Notice) (this : PdfPreview) : PdfPreview :=
  {| resource := resource this; fileName := fileName this;
     globalState := globalState this;
     _currentPage := _currentPage this; _totalPages := _totalPages this;
     _bookmarks := _bookmarks this; _pageHistory := _pageHistory this;
     _historyIndex := _historyIndex this;
     _isNavigating := _isNavigating this;
     _searchHistory := _searchHistory this; posted := posted this;
     shown := shown this ++ [n] |}.

(** *** Pages *)

(** [gotoPage(page)].  Without an argument an input box opens; [input] is
    the number [parseInt] reads from what the user entered, [None] when the
    box was dismissed or left empty, or when no number is read (the [NaN]
    fails the range test below like a missing page).  With an argument no
    [await] is reached and the body runs at once. *)
Definition gotoPage (page input : option Z) (this : PdfPreview)
    : PdfPreview :=
  let page := match page with Some p => Some p | None => input end in
  match page with
  | Some page =>
      if (page >=? 1)%Z && (page <=? _totalPages this)%Z then
        set_currentPage page (postMessage (GotoPage page) this)
      else this
  | None => this
  end.

Definition firstPage (this : PdfPreview) : PdfPreview :=
  gotoPage (Some 1%Z) None this.

Definition lastPage (this : PdfPreview) : PdfPreview :=
  gotoPage (Some (_totalPages this)) None this.

Definition nextPage (this : PdfPreview) : PdfPreview :=
  if (_currentPage this <? _totalPages this)%Z
  then gotoPage (Some (_currentPage this + 1)%Z) None this
  else this.

Definition previousPage (this : PdfPreview) : PdfPreview :=
  if (_currentPage this >? 1)%Z
  then gotoPage (Some (_currentPage this - 1)%Z) None this
  else this.

(** *** Page history *)

Definition addToHistory (page : Z) (this : PdfPreview) : PdfPreview :=
  let this :=
    if (_historyIndex this <? len (_pageHistory this) - 1)%Z
    then set_pageHistory
           (sliceArray (_pageHistory this) 0 (_historyIndex this + 1)) this
    else this in
  let this :=
    if bool_decide
         (at_ (_pageHistory this) (len (_pageHistory this) - 1) ≠ Some page)
    then
      let this := set_pageHistory (_pageHistory this ++ [page]) this in
      set_historyIndex (len (_pageHistory this) - 1) this
    else this in
  if (len (_pageHistory this) >? 50)%Z
  then set_historyIndex (_historyIndex this - 1)
         (set_pageHistory (drop 1 (_pageHistory this)) this)
  else this.

(** [goBack] and [goForward] pass [this._pageHistory[this._historyIndex]] to
    [gotoPage]; were that entry missing, the input box of [gotoPage] would
    open ([input]). *)
Definition goBack (input : option Z) (this : PdfPreview) : PdfPreview :=
  if (_historyIndex this >? 0)%Z then
    let this := set_historyIndex (_historyIndex this - 1) this in
    let this := set_isNavigating true this in
    gotoPage (at_ (_pageHistory this) (_historyIndex this)) input this
  else show (Information "msg.noBackHistory" []) this.

Definition goForward (input : option Z) (this : PdfPreview) : PdfPreview :=
  if (_historyIndex this <? len (_pageHistory this) - 1)%Z then
    let this := set_historyIndex (_historyIndex this + 1) this in
    let this := set_isNavigating true this in
    gotoPage (at_ (_pageHistory this) (_historyIndex this)) input this
  else show (Information "msg.noForwardHistory" []) this.

(** The case ['pageChanged'] of [onDidReceiveMessage]. *)
Definition pageChanged (page total : Z) (this : PdfPreview) : PdfPreview :=
  let this := set_totalPages total (set_currentPage page this) in
  let this := if _isNavigating this then this else addToHistory page this in
  set_isNavigating false this.

(** *** Bookmarks *)

Definition getBookmarksKey (this : PdfPreview) : string :=
  "pdf-bookmarks-" +:+ resource this.

Definition loadBookmarks (this : PdfPreview) : PdfPreview :=
  set_bookmarks
    (match globalState this !! getBookmarksKey this with
     | Some (StoredBookmarks l) => l
     | _ => []
     end) this.

Definition saveBookmarks (this : PdfPreview) : PdfPreview :=
  update (getBookmarksKey this) (StoredBookmarks (_bookmarks this)) this.

(** The picker of [showBookmarks] and [removeBookmark] returns one of the
    listed items ([selected] is its [index]) or nothing. *)
Definition showBookmarks (selected : option Z) (this : PdfPreview)
    : PdfPreview :=
  if (len (_bookmarks this) =? 0)%Z
  then show (Information "msg.noBookmarks" []) this
  else
    match selected with
    | Some index =>
        match at_ (_bookmarks this) index with
        | Some bookmark => gotoPage (Some (bm_page bookmark)) None this
        | None => this
        end
    | None => this
    end.

Definition removeBookmark (selected : option Z) (this : PdfPreview)
    : PdfPreview :=
  if (len (_bookmarks this) =? 0)%Z
  then show (Information "msg.noBookmarksToRemove" []) this
  else
    match selected with
    | Some index =>
        let this := set_bookmarks (splice1 index (_bookmarks this)) this in
        show (Information "msg.bookmarkRemoved" []) (saveBookmarks this)
    | None => this
    end.

(** What [importBookmarks] finds in the file the user picked: no file was
    picked, reading or parsing it threw, the parsed value has no [bookmarks]
    array, or it has one. *)
Inductive BookmarksFile :=
| NoFile
| Unreadable
| NoBookmarksArray
| BookmarksArray (bookmarks : list Bookmark).

Inductive ImportMode := merge | replace.

(** The loop of the merge branch: the pages of the bookmarks present before
    the loop are collected once; an imported bookmark on another page is
    appended. *)
Definition mergeBookmarks (existing bookmarks : list Bookmark)
    : list Bookmark :=
  let existingPages := bm_page <$> existing in
  foldl (λ acc bookmark,
           if bool_decide (bm_page bookmark ∈ existingPages) then acc
           else acc ++ [bookmark])
    existing bookmarks.

Definition importBookmarks (file : BookmarksFile)
    (selected : option ImportMode) (this : PdfPreview) : PdfPreview :=
  match file with
  | NoFile => this
  | Unreadable => show (ErrorMessage "msg.bookmarksImportError") this
  | NoBookmarksArray => show (ErrorMessage "msg.invalidBookmarksFile") this
  | BookmarksArray bookmarks =>
      match selected with
      | None => this
      | Some mode =>
          let this :=
            match mode with
            | replace => set_bookmarks bookmarks this
            | merge =>
                set_bookmarks (mergeBookmarks (_bookmarks this) bookmarks)
                  this
            end in
          show (Information "msg.bookmarksImported"
                  [NumberArg (len bookmarks)])
            (saveBookmarks this)
      end
  end.

(** *** Recent positions *)

Definition getRecentPositionsKey : string := "pdf-recent-positions".

Definition storedPositions (this : PdfPreview) : list RecentPosition :=
  match globalState this !! getRecentPositionsKey with
  | Some (StoredPositions l) => l
  | _ => []
  end.

Definition saveCurrentPosition (now : Z) (this : PdfPreview) : PdfPreview :=
  let positions := storedPositions this in
  let newPosition :=
    {| rp_uri := resource this; rp_page := _currentPage this;
       rp_timestamp := now; rp_fileName := fileName this |} in
  let positions :=
    match list_find (λ p, rp_uri p = rp_uri newPosition) positions with
    | Some (existingIndex, _) => delete existingIndex positions
    | None => positions
    end in
  let positions := newPosition :: positions in
  let positions :=
    if (len positions >? 20)%Z then take (length positions - 1) positions
    else positions in
  update getRecentPositionsKey (StoredPositions positions) this.

Definition clearRecentPositions (this : PdfPreview) : PdfPreview :=
  show (Information "msg.recentPositionsCleared" [])
    (update getRecentPositionsKey (StoredPositions []) this).

(** *** Search history *)

Definition getSearchHistoryKey : string := "pdf-search-history-global".

Definition loadSearchHistory (this : PdfPreview) : PdfPreview :=
  set_searchHistory
    (match globalState this !! getSearchHistoryKey with
     | Some (StoredSearches l) => l
     | _ => []
     end) this.

Definition saveSearchHistory (this : PdfPreview) : PdfPreview :=
  update getSearchHistoryKey (StoredSearches (_searchHistory this)) this.

Section environment.

(** [String.prototype.toLowerCase] and the translation [t('msg.page', n)] of
    the active language bundle. *)
Context (toLowerCase : jsstring → jsstring) (msgPage : Z → jsstring).

Definition addSearchHistory (query : jsstring) (resultsCount : option Z)
    (now : Z) (this : PdfPreview) : PdfPreview :=
  if negb (truthy (trim query)) then this
  else
    let this :=
      set_searchHistory
        (filter (λ item, toLowerCase (sh_query item) ≠ toLowerCase query)
           (_searchHistory this)) this in
    let this :=
      set_searchHistory
        ({| sh_query := query; sh_timestamp := now;
            sh_resultsCount := resultsCount |} :: _searchHistory this) this in
    let this :=
      if (len (_searchHistory this) >? 50)%Z
      then set_searchHistory (sliceArray (_searchHistory this) 0 50) this
      else this in
    saveSearchHistory this.

(** [label || t('msg.page', this._currentPage)] *)
Definition addBookmark (label : option jsstring) (now : Z)
    (this : PdfPreview) : PdfPreview :=
  let bookmark :=
    {| bm_page := _currentPage this;
       bm_label :=
         match label with
         | Some l => if truthy l then l else msgPage (_currentPage this)
         | None => msgPage (_currentPage this)
         end;
       bm_timestamp := now |} in
  let this := set_bookmarks (_bookmarks this ++ [bookmark]) this in
  let this := saveBookmarks this in
  show (Information "msg.bookmarkAdded" [TextArg (bm_label bookmark)]) this.

(** The commands and messages of this part, with what the user and the
    clock contribute to each. *)
Inductive Command :=
| FirstPage
| LastPage
| NextPage
| PreviousPage
| GotoPageCommand (page input : option Z)
| GoBack (input : option Z)
| GoForward (input : option Z)
| PageChanged (page total : Z)
| AddBookmark (label : option jsstring) (now : Z)
| ShowBookmarks (selected : option Z)
| RemoveBookmark (selected : option Z)
| ImportBookmarks (file : BookmarksFile) (selected : option ImportMode)
| SaveCurrentPosition (now : Z)
| ClearRecentPositions
| AddSearchHistory (query : jsstring) (resultsCount : option Z) (now : Z).

Definition step (c : Command) (this : PdfPreview) : PdfPreview :=
  match c with
  | FirstPage => firstPage this
  | LastPage => lastPage this
  | NextPage => nextPage this
  | PreviousPage => previousPage this
  | GotoPageCommand page input => gotoPage page input this
  | GoBack input => goBack input this
  | GoForward input => goForward input this
  | PageChanged page total => pageChanged page total this
  | AddBookmark label now => addBookmark label now this
  | ShowBookmarks selected => showBookmarks selected this
  | RemoveBookmark selected => removeBookmark selected this
  | ImportBookmarks file selected => importBookmarks file selected this
  | SaveCurrentPosition now => saveCurrentPosition now this
  | ClearRecentPositions => clearRecentPositions this
  | AddSearchHistory query resultsCount now =>
      addSearchHistory query resultsCount now this
  end.

Definition run (commands : list Command) (this : PdfPreview) : PdfPreview :=
  foldl (λ this c, step c this) this commands.

End environment.

(** The constructor, as far as this part goes: the fields start at their
    initialisers and [loadBookmarks] and [loadSearchHistory] are called. *)
Definition new (resource fileName : string)
    (globalState : gmap string Stored) : PdfPreview :=
  loadSearchHistory
    (loadBookmarks
       {| resource := resource; fileName := fileName;
          globalState := globalState; _currentPage := 1; _totalPages := 0;
          _bookmarks := []; _pageHistory := []; _historyIndex := -1;
          _isNavigating := false; _searchHistory := []; posted := [];
          shown := [] |}).

(** The next session on the same document over the store as it is. *)
Definition reopen (this : PdfPreview) : PdfPreview :=
  new (resource this) (fileName this) (globalState this).

(** *** Page ranges *)

Definition isDigit (c : N) : bool := (48 <=? c)%N && (c <=? 57)%N.

(** The value of the decimal digits [s] starts with, after [acc]. *)
Fixpoint digitsValue (acc : Z) (s : jsstring) : Z :=
  match s with
  | c :: s' =>
      if isDigit c then digitsValue (10 * acc + (Z.of_N c - 48)) s' else acc
  | [] => acc
  end.

(** [parseInt(s, 10)]: leading white space is skipped, a sign is read, and
    then the longest run of digits; [None] is [NaN].  The value is exact as
    long as it is below 2^53. *)
Definition parseInt (s : jsstring) : option Z :=
  let s := trimStart s in
  let signed :=
    match s with
    | 45%N :: r => ((-1)%Z, r)
    | 43%N :: r => (1%Z, r)
    | _ => (1%Z, s)
    end in
  match signed.2 with
  | c :: _ =>
      if isDigit c then Some (signed.1 * digitsValue 0 signed.2)%Z else None
  | [] => None
  end.

(** [s.split(sep)] for a separator of one code unit. *)
Fixpoint split (sep : N) (s : jsstring) : list jsstring :=
  match s with
  | [] => [[]]
  | c :: s' =>
      if (c =? sep)%N then [] :: split sep s'
      else
        match split sep s' with
        | h :: t => (c :: h) :: t
        | [] => [[c]]
        end
  end.

(** [set.add(x)] on a [Set] kept in insertion order. *)
Definition setAdd (x : Z) (s : list Z) : list Z :=
  if bool_decide (x ∈ s) then s else s ++ [x].

Fixpoint insertSorted (x : Z) (l : list Z) : list Z :=
  match l with
  | [] => [x]
  | y :: l' => if (x <=? y)%Z then x :: l else y :: insertSorted x l'
  end.

(** [array.sort((a, b) => a - b)] *)
Definition sortAscending (l : list Z) : list Z := foldr insertSorted [] l.

(** One round of the loop over the parts. *)
Definition addPart (totalPages : Z) (pages : list Z) (part : jsstring)
    : list Z :=
  if existsb (N.eqb 45) part then
    let numbers := parseInt <$> split 45 part in
    match numbers !! 0, numbers !! 1 with
    | Some (Some start), Some (Some end_) =>
        foldl (λ pages i,
                 if (i >=? 1)%Z && (i <=? totalPages)%Z then setAdd i pages
                 else pages)
          pages
          (seqZ (Z.min start end_)
             (Z.max start end_ - Z.min start end_ + 1))
    | _, _ => pages
    end
  else
    match parseInt part with
    | Some page =>
        if (page >=? 1)%Z && (page <=? totalPages)%Z then setAdd page pages
        else pages
    | None => pages
    end.

Definition parsePageRange (input : jsstring) (this : PdfPreview) : list Z :=
  let parts := trim <$> split 44 input in
  sortAscending (foldl (addPart (_totalPages this)) [] parts).

End Reader.

(** The case ['gotoPage'] of the view's message listener:
    [if (message.page && message.page >= 1 &&
         message.page <= PDFViewerApplication.pagesCount)]. *)
Definition viewGotoPage (m : Reader.ToWebview) (st : Webview.State)
    : Webview.State :=
  match m with
  | Reader.GotoPage page =>
      if negb (page =? 0)%Z && (page >=? 1)%Z
         && (page <=? Webview.pagesCount st)%Z
      then Webview.assignCurrentPage page st
      else st
  end.

(** The host and the viewer agree on the page shown and on the number of
    pages. *)
Definition samePage (this : Reader.PdfPreview) (st : Webview.State) : bool :=
  (Reader._currentPage this =? Webview.currentPageNumber st)%Z
  && (Reader._totalPages this =? Webview.pagesCount st)%Z.

(** The current page of the host lies in the document. *)
Definition inDocument (this : Reader.PdfPreview) : bool :=
  (1 <=? Reader._currentPage this)%Z
  && (Reader._currentPage this <=? Reader._totalPages this)%Z.

(** A [pageChanged] message as [notifyPageChange] of a viewer showing a page
    of its document sends it. *)
Definition fromViewer (c : Reader.Command) : bool :=
  match c with
  | Reader.PageChanged page total => (1 <=? page)%Z && (page <=? total)%Z
  | _ => true
  end.

(** The page history holds at most 50 entries and its cursor is -1 or the
    position of an entry. *)
Definition historyInBounds (this : Reader.PdfPreview) : bool :=
  (len (Reader._pageHistory this) <=? 50)%Z
  && (-1 <=? Reader._historyIndex this)%Z
  && (Reader._historyIndex this <? len (Reader._pageHistory this))%Z.

(** The bookmarks and searches a new session would load from the store. *)
Definition storedBookmarks (this : Reader.PdfPreview)
    : list Reader.Bookmark :=
  match Reader.globalState this !! Reader.getBookmarksKey this with
  | Some (Reader.StoredBookmarks l) => l
  | _ => []
  end.

Definition storedSearches (this : Reader.PdfPreview)
    : list Reader.SearchHistoryItem :=
  match Reader.globalState this !! Reader.getSearchHistoryKey with
  | Some (Reader.StoredSearches l) => l
  | _ => []
  end.

(** Strictly ascending: every entry is below the next one. *)
Fixpoint ascending (l : list Z) : bool :=
  match l with
  | a :: (b :: _) as rest => (a <? b)%Z && ascending rest
  | _ => true
  end.

(** The page numbers a part of a page range denotes: the numbers between
    the two bounds of ["a-b"] (in either order), or the single number. *)
Definition selects (part : jsstring) (p : Z) : Prop :=
  if existsb (N.eqb 45) part then
    match (Reader.parseInt <$> Reader.split 45 part) !! 0,
          (Reader.parseInt <$> Reader.split 45 part) !! 1 with
    | Some (Some a), Some (Some b) => (Z.min a b ≤ p ≤ Z.max a b)%Z
    | _, _ => False
    end
  else Reader.parseInt part = Some p.

(** [notifyPageChange] of the view: the message it posts on a page change. *)
Definition notifyPageChange (st : Webview.State) : Reader.Command :=
  Reader.PageChanged (Webview.currentPageNumber st) (Webview.pagesCount st).

(** A command of the host, as opposed to a message of the view. *)
Definition hostCommand (c : Reader.Command) : bool :=
  match c with
  | Reader.PageChanged _ _ => false
  | _ => true
  end.

(** The view handles the messages a host command posted. *)
Definition deliver (this this' : Reader.PdfPreview) (st : Webview.State)
    : Webview.State :=
  foldl (λ st m, viewGotoPage m st) st
    (drop (length (Reader.posted this)) (Reader.posted this')).

(** ** Comments: the popup, editing and deleting

    [showCommentPopup], [deleteComment], [editComment] and [jumpToComment]
    of the webview script, and [handleShowComment] of the host.  The
    messages of these functions that the annotation store does not act on
    are kept beside the state. *)

Module Comments.

(** Messages of the view. *)
Inductive Reply :=
| ShowComment (index : Z) (comment text : jsstring) (page : Z)
    (author : jsstring) (timestamp : Z)
| CommentDeleted (remaining : Z)
| CommentEdited (index : Z)
| NoComments
| CommentJumped (index total : Z).

(** Messages of the host. *)
Inductive Request :=
| JumpToComment (index : Z)
| EditComment (index : Z) (newComment : jsstring)
| DeleteComment (index : Z).

Definition showCommentPopup (index : Z) (st : Webview.State)
    : Webview.State * list Reply :=
  if outOfRange index (Webview.comments st) then (st, [])
  else
    match Webview.comments st !! Z.to_nat index with
    | Some comment =>
        (st, [ShowComment index (Webview.c_comment comment)
                (Webview.c_text comment) (Webview.c_page comment)
                (Webview.c_author comment) (Webview.c_timestamp comment)])
    | None => (st, [])
    end.

Section icon.
Context (icon : nat).

Definition isIcon (t : tag) : bool :=
  match t with CommentIcon id => Nat.eqb id icon | _ => false end.

(** [icon.parentNode.removeChild(icon)]: the nodes that remain of a node;
    none when the node is the icon itself.  An element is one object, so at
    most one node of a document is the icon. *)
Fixpoint removeIconNode (n : node) : list node :=
  match n with
  | Text s => [Text s]
  | Element t ks =>
      if isIcon t then [] else [Element t (flat_map removeIconNode ks)]
  end.

Definition removeIcon (pages : list PageView) : list PageView :=
  (λ pv, {| pageNumber := pageNumber pv;
            textLayer := flat_map removeIconNode <$> textLayer pv;
            stickyEls := stickyEls pv |}) <$> pages.

(** No node below these is the icon. *)
Fixpoint iconAbsentNode (n : node) : bool :=
  match n with
  | Text _ => true
  | Element t ks => negb (isIcon t) && forallb iconAbsentNode ks
  end.

Definition iconAbsent (pages : list PageView) : bool :=
  forallb (λ pv, from_option (forallb iconAbsentNode) true (textLayer pv))
    pages.

End icon.

(** The document after the span of a comment was taken out: when the span
    has a parent, the icon is removed first, the remaining children of the
    span are moved before it, and the span is removed. *)
Definition detachComment (comment : Webview.Comment) (pages : list PageView)
    : list PageView :=
  match unwrapSpan (Webview.c_element comment) pages with
  | Some _ =>
      let pages := removeIcon (Webview.c_icon comment) pages in
      match unwrapSpan (Webview.c_element comment) pages with
      | Some doc => doc
      | None => pages
      end
  | None => pages
  end.

(** [dataset.commentIndex] of the remaining spans is renumbered; the
    attribute is not tracked. *)
Definition deleteComment (index : Z) (st : Webview.State)
    : Webview.State * list Reply :=
  if outOfRange index (Webview.comments st) then
    (Webview.postMessage (CommentError "Invalid index") st, [])
  else
    let st :=
      match Webview.comments st !! Z.to_nat index with
      | Some commentData =>
          Webview.set_pages (detachComment commentData (Webview.pages st)) st
      | None => st
      end in
    let st := Webview.set_comments (splice1 index (Webview.comments st)) st in
    (st, [CommentDeleted (len (Webview.comments st))]).

(** The [title] of the span is not tracked. *)
Definition editComment (index : Z) (newComment : jsstring)
    (st : Webview.State) : Webview.State * list Reply :=
  if outOfRange index (Webview.comments st) then
    (Webview.postMessage (CommentError "Invalid index") st, [])
  else
    let st :=
      Webview.set_comments
        (alter (λ c, {| Webview.c_element := Webview.c_element c;
                        Webview.c_icon := Webview.c_icon c;
                        Webview.c_text := Webview.c_text c;
                        Webview.c_comment := newComment;
                        Webview.c_color := Webview.c_color c;
                        Webview.c_page := Webview.c_page c;
                        Webview.c_textBefore := Webview.c_textBefore c;
                        Webview.c_textAfter := Webview.c_textAfter c;
                        Webview.c_timestamp := Webview.c_timestamp c;
                        Webview.c_author := Webview.c_author c |})
           (Z.to_nat index) (Webview.comments st)) st in
    (st, [CommentEdited index]).

Definition jumpToComment (index : Z) (st : Webview.State)
    : Webview.State * list Reply :=
  if outOfRange index (Webview.comments st) then (st, [NoComments])
  else
    match Webview.comments st !! Z.to_nat index with
    | Some commentData =>
        let st :=
          if negb (Webview.c_page commentData
                   =? Webview.currentPageNumber st)%Z
          then Webview.assignCurrentPage (Webview.c_page commentData) st
          else st in
        (st, [CommentJumped index (len (Webview.comments st))])
    | None => (st, [])
    end.

(** The comment cases of the view's message listener. *)
Definition handle (message : Request) (st : Webview.State)
    : Webview.State * list Reply :=
  match message with
  | JumpToComment index => jumpToComment index st
  | EditComment index newComment => editComment index newComment st
  | DeleteComment index => deleteComment index st
  end.

(** What the user picks in the popup of [handleShowComment]; for an edit,
    what the input box returns. *)
Inductive PopupChoice :=
| jump
| edit (newComment : option jsstring)
| delete_
| copy.

(** [array.splice(start, 1)] for any number [start]. *)
Definition spliceAt {A} (start : Z) (l : list A) : list A :=
  delete (Z.to_nat (relative (len l) start)) l.

(** [handleShowComment]: the host after the choice, and the messages it
    posts to the view.  The clipboard is not tracked. *)
Definition handleShowComment (index : Z) (selected : option PopupChoice)
    (this : Host.PdfPreview) : Host.PdfPreview * list Request :=
  match selected with
  | None => (this, [])
  | Some jump => (this, [JumpToComment index])
  | Some (edit None) => (this, [])
  | Some (edit (Some newComment)) =>
      let this :=
        match at_ (Host._savedComments this) index with
        | Some _ =>
            Host.saveComments
              (Host.set_savedComments
                 (alter (λ c, {| cd_text := cd_text c;
                                 cd_comment := newComment;
                                 cd_color := cd_color c;
                                 cd_page := cd_page c;
                                 cd_timestamp := cd_timestamp c;
                                 cd_textBefore := cd_textBefore c;
                                 cd_textAfter := cd_textAfter c;
                                 cd_author := cd_author c |})
                    (Z.to_nat index) (Host._savedComments this)) this)
        | None => this
        end in
      (this, [EditComment index newComment])
  | Some delete_ =>
      (Host.saveComments
         (Host.set_savedComments
            (spliceAt index (Host._savedComments this)) this),
       [DeleteComment index])
  | Some copy => (Host.show (Host.Information "msg.textCopied" []) this, [])
  end.

(** The notifications of the host for the messages of the view. *)
Definition onDidReceiveMessage (message : Reply) (choice : option PopupChoice)
    (this : Host.PdfPreview) : Host.PdfPreview * list Request :=
  match message with
  | ShowComment index _ _ _ _ _ => handleShowComment index choice this
  | CommentDeleted remaining =>
      (Host.show (Host.Information "msg.commentDeleted" [remaining]) this, [])
  | CommentEdited _ =>
      (Host.show (Host.Information "msg.commentEdited" []) this, [])
  | NoComments =>
      (Host.show (Host.Information "msg.noComments" []) this, [])
  | CommentJumped _ _ => (this, [])
  end.

(** A click that opens the popup of comment [index], the choice the user
    makes there, and what the two halves do about it: the view posts
    [showComment], the host handles it and posts its request, the view
    handles the request, and the host shows the notification for the
    answer. *)
Definition popup (index : Z) (choice : option PopupChoice)
    (st : Webview.State) (host : Host.PdfPreview)
    : Webview.State * Host.PdfPreview :=
  let shown := showCommentPopup index st in
  let asked :=
    foldl (λ acc m,
             let r := onDidReceiveMessage m choice acc.1 in
             (r.1, acc.2 ++ r.2))
      (host, []) shown.2 in
  let answered :=
    foldl (λ acc m, let r := handle m acc.1 in (r.1, acc.2 ++ r.2))
      (shown.1, []) asked.2 in
  let notified :=
    foldl (λ this m, (onDidReceiveMessage m None this).1) asked.1
      answered.2 in
  (answered.1, notified).

End Comments.

(** What an entry of the view's comment list and a stored comment have in
    common. *)
Definition viewComment (c : Webview.Comment)
    : jsstring * jsstring * string * Z * jsstring * jsstring * jsstring :=
  (Webview.c_text c, Webview.c_comment c, Webview.c_color c,
   Webview.c_page c, Webview.c_textBefore c, Webview.c_textAfter c,
   Webview.c_author c).

Definition storedComment (d : CommentData)
    : jsstring * jsstring * string * Z * jsstring * jsstring * jsstring :=
  (cd_text d, cd_comment d, cd_color d, cd_page d, cd_textBefore d,
   cd_textAfter d, cd_author d).

Definition commentsAligned (st : Webview.State) (host : Host.PdfPreview)
    : Prop :=
  viewComment <$> Webview.comments st
  = storedComment <$> Host._savedComments host.

(** The steps of a comment session: a comment is added to the selection, or
    the popup of a comment is opened and a choice made. *)
Inductive CommentStep :=
| AddComment (commentText : jsstring) (color : option string)
    (selection : option Webview.Selection) (now now' : Z)
| Popup (index : Z) (choice : option Comments.PopupChoice).

Definition commentStep (s : CommentStep) (st : Webview.State)
    (host : Host.PdfPreview) : Webview.State * Host.PdfPreview :=
  match s with
  | AddComment commentText color selection now now' =>
      let st' :=
        Webview.addCommentToSelection commentText color selection now now'
          st in
      (st', Host.receiveAll (newMessages st st') host)
  | Popup index choice => Comments.popup index choice st host
  end.

Fixpoint commentSession (steps : list CommentStep) (st : Webview.State)
    (host : Host.PdfPreview) : Webview.State * Host.PdfPreview :=
  match steps with
  | [] => (st, host)
  | s :: rest =>
      let r := commentStep s st host in
      commentSession rest r.1 r.2
  end.

(** The comments a session would load from the store. *)
Definition storedComments (this : Host.PdfPreview) : list CommentData :=
  match Host.globalState this !! Host.commentsKey this with
  | Some (Host.StoredComments l) => l
  | _ => []
  end.

(** ** The highlight picker of the host

    [handleHighlightsSummary]: the list the view sent is shown in a quick
    pick, followed by a separator and the entry "delete all"; for a picked
    highlight a second quick pick offers the actions. *)

Module Picker.

Inductive HighlightAction := jump | delete_ | copy.

(** What the user picks: the listed highlight at [position] and then an
    action (or none), or "delete all" and the answer to the confirmation.
    The separator cannot be picked. *)
Inductive Selected :=
| Item (position : nat) (action : option HighlightAction)
| DeleteAll (confirmed : bool).

(** [index: h.index - 1] of the item built for a summary line. *)
Definition itemIndex (h : HighlightSummary) : Z := (hs_index h - 1)%Z.

(** The host after the choice and the messages it posts to the view.  The
    clipboard is not tracked. *)
Definition handleHighlightsSummary (highlights : list HighlightSummary)
    (total : Z) (selected : option Selected) (this : Host.PdfPreview)
    : Host.PdfPreview * list Jump.Request :=
  match highlights with
  | [] => (Host.show (Host.Information "msg.noHighlights" []) this, [])
  | _ :: _ =>
      match selected with
      | None => (this, [])
      | Some (DeleteAll confirmed) =>
          if confirmed
          then (this, [Jump.Annotate ClearAllHighlightsRequest])
          else (this, [])
      | Some (Item position action) =>
          match highlights !! position with
          | Some item =>
              if (itemIndex item >=? 0)%Z then
                match action with
                | None => (this, [])
                | Some jump =>
                    (this, [Jump.JumpToHighlightIndex (itemIndex item)])
                | Some delete_ =>
                    (this,
                     [Jump.Annotate
                        (RemoveHighlightRequest (itemIndex item))])
                | Some copy =>
                    match list_find
                            (λ h, hs_index h = (itemIndex item + 1)%Z)
                            highlights with
                    | Some _ =>
                        (Host.show (Host.Information "msg.textCopied" [])
                           this, [])
                    | None => (this, [])
                    end
                end
              else (this, [])
          | None => (this, [])
          end
      end
  end.

(** The host shows the picker for the last summary the view posted and the
    view handles the messages of the choice. *)
Definition pick (selected : option Selected) (st : Webview.State)
    (host : Host.PdfPreview) : Webview.State :=
  let st := Webview.getHighlightsSummary st in
  match last (Webview.outbox st) with
  | Some (HighlightsSummary highlights total) =>
      Jump.handleAll
        (handleHighlightsSummary highlights total selected host).2 st
  | _ => st
  end.

End Picker.

(** A host session on the sample document: the viewer reported page 1 of 2,
    and later page 2. *)

Module SampleReader.

Definition opened : Reader.PdfPreview :=
  Reader.pageChanged 1 2 (Reader.new SampleStore.uri "paper.pdf" ∅).

Definition browsed : Reader.PdfPreview := Reader.pageChanged 2 2 opened.

End SampleReader.

(** ** The reading position across sessions

    [saveState] and [restoreState] of the host, the handlers that call them
    ([scaleChanged], [stateChanged], [documentLoaded] and the one registered
    with [onDidDispose]), and the view's handler of [restoreState].  The
    state is kept in [workspaceState].  The zoom commands of the host, which
    set the scale and call [saveState] as [scaleChanged] does, are not
    listed. *)

Module Position.

Record PdfState := {
  ps_page : Z;
  ps_scale : string;
  ps_scrollTop : Z;
  ps_scrollLeft : Z
}.

Inductive ToWebview :=
| RestoreState (page : Z) (scale : string).

Record PdfPreview := {
  resource : string;
  workspaceState : gmap string PdfState;
  _currentPage : Z;
  _totalPages : Z;
  _currentScale : string;
  posted : list ToWebview
}.

Definition set_currentPage (x : Z) (this : PdfPreview) : PdfPreview :=
  {| resource := resource this; workspaceState := workspaceState this;
     _currentPage := x; _totalPages := _totalPages this;
     _currentScale := _currentScale this; posted := posted this |}.

Definition set_totalPages (x : Z) (this : PdfPreview) : PdfPreview :=
  {| resource := resource this; workspaceState := workspaceState this;
     _currentPage := _currentPage this; _totalPages := x;
     _currentScale := _currentScale this; posted := posted this |}.

Definition set_currentScale (x : string) (this : PdfPreview) : PdfPreview :=
  {| resource := resource this; workspaceState := workspaceState this;
     _currentPage := _currentPage this; _totalPages := _totalPages this;
     _currentScale := x; posted := posted this |}.

Definition getStateKey (this : PdfPreview) : string :=
  "pdf-state-" +:+ resource this.

Definition saveState (this : PdfPreview) : PdfPreview :=
  {| resource := resource this;
     workspaceState :=
       <[getStateKey this :=
           {| ps_page := _currentPage this; ps_scale := _currentScale this;
              ps_scrollTop := 0; ps_scrollLeft := 0 |}]>
         (workspaceState this);
     _currentPage := _currentPage this; _totalPages := _totalPages this;
     _currentScale := _currentScale this; posted := posted this |}.

Definition restoreState (this : PdfPreview) : PdfPreview :=
  match workspaceState this !! getStateKey this with
  | Some state =>
      {| resource := resource this; workspaceState := workspaceState this;
         _currentPage := ps_page state; _totalPages := _totalPages this;
         _currentScale := ps_scale state;
         posted := posted this ++ [RestoreState (ps_page state)
                                     (ps_scale state)] |}
  | None => this
  end.

(** The messages of the view that touch the position, with the fields that
    may be missing. *)
Inductive Message :=
| PageChanged (page total : Z)
| ScaleChanged (scale : string)
| DocumentLoaded (total : Z) (page : option Z)
| StateChanged (page : option Z) (scale : option string).

(** The history kept on [pageChanged] and the status bar are not part of
    the position. *)
Definition onDidReceiveMessage (message : Message) (this : PdfPreview)
    : PdfPreview :=
  match message with
  | PageChanged page total => set_totalPages total (set_currentPage page this)
  | ScaleChanged scale => saveState (set_currentScale scale this)
  | DocumentLoaded total page =>
      let this := set_totalPages total this in
      let this :=
        set_currentPage
          (match page with
           | Some p => if (p =? 0)%Z then 1%Z else p
           | None => 1%Z
           end) this in
      restoreState this
  | StateChanged page scale =>
      let this :=
        match page with
        | Some p => if (p =? 0)%Z then this else set_currentPage p this
        | None => this
        end in
      let this :=
        match scale with
        | Some s =>
            if decide (s = ""%string) then this else set_currentScale s this
        | None => this
        end in
      saveState this
  end.

Definition receiveAll (messages : list Message) (this : PdfPreview)
    : PdfPreview :=
  foldl (λ this m, onDidReceiveMessage m this) this messages.

(** The fields as the class initialises them. *)
Definition new (resource : string) (workspaceState : gmap string PdfState)
    : PdfPreview :=
  {| resource := resource; workspaceState := workspaceState;
     _currentPage := 1; _totalPages := 0; _currentScale := "auto";
     posted := [] |}.

(** The handler registered with [webviewEditor.onDidDispose]: the status
    bar item is hidden and the state is saved. *)
Definition dispose (this : PdfPreview) : PdfPreview := saveState this.

(** The panel is closed and the document is opened again: the next session
    starts over the store the dispose handler leaves. *)
Definition reopen (this : PdfPreview) : PdfPreview :=
  new (resource this) (workspaceState (dispose this)).

(** The case ['restoreState'] of the view's message listener; the scale of
    the viewer is not tracked. *)
Definition viewRestoreState (m : ToWebview) (st : Webview.State)
    : Webview.State :=
  match m with
  | RestoreState page _ =>
      if negb (page =? 0)%Z then Webview.assignCurrentPage page st else st
  end.

(** A message that reports a page change and nothing else. *)
Definition isPageChanged (m : Message) : bool :=
  match m with PageChanged _ _ => true | _ => false end.

End Position.

(** * Properties *)

(** ** The string functions *)

Section string_facts.

Lemma startsWith_prefix p s : startsWith p s = true ↔ ∃ r, s = p ++ r.
Proof.
  revert s; induction p as [|a p IH]; intros s; simpl.
  - split; [eauto | done].
  - destruct s as [|b s].
    + split; [done | intros [r Hr]; discriminate].
    + rewrite andb_true_iff, N.eqb_eq, IH. split.
      * intros [-> [r ->]]. eauto.
      * intros [r Hr]. injection Hr as -> ->. eauto.
Qed.

Lemma startsWith_false p s : startsWith p s = false ↔ ¬ ∃ r, s = p ++ r.
Proof.
  split.
  - intros H Hex. apply startsWith_prefix in Hex. congruence.
  - intros H. destruct (startsWith p s) eqn:E; [|done].
    exfalso. by apply H, startsWith_prefix.
Qed.

Lemma indexOf_from_range t s k :
  indexOf_from t s k = (-1)%Z ∨
  (k ≤ indexOf_from t s k ≤ k + Z.of_nat (length s))%Z.
Proof.
  revert k; induction s as [|c s IH]; intros k; simpl.
  - destruct (startsWith t []); [right; lia | by left].
  - destruct (startsWith t (c :: s)); [right; lia|].
    destruct (IH (k + 1)%Z) as [->|?]; [by left | right; lia].
Qed.

(** A successful search returns the first position of an occurrence. *)
Lemma indexOf_from_found t s k i :
  (0 ≤ k)%Z →
  indexOf_from t s k = (k + Z.of_nat i)%Z →
  startsWith t (drop i s) = true ∧
  ∀ j, j < i → startsWith t (drop j s) = false.
Proof.
  revert k i; induction s as [|c s IH]; intros k i Hk; simpl.
  - destruct (startsWith t []) eqn:E.
    + intros Hi. assert (i = 0) as -> by lia. split; [done | lia].
    + lia.
  - destruct (startsWith t (c :: s)) eqn:E.
    + intros Hi. assert (i = 0) as -> by lia. split; [done | lia].
    + intros Hi.
      destruct (indexOf_from_range t s (k + 1)) as [Hn | Hr]; [lia|].
      destruct i as [|i]; [lia|].
      destruct (IH (k + 1)%Z i) as [H1 H2]; [lia | lia |].
      split; [done|]. intros [|j] Hj; [done|]. apply H2. lia.
Qed.

Lemma indexOf_from_none t s k :
  (0 ≤ k)%Z →
  indexOf_from t s k = (-1)%Z ↔ ∀ j, startsWith t (drop j s) = false.
Proof.
  revert k; induction s as [|c s IH]; intros k Hk; simpl.
  - destruct (startsWith t []) eqn:E.
    + split; [lia|]. intros H. specialize (H 0). simpl in H. congruence.
    + split; [|done]. intros _ j. by rewrite drop_nil.
  - destruct (startsWith t (c :: s)) eqn:E.
    + split; [lia|]. intros H. specialize (H 0). simpl in H. congruence.
    + rewrite IH by lia. split.
      * intros H [|j]; [done | apply H].
      * intros H j. apply (H (S j)).
Qed.

Lemma indexOf_range t s :
  indexOf t s = (-1)%Z ∨ (0 ≤ indexOf t s ≤ Z.of_nat (length s))%Z.
Proof. apply (indexOf_from_range t s 0). Qed.

(** [indexOf] finds the text exactly when it occurs. *)
Lemma indexOf_none t s : indexOf t s = (-1)%Z ↔ ¬ occursIn t s.
Proof.
  unfold indexOf. rewrite indexOf_from_none by lia. split.
  - intros H (l1 & l2 & ->).
    specialize (H (length l1)). rewrite drop_app_length in H.
    apply startsWith_false in H. apply H. eauto.
  - intros H j. apply startsWith_false. intros [r Hr]. apply H.
    exists (take j s), r. by rewrite <- Hr, take_drop.
Qed.

(** At the returned position the text is found, and nowhere before it. *)
Lemma indexOf_found t s i :
  indexOf t s = Z.of_nat i →
  s = take i s ++ t ++ drop (i + length t) s ∧
  ∀ j, j < i → ¬ ∃ r, drop j s = t ++ r.
Proof.
  intros Hi. destruct (indexOf_from_found t s 0 i) as [H1 H2];
    [lia | by rewrite Z.add_0_l |].
  apply startsWith_prefix in H1 as [r Hr]. split.
  - rewrite <- drop_drop, Hr, drop_app_length, <- Hr. by rewrite take_drop.
  - intros j Hj. apply startsWith_false. by apply H2.
Qed.





Lemma occursIn_refl t : occursIn t t.
Proof. exists [], []. by rewrite app_nil_r. Qed.

Lemma occursIn_nil s : occursIn [] s.
Proof. by exists [], s. Qed.

Lemma substring_0_take t n :
  (0 ≤ n)%Z → substring t 0 n = take (Z.to_nat n) t.
Proof.
  intros Hn. unfold substring, clamp, jslength.
  set (len := Z.of_nat (length t)).
  replace (Z.min (Z.min (Z.max 0 0) len) (Z.min (Z.max n 0) len)) with 0%Z
    by lia.
  replace (Z.max (Z.min (Z.max 0 0) len) (Z.min (Z.max n 0) len) - 0)%Z
    with (Z.min n len) by lia.
  rewrite drop_0. destruct (Z.min_spec n len) as [[? ->]|[Hle ->]]; [done|].
  unfold len in *. rewrite Nat2Z.id, firstn_all. symmetry.
  apply take_ge. lia.
Qed.

Lemma length_slice_to s (n : Z) :
  (0 ≤ n)%Z → (jslength (slice s 0 (Some n)) ≤ n)%Z.
Proof.
  intros Hn. unfold slice, relative, jslength. rewrite length_take. simpl.
  destruct (n <? 0)%Z eqn:E; lia.
Qed.

Lemma length_slice_last s (n : Z) :
  (0 < n)%Z → (jslength (slice s (- n) None) ≤ n)%Z.
Proof.
  intros Hn. unfold slice, relative, jslength.
  rewrite length_take, length_drop.
  destruct (- n <? 0)%Z eqn:E; lia.
Qed.

(** [slice(-n)] is a suffix, [slice(0, n)] a prefix of the string. *)
Lemma slice_last_suffix s (n : Z) : slice s (- n) None `suffix_of` s.
Proof.
  unfold slice. set (from := Z.to_nat _).
  rewrite take_ge.
  - apply suffix_drop.
  - rewrite length_drop. subst from. unfold relative, jslength.
    destruct (- n <? 0)%Z; lia.
Qed.

Lemma slice_to_prefix s (n : Z) : slice s 0 (Some n) `prefix_of` s.
Proof.
  unfold slice, relative, jslength. simpl.
  replace (Z.to_nat (Z.min 0 (Z.of_nat (length s)))) with 0 by lia.
  rewrite drop_0. apply prefix_take.
Qed.

End string_facts.

(** ** The document tree *)

Section forest.

Lemma forest_size_cons k rest :
  forest_size (k :: rest) = node_size k + forest_size rest.
Proof. reflexivity. Qed.

(** Induction over a forest: the first tree's children and the siblings
    after it are both smaller forests. *)
Lemma forest_ind (P : list node → Prop) :
  P [] →
  (∀ s rest, P rest → P (Text s :: rest)) →
  (∀ t ks rest, P ks → P rest → P (Element t ks :: rest)) →
  ∀ ns, P ns.
Proof.
  intros Hnil Htext Helem ns.
  remember (forest_size ns) as n eqn:Hn. revert ns Hn.
  induction n as [n IH] using lt_wf_ind. intros ns ->.
  destruct ns as [|[s|t ks] rest]; [done | |].
  - apply Htext, (IH (forest_size rest)); [|done].
    rewrite forest_size_cons. simpl. lia.
  - apply Helem.
    + apply (IH (forest_size ks)); [|done].
      rewrite forest_size_cons. simpl. unfold forest_size. lia.
    + apply (IH (forest_size rest)); [|done].
      rewrite forest_size_cons. simpl. lia.
Qed.

Lemma textNodes_Text s rest : textNodes (Text s :: rest) = s :: textNodes rest.
Proof. reflexivity. Qed.

Lemma textNodes_Element t ks rest :
  textNodes (Element t ks :: rest) = textNodes ks ++ textNodes rest.
Proof. reflexivity. Qed.

Lemma textNodes_app a b : textNodes (a ++ b) = textNodes a ++ textNodes b.
Proof. apply flat_map_app. Qed.

Lemma serialize_Text s rest :
  serialize (Text s :: rest) = TText s :: serialize rest.
Proof. reflexivity. Qed.

Lemma serialize_Element t ks rest :
  serialize (Element t ks :: rest)
  = TOpen t :: serialize ks ++ TClose :: serialize rest.
Proof.
  unfold serialize at 1. simpl. fold (serialize ks) (serialize rest).
  by rewrite <- app_assoc.
Qed.

Lemma serialize_app a b : serialize (a ++ b) = serialize a ++ serialize b.
Proof. apply flat_map_app. Qed.

Lemma markerCount_Text s rest : markerCount (Text s :: rest) = markerCount rest.
Proof. reflexivity. Qed.

Lemma markerCount_Element t ks rest :
  markerCount (Element t ks :: rest)
  = (if isMarker t then 1 else 0) + markerCount ks + markerCount rest.
Proof. unfold markerCount. simpl. lia. Qed.

Lemma markerCount_app a b :
  markerCount (a ++ b) = markerCount a + markerCount b.
Proof. unfold markerCount. by rewrite map_app, list_sum_app. Qed.

Lemma walk_Text f s rest :
  walk f (Text s :: rest)
  = match f s with
    | Some r => Some (r ++ rest)
    | None => (Text s ::.) <$> walk f rest
    end.
Proof. reflexivity. Qed.

Lemma walk_cons f k rest :
  walk f (k :: rest)
  = match walkNode f k with
    | Some r => Some (r ++ rest)
    | None => (k ::.) <$> walk f rest
    end.
Proof. reflexivity. Qed.

Lemma walkNode_Element f t ks :
  walkNode f (Element t ks) = (λ ks', [Element t ks']) <$> walk f ks.
Proof. reflexivity. Qed.

Lemma walk_Element f t ks rest :
  walk f (Element t ks :: rest)
  = match walk f ks with
    | Some ks' => Some (Element t ks' :: rest)
    | None => (Element t ks ::.) <$> walk f rest
    end.
Proof. rewrite walk_cons, walkNode_Element. by destruct (walk f ks). Qed.

Lemma unwrap_Text id s rest :
  unwrap id (Text s :: rest) = (Text s ::.) <$> unwrap id rest.
Proof. reflexivity. Qed.

Lemma unwrap_cons id k rest :
  unwrap id (k :: rest)
  = match unwrapNode id k with
    | Some r => Some (r ++ rest)
    | None => (k ::.) <$> unwrap id rest
    end.
Proof. reflexivity. Qed.

Lemma unwrapNode_Element id t ks :
  unwrapNode id (Element t ks)
  = if isSpan id t then Some ks
    else (λ ks', [Element t ks']) <$> unwrap id ks.
Proof. reflexivity. Qed.

Lemma unwrap_Element id t ks rest :
  unwrap id (Element t ks :: rest)
  = if isSpan id t then Some (ks ++ rest)
    else match unwrap id ks with
         | Some ks' => Some (Element t ks' :: rest)
         | None => (Element t ks ::.) <$> unwrap id rest
         end.
Proof.
  rewrite unwrap_cons, unwrapNode_Element.
  destruct (isSpan id t); [done|]. by destruct (unwrap id ks).
Qed.

(** The text nodes are the text tokens of the markup. *)
Lemma elem_of_textNodes s ns : s ∈ textNodes ns ↔ TText s ∈ serialize ns.
Proof.
  induction ns as [|x rest IH|t ks rest IHks IHrest] using forest_ind.
  - by rewrite !elem_of_nil.
  - rewrite textNodes_Text, serialize_Text, !elem_of_cons, IH.
    split; intros [H|H]; auto; left; congruence.
  - rewrite textNodes_Element, serialize_Element.
    rewrite elem_of_cons, !elem_of_app, elem_of_cons, IHks, IHrest.
    split; [tauto|]. intros [?|[?|[?|?]]]; try done; tauto.
Qed.

(** The loop runs to its end exactly when its body fails on every text
    node. *)
Lemma walk_None f ns :
  walk f ns = None ↔ ∀ s, s ∈ textNodes ns → f s = None.
Proof.
  induction ns as [|x rest IH|t ks rest IHks IHrest] using forest_ind.
  - split; [|done]. intros _ s Hs. by apply elem_of_nil in Hs.
  - rewrite walk_Text, textNodes_Text. destruct (f x) as [r|] eqn:E.
    + split; [done|]. intros H. specialize (H x). rewrite E in H.
      by discriminate H; left.
    + rewrite fmap_None, IH. split.
      * intros H s [->|Hs]%elem_of_cons; auto.
      * intros H s Hs. apply H. by right.
  - rewrite walk_Element, textNodes_Element.
    destruct (walk f ks) as [ks'|] eqn:E.
    + split; [done|]. intros H.
      assert (Some ks' = None) as Hn; [|done].
      apply IHks. intros s Hs. apply H, elem_of_app. by left.
    + rewrite fmap_None, IHrest. destruct IHks as [IHks _]. split.
      * intros H s [Hs|Hs]%elem_of_app; [by apply IHks | by apply H].
      * intros H s Hs. apply H, elem_of_app. by right.
Qed.

(** When the body succeeds on the first text node on which it can, the loop
    replaces exactly that node by the body's result, and leaves the rest of
    the markup as it was. *)
Lemma walk_first f ns A n B r :
  serialize ns = A ++ TText n :: B →
  (∀ s, TText s ∈ A → f s = None) →
  f n = Some r →
  ∃ ns', walk f ns = Some ns' ∧ serialize ns' = A ++ serialize r ++ B.
Proof.
  revert A B.
  induction ns as [|x rest IH|t ks rest IHks IHrest] using forest_ind;
    intros A B Hser HA Hn.
  - by destruct A.
  - rewrite serialize_Text in Hser. rewrite walk_Text.
    destruct A as [|a A]; simpl in Hser.
    + injection Hser as -> <-. rewrite Hn. eexists. split; [done|].
      by rewrite serialize_app.
    + injection Hser as <- Hser. rewrite (HA x) by by left.
      destruct (IH A B Hser) as (ns' & -> & Hs');
        [intros s Hs; apply HA; by right | done |].
      eexists. split; [done|]. by rewrite serialize_Text, Hs'.
  - rewrite serialize_Element in Hser. rewrite walk_Element.
    destruct A as [|a A]; [done|]. simpl in Hser. injection Hser as <- Hser.
    apply app_eq_app in Hser as [l [[H1 H2]|[H1 H2]]].
    + destruct l as [|x l]; [done|]. injection H2 as <- ->.
      destruct (IHks A l H1) as (ks' & -> & Hs');
        [intros s Hs; apply HA; by right | done |].
      eexists. split; [done|]. rewrite serialize_Element, Hs'. simpl.
      by rewrite <- !app_assoc.
    + destruct l as [|x l]; [done|]. injection H2 as <- H2. subst A.
      assert (walk f ks = None) as ->.
      { apply walk_None. intros s Hs. apply HA. right.
        apply elem_of_app. left. by apply elem_of_textNodes. }
      destruct (IHrest l B H2) as (rest' & -> & Hs');
        [|done|].
      { intros s Hs. apply HA. right. apply elem_of_app. right. by right. }
      eexists. split; [done|]. rewrite serialize_Element, Hs'. simpl.
      by rewrite <- !app_assoc.
Qed.

(** What a successful loop did to the text nodes and to the markers. *)
Lemma walk_Some f ns ns' :
  walk f ns = Some ns' →
  ∃ pre s post r,
    textNodes ns = pre ++ s :: post ∧
    (∀ x, x ∈ pre → f x = None) ∧ f s = Some r ∧
    textNodes ns' = pre ++ textNodes r ++ post ∧
    markerCount ns' = markerCount ns + markerCount r.
Proof.
  revert ns'.
  induction ns as [|x rest IH|t ks rest IHks IHrest] using forest_ind;
    intros ns'.
  - done.
  - rewrite walk_Text. destruct (f x) as [r|] eqn:E.
    + intros [= <-]. exists [], x, (textNodes rest), r.
      rewrite textNodes_app, markerCount_app, markerCount_Text.
      repeat split; try done; [|lia]. intros ? []%elem_of_nil.
    + destruct (walk f rest) as [rest'|]; [|done]. intros [= <-].
      destruct (IH rest' eq_refl) as (pre & s & post & r & H1 & H2 & H3 & H4 & H5).
      exists (x :: pre), s, post, r.
      rewrite !textNodes_Text, !markerCount_Text, H1, H4.
      repeat split; try done.
      intros y [->|Hy]%elem_of_cons; auto.
  - rewrite walk_Element. destruct (walk f ks) as [ks'|] eqn:E.
    + intros [= <-].
      destruct (IHks ks' eq_refl) as (pre & s & post & r & H1 & H2 & H3 & H4 & H5).
      exists pre, s, (post ++ textNodes rest), r.
      rewrite !textNodes_Element, !markerCount_Element, H1, H4, H5.
      rewrite <- !app_assoc. repeat split; try done. lia.
    + destruct (walk f rest) as [rest'|]; [|done]. intros [= <-].
      destruct (IHrest rest' eq_refl)
        as (pre & s & post & r & H1 & H2 & H3 & H4 & H5).
      exists (textNodes ks ++ pre), s, post, r.
      rewrite !textNodes_Element, !markerCount_Element, H1, H4, H5.
      rewrite <- !app_assoc. repeat split; try done; [|lia].
      intros y [Hy|Hy]%elem_of_app; [|auto].
      by apply (proj1 (walk_None f ks) E).
Qed.

(** Unwrapping a span removes one marker and keeps every text node. *)
Lemma unwrap_Some id ns ns' :
  unwrap id ns = Some ns' →
  markerCount ns = S (markerCount ns') ∧ textContent ns' = textContent ns.
Proof.
  unfold textContent. revert ns'.
  induction ns as [|x rest IH|t ks rest IHks IHrest] using forest_ind;
    intros ns'.
  - done.
  - rewrite unwrap_Text. destruct (unwrap id rest) as [rest'|]; [|done].
    intros [= <-]. destruct (IH rest' eq_refl) as [H1 H2].
    rewrite !markerCount_Text, !textNodes_Text. simpl. by rewrite H2.
  - rewrite unwrap_Element. destruct (isSpan id t) eqn:Et.
    + intros [= <-]. rewrite markerCount_Element, markerCount_app.
      rewrite textNodes_Element, textNodes_app.
      destruct t; try done; simpl; split; try done; lia.
    + destruct (unwrap id ks) as [ks'|] eqn:E.
      * intros [= <-]. destruct (IHks ks' eq_refl) as [H1 H2].
        rewrite !markerCount_Element, !textNodes_Element, !concat_app.
        rewrite H2. split; [lia | done].
      * destruct (unwrap id rest) as [rest'|]; [|done]. intros [= <-].
        destruct (IHrest rest' eq_refl) as [H1 H2].
        rewrite !markerCount_Element, !textNodes_Element, !concat_app.
        rewrite H2. split; [lia | done].
Qed.








End forest.

(** ** Pages and the search loop *)

Section search.

Lemma querySelector_setTextLayer p layer layer' doc :
  querySelector_textLayer p doc = Some layer →
  querySelector_textLayer p (setTextLayer p layer' doc) = Some layer'.
Proof.
  induction doc as [|pv rest IH]; simpl; [done|].
  destruct (pageNumber pv =? p)%Z eqn:E.
  - destruct (textLayer pv) eqn:El; simpl; rewrite E.
    + done.
    + by rewrite El.
  - simpl. by rewrite E.
Qed.

Lemma querySelector_setTextLayer_ne p q layer' doc :
  p ≠ q →
  querySelector_textLayer q (setTextLayer p layer' doc)
  = querySelector_textLayer q doc.
Proof.
  intros Hne. induction doc as [|pv rest IH]; simpl; [done|].
  destruct (pageNumber pv =? p)%Z eqn:E.
  - destruct (textLayer pv) eqn:El; simpl.
    + apply Z.eqb_eq in E.
      destruct (pageNumber pv =? q)%Z eqn:E'; [|done].
      apply Z.eqb_eq in E'. congruence.
    + by rewrite El, IH.
  - simpl. by rewrite IH.
Qed.

Lemma documentMarkers_setTextLayer p layer layer' doc :
  querySelector_textLayer p doc = Some layer →
  documentMarkers (setTextLayer p layer' doc) + markerCount layer
  = documentMarkers doc + markerCount layer'.
Proof.
  unfold documentMarkers.
  induction doc as [|pv rest IH]; csimpl; [done|].
  destruct (pageNumber pv =? p)%Z eqn:E.
  - destruct (textLayer pv) eqn:El; csimpl.
    + intros [= ->]. lia.
    + intros H. rewrite El. csimpl. by apply IH.
  - intros H. csimpl. specialize (IH H). lia.
Qed.

Lemma surroundMatch_None text sp extra s :
  surroundMatch text sp extra s = None ↔ ¬ occursIn text s.
Proof.
  unfold surroundMatch. rewrite <- indexOf_none.
  destruct (indexOf text s =? -1)%Z eqn:E.
  - apply Z.eqb_eq in E. by split.
  - apply Z.eqb_neq in E. by split.
Qed.

(** The nodes that replace a text node in which the text was found. *)
Lemma surroundMatch_Some text sp extra s r :
  surroundMatch text sp extra s = Some r →
  ∃ i, indexOf text s = Z.of_nat i ∧
       s = take i s ++ text ++ drop (i + length text) s ∧
       r = [Text (take i s);
            Element (Marker sp)
              (match text with [] => [] | _ :: _ => [Text text] end ++ extra);
            Text (drop (i + length text) s)].
Proof.
  unfold surroundMatch. destruct (indexOf text s =? -1)%Z eqn:E; [done|].
  apply Z.eqb_neq in E. intros [= <-].
  destruct (indexOf_range text s) as [?|Hr]; [done|].
  exists (Z.to_nat (indexOf text s)).
  assert (indexOf text s = Z.of_nat (Z.to_nat (indexOf text s))) as Hi by lia.
  destruct (indexOf_found _ _ _ Hi) as [Hs _].
  set (i := Z.to_nat (indexOf text s)) in *.
  split; [done|]. split; [done|].
  unfold surroundTextRange. do 3 f_equal.
  assert (drop i s = text ++ drop (i + length text) s) as Hd.
  { rewrite Hs at 1. rewrite drop_app_length'; [done|].
    rewrite length_take. lia. }
  destruct text as [|c text].
  - by rewrite decide_False by (simpl; lia).
  - rewrite decide_True by (simpl; lia).
    replace (i + length (c :: text) - i) with (length (c :: text)) by lia.
    by rewrite Hd, take_app_length.
Qed.

Lemma findAndWrap_None text page sp extra doc :
  Webview.findAndWrap text page sp extra doc = None ↔ missesIn text page doc.
Proof.
  unfold Webview.findAndWrap, missesIn.
  destruct (querySelector_textLayer page doc) as [layer|]; [|done].
  destruct (walk _ layer) as [layer'|] eqn:E.
  - split; [done|]. intros H.
    assert (walk (surroundMatch text sp extra) layer = None); [|congruence].
    apply walk_None. intros s Hs. apply surroundMatch_None. by apply (H layer).
  - split; [|done]. intros _ ? [= <-] s Hs.
    apply (surroundMatch_None text sp extra).
    by apply (proj1 (walk_None _ _) E).
Qed.

(** Whether the search finds the text does not depend on the marker. *)
Lemma findAndWrap_is_Some text page sp extra sp' extra' doc :
  is_Some (Webview.findAndWrap text page sp extra doc) →
  is_Some (Webview.findAndWrap text page sp' extra' doc).
Proof.
  rewrite <- !not_eq_None_Some, !findAndWrap_None. tauto.
Qed.

(** After a wrap the text is still found on that page: it is the data of
    the text node inside the new span (or, for the empty text, of the empty
    node before it). *)
Lemma findAndWrap_found_again text page sp extra doc doc' :
  Webview.findAndWrap text page sp extra doc = Some doc' →
  ¬ missesIn text page doc'.
Proof.
  unfold Webview.findAndWrap, missesIn.
  destruct (querySelector_textLayer page doc) as [layer|] eqn:Eq; [|done].
  destruct (walk _ layer) as [layer'|] eqn:E; [|done]. intros [= <-] H.
  specialize (H layer' (querySelector_setTextLayer _ _ _ _ Eq)).
  apply walk_Some in E as (pre & s & post & r & _ & _ & Hr & Ht & _).
  apply surroundMatch_Some in Hr as (i & _ & _ & ->).
  destruct text as [|c text].
  - apply (H (take i s)); [|apply occursIn_nil].
    rewrite Ht. apply elem_of_app. right. by left.
  - apply (H (c :: text)); [|apply occursIn_refl].
    rewrite Ht. apply elem_of_app. right. right. by left.
Qed.


(** A wrap adds the new span, and the markers of what is appended to it. *)
Lemma findAndWrap_markers text page sp extra doc doc' :
  Webview.findAndWrap text page sp extra doc = Some doc' →
  documentMarkers doc' = documentMarkers doc + 1 + markerCount extra.
Proof.
  unfold Webview.findAndWrap.
  destruct (querySelector_textLayer page doc) as [layer|] eqn:Eq; [|done].
  destruct (walk _ layer) as [layer'|] eqn:E; [|done]. intros [= <-].
  pose proof (documentMarkers_setTextLayer _ _ layer' _ Eq) as Hm.
  apply walk_Some in E as (pre & s & post & r & _ & _ & Hr & _ & Hc).
  apply surroundMatch_Some in Hr as (i & _ & _ & ->).
  rewrite markerCount_Text, markerCount_Element, markerCount_Text in Hc.
  rewrite markerCount_app in Hc. simpl in Hc.
  assert (markerCount (match text with [] => [] | _ :: _ => [Text text] end)
          = 0) as Hz by by destruct text.
  rewrite Hz in Hc. change (markerCount []) with 0 in Hc. lia.
Qed.

End search.

(** ** Re-anchoring of the text-bound kinds *)

Section restore.

Lemma restoreAnchor_found a st doc :
  Webview.findAndWrap (anchorText a) (anchorPage a)
    (restoredSpan a (Webview.nextElement st))
    (restoredExtra a (Webview.nextElement st)) (Webview.pages st) = Some doc →
  Webview.pages (restoreAnchor a st) = doc ∧
  liveMarkers (restoreAnchor a st) = S (liveMarkers st).
Proof.
  intros H. destruct a as [h|a|c]; simpl in *.
  - unfold Webview.restoreSingleHighlight_find. rewrite H.
    unfold liveMarkers. simpl. rewrite length_app. simpl. split; [done|lia].
  - unfold Webview.restoreSingleAnnotation. rewrite H.
    unfold liveMarkers. simpl. rewrite length_app. simpl. split; [done|lia].
  - unfold Webview.restoreSingleComment. rewrite H.
    unfold liveMarkers. simpl. rewrite length_app. simpl. split; [done|lia].
Qed.

Lemma restoreAnchor_missed a st :
  missesIn (anchorText a) (anchorPage a) (Webview.pages st) →
  restoreAnchor a st = st.
Proof.
  intros H. destruct a as [h|a|c]; simpl in *.
  - unfold Webview.restoreSingleHighlight_find.
    by rewrite (proj2 (findAndWrap_None _ _ _ _ _) H).
  - unfold Webview.restoreSingleAnnotation.
    by rewrite (proj2 (findAndWrap_None _ _ _ _ _) H).
  - unfold Webview.restoreSingleComment.
    by rewrite (proj2 (findAndWrap_None _ _ _ _ _) H).
Qed.

Lemma findAndWrap_first text page sp extra doc layer A n B i :
  querySelector_textLayer page doc = Some layer →
  serialize layer = A ++ TText n :: B →
  (∀ s, TText s ∈ A → indexOf text s = (-1)%Z) →
  indexOf text n = Z.of_nat i →
  text ≠ [] →
  ∃ layer',
    Webview.findAndWrap text page sp extra doc
    = Some (setTextLayer page layer' doc) ∧
    serialize layer'
    = A ++ [TText (take i n); TOpen (Marker sp); TText text]
        ++ serialize extra
        ++ [TClose; TText (drop (i + length text) n)] ++ B.
Proof.
  intros Hq Hser HA Hi Hne. unfold Webview.findAndWrap. rewrite Hq.
  destruct (surroundMatch text sp extra n) as [r|] eqn:Hr.
  2:{ apply surroundMatch_None, indexOf_none in Hr. lia. }
  destruct (walk_first (surroundMatch text sp extra) layer A n B r Hser)
    as (layer' & -> & Hs'); [|done|].
  { intros s Hs. apply surroundMatch_None, indexOf_none. by apply HA. }
  exists layer'. split; [done|]. rewrite Hs'.
  apply surroundMatch_Some in Hr as (i' & Hi' & _ & ->).
  assert (i' = i) as -> by lia.
  destruct text as [|c text]; [done|].
  rewrite serialize_Text, serialize_Element, serialize_app, !serialize_Text.
  simpl. by rewrite <- !app_assoc.
Qed.

End restore.

(** C3. For a stored text-bound anchor (highlight, underline / strikethrough /
    squiggly annotation, comment) whose page has a rendered text layer: if, in
    document order, [n] is the first text node that contains the anchor's
    text, at first position [i], then the restoring search puts the marker
    span around exactly those code units of that node -- the markup of the
    layer changes from [A, n, B] to [A, n[0..i), <span> text ... </span>,
    n[i+|text|..), B] -- adds one marker and nothing else, leaves every other
    page alone, and produces the same document whatever the anchor's
    [textBefore] / [textAfter] are. *)
Theorem restore_wraps_first_occurrence (a : TextAnchor) (st : Webview.State)
    (layer : list node) (A B : list token) (n : jsstring) (i : nat) :
  querySelector_textLayer (anchorPage a) (Webview.pages st) = Some layer →
  serialize layer = A ++ TText n :: B →
  (∀ s, TText s ∈ A → indexOf (anchorText a) s = (-1)%Z) →
  indexOf (anchorText a) n = Z.of_nat i →
  anchorText a ≠ [] →
  let id := Webview.nextElement st in
  let st' := restoreAnchor a st in
  (∃ layer',
     querySelector_textLayer (anchorPage a) (Webview.pages st') = Some layer' ∧
     serialize layer'
     = A ++ [TText (take i n); TOpen (Marker (restoredSpan a id));
             TText (anchorText a)]
         ++ serialize (restoredExtra a id)
         ++ [TClose; TText (drop (i + length (anchorText a)) n)] ++ B) ∧
  n = take i n ++ anchorText a ++ drop (i + length (anchorText a)) n ∧
  (∀ j, j < i → ¬ ∃ r, drop j n = anchorText a ++ r) ∧
  (∀ q, q ≠ anchorPage a →
        querySelector_textLayer q (Webview.pages st')
        = querySelector_textLayer q (Webview.pages st)) ∧
  liveMarkers st' = S (liveMarkers st) ∧
  documentMarkers (Webview.pages st') = S (documentMarkers (Webview.pages st)) ∧
  (∀ before after,
     Webview.pages (restoreAnchor (withContext before after a) st)
     = Webview.pages st').
Proof.
  intros Hq Hser HA Hi Hne id st'.
  destruct (findAndWrap_first _ _ (restoredSpan a id) (restoredExtra a id)
              _ _ _ _ _ _ Hq Hser HA Hi Hne) as (layer' & Hf & Hs').
  destruct (restoreAnchor_found a st _ Hf) as [Hp Hl].
  destruct (indexOf_found _ _ _ Hi) as [Hn Hfirst].
  subst st'. rewrite Hp. repeat split; try done.
  - exists layer'. split; [|done].
    by apply (querySelector_setTextLayer _ layer).
  - intros q Hne'. by apply querySelector_setTextLayer_ne.
  - rewrite (findAndWrap_markers _ _ _ _ _ _ Hf).
    assert (markerCount (restoredExtra a id) = 0) as ->
      by by destruct a. lia.
  - intros before after.
    assert (Webview.findAndWrap (anchorText (withContext before after a))
              (anchorPage (withContext before after a))
              (restoredSpan (withContext before after a) id)
              (restoredExtra (withContext before after a) id)
              (Webview.pages st)
            = Some (setTextLayer (anchorPage a) layer' (Webview.pages st)))
      as Hf' by (by destruct a).
    by destruct (restoreAnchor_found _ st _ Hf').
Qed.

(** ** Batches of highlights *)

Section batch.




(** The deferred search reads and writes the document, the list of
    highlights and the supply of element identities, nothing else. *)
Lemma find_same_markers h x y :
  Webview.pages x = Webview.pages y →
  Webview.highlights x = Webview.highlights y →
  Webview.nextElement x = Webview.nextElement y →
  Webview.pages (Webview.restoreSingleHighlight_find h x)
  = Webview.pages (Webview.restoreSingleHighlight_find h y) ∧
  Webview.highlights (Webview.restoreSingleHighlight_find h x)
  = Webview.highlights (Webview.restoreSingleHighlight_find h y) ∧
  Webview.nextElement (Webview.restoreSingleHighlight_find h x)
  = Webview.nextElement (Webview.restoreSingleHighlight_find h y).
Proof.
  intros Hp Hh Hn. unfold Webview.restoreSingleHighlight_find.
  rewrite Hp, Hn. destruct (Webview.findAndWrap _ _ _ _ _); simpl; [|done].
  by rewrite Hh, Hn.
Qed.

Lemma deferredSearches_same_markers l x y :
  Webview.pages x = Webview.pages y →
  Webview.highlights x = Webview.highlights y →
  Webview.nextElement x = Webview.nextElement y →
  Webview.pages (Webview.deferredSearches l x)
  = Webview.pages (Webview.deferredSearches l y) ∧
  Webview.highlights (Webview.deferredSearches l x)
  = Webview.highlights (Webview.deferredSearches l y) ∧
  Webview.nextElement (Webview.deferredSearches l x)
  = Webview.nextElement (Webview.deferredSearches l y).
Proof.
  revert x y. induction l as [|h l IH]; intros x y Hp Hh Hn; [done|].
  destruct (find_same_markers h x y Hp Hh Hn) as (? & ? & ?).
  by apply IH.
Qed.

Lemma jumps_same_markers l st :
  let st' := foldl (λ st h, Webview.restoreSingleHighlight_jump h st) st l in
  Webview.pages st' = Webview.pages st ∧
  Webview.highlights st' = Webview.highlights st ∧
  Webview.nextElement st' = Webview.nextElement st.
Proof.
  revert st. induction l as [|h l IH]; intros st; [done|]. simpl.
  destruct (IH (Webview.restoreSingleHighlight_jump h st)) as (-> & -> & ->).
  unfold Webview.restoreSingleHighlight_jump, Webview.assignCurrentPage.
  by repeat destruct (_ && _).
Qed.

(** For the document and the list of highlights, [restoreHighlights] is its
    sequence of deferred searches. *)
Lemma restoreHighlights_markers l st :
  Webview.pages (Webview.restoreHighlights l st)
  = Webview.pages (Webview.deferredSearches l st) ∧
  Webview.highlights (Webview.restoreHighlights l st)
  = Webview.highlights (Webview.deferredSearches l st) ∧
  Webview.nextElement (Webview.restoreHighlights l st)
  = Webview.nextElement (Webview.deferredSearches l st).
Proof.
  destruct l as [|h l]; [done|]. unfold Webview.restoreHighlights.
  destruct (jumps_same_markers (h :: l) st) as (Hp & Hh & Hn).
  apply deferredSearches_same_markers;
    by destruct (len _ >? 0)%Z.
Qed.


Lemma find_missed h st :
  missesIn (hd_text h) (hd_page h) (Webview.pages st) →
  Webview.restoreSingleHighlight_find h st = st.
Proof. apply (restoreAnchor_missed (HighlightAnchor h)). Qed.







End batch.


(** ** Restoring twice *)

Section twice.

Lemma find_hit h st doc :
  Webview.findAndWrap (hd_text h) (hd_page h)
    (Webview.restoredHighlightSpan h (Webview.nextElement st)) []
    (Webview.pages st) = Some doc →
  Webview.pages (Webview.restoreSingleHighlight_find h st) = doc ∧
  length (Webview.highlights (Webview.restoreSingleHighlight_find h st))
  = S (length (Webview.highlights st)).
Proof.
  intros H. unfold Webview.restoreSingleHighlight_find. rewrite H. simpl.
  rewrite length_app. simpl. split; [done|lia].
Qed.

(** Each deferred search appends at most one entry. *)
Lemma find_count h st :
  length (Webview.highlights st)
  ≤ length (Webview.highlights (Webview.restoreSingleHighlight_find h st))
  ≤ S (length (Webview.highlights st)).
Proof.
  unfold Webview.restoreSingleHighlight_find.
  destruct (Webview.findAndWrap _ _ _ _ _); simpl; [|lia].
  rewrite length_app. simpl. lia.
Qed.

Lemma deferredSearches_count l st :
  length (Webview.highlights st)
  ≤ length (Webview.highlights (Webview.deferredSearches l st))
  ≤ length (Webview.highlights st) + length l.
Proof.
  revert st. induction l as [|h l IH]; intros st; [simpl; lia|].
  change (Webview.deferredSearches (h :: l) st)
    with (Webview.deferredSearches l (Webview.restoreSingleHighlight_find h st)).
  specialize (IH (Webview.restoreSingleHighlight_find h st)).
  pose proof (find_count h st). simpl. lia.
Qed.

(** Every wrap is one more marker span in the document. *)
Lemma deferredSearches_documentMarkers l st :
  documentMarkers (Webview.pages (Webview.deferredSearches l st))
  + length (Webview.highlights st)
  = documentMarkers (Webview.pages st)
    + length (Webview.highlights (Webview.deferredSearches l st)).
Proof.
  revert st. induction l as [|h l IH]; intros st; [done|].
  change (Webview.deferredSearches (h :: l) st)
    with (Webview.deferredSearches l (Webview.restoreSingleHighlight_find h st)).
  specialize (IH (Webview.restoreSingleHighlight_find h st)).
  destruct (Webview.findAndWrap (hd_text h) (hd_page h)
    (Webview.restoredHighlightSpan h (Webview.nextElement st)) []
    (Webview.pages st)) as [doc|] eqn:E.
  - destruct (find_hit h st doc E) as [Hp Hc].
    rewrite Hp, Hc in IH. apply findAndWrap_markers in E.
    change (markerCount []) with 0 in E. lia.
  - apply findAndWrap_None in E. by rewrite (find_missed h st E) in *.
Qed.

Lemma deferredSearches_all_miss l st :
  (∀ h, h ∈ l → missesIn (hd_text h) (hd_page h) (Webview.pages st)) →
  Webview.deferredSearches l st = st.
Proof.
  revert st. induction l as [|h l IH]; intros st H; [done|].
  change (Webview.deferredSearches (h :: l) st)
    with (Webview.deferredSearches l (Webview.restoreSingleHighlight_find h st)).
  rewrite find_missed by (apply H; by left).
  apply IH. intros h' Hh'. apply H. by right.
Qed.

(** An anchor of the list that is found makes the list of highlights grow. *)
Lemma deferredSearches_some_hit l st h :
  h ∈ l → ¬ missesIn (hd_text h) (hd_page h) (Webview.pages st) →
  length (Webview.highlights st)
  < length (Webview.highlights (Webview.deferredSearches l st)).
Proof.
  revert st. induction l as [|h0 l IH]; intros st Hin Hhit.
  { by apply elem_of_nil in Hin. }
  change (Webview.deferredSearches (h0 :: l) st)
    with (Webview.deferredSearches l (Webview.restoreSingleHighlight_find h0 st)).
  destruct (Webview.findAndWrap (hd_text h0) (hd_page h0)
    (Webview.restoredHighlightSpan h0 (Webview.nextElement st)) []
    (Webview.pages st)) as [doc|] eqn:E.
  - destruct (find_hit h0 st doc E) as [_ Hc].
    pose proof (deferredSearches_count l
                  (Webview.restoreSingleHighlight_find h0 st)). lia.
  - apply findAndWrap_None in E. rewrite (find_missed h0 st E).
    apply elem_of_cons in Hin as [->|Hin]; [done|]. by apply IH.
Qed.

Lemma deferredSearches_no_growth l st :
  length (Webview.highlights (Webview.deferredSearches l st))
  = length (Webview.highlights st) →
  Webview.deferredSearches l st = st.
Proof.
  intros Hc. apply deferredSearches_all_miss. intros h Hh.
  destruct (Webview.findAndWrap (hd_text h) (hd_page h)
    (Webview.restoredHighlightSpan h 0) [] (Webview.pages st)) eqn:E.
  - assert (¬ missesIn (hd_text h) (hd_page h) (Webview.pages st)) as Hhit.
    { intros Hm. apply (findAndWrap_None _ _ (Webview.restoredHighlightSpan h 0) [])
        in Hm. congruence. }
    pose proof (deferredSearches_some_hit l st h Hh Hhit). lia.
  - by apply findAndWrap_None in E.
Qed.

(** When a pass has added an entry, one of its anchors is found in the
    document it leaves behind: the last anchor that was wrapped. *)
Lemma deferredSearches_found_again l st :
  length (Webview.highlights st)
  < length (Webview.highlights (Webview.deferredSearches l st)) →
  ∃ h, h ∈ l ∧
       ¬ missesIn (hd_text h) (hd_page h)
           (Webview.pages (Webview.deferredSearches l st)).
Proof.
  revert st. induction l as [|h l IH]; intros st; [simpl; lia|].
  change (Webview.deferredSearches (h :: l) st)
    with (Webview.deferredSearches l (Webview.restoreSingleHighlight_find h st)).
  set (y := Webview.restoreSingleHighlight_find h st). intros Hlt.
  destruct (decide (length (Webview.highlights y)
                    < length (Webview.highlights (Webview.deferredSearches l y))))
    as [Hgrow|Hsame].
  - destruct (IH y Hgrow) as (h' & Hin & Hhit). exists h'. split; [by right|done].
  - pose proof (deferredSearches_count l y) as Hb.
    assert (Webview.deferredSearches l y = y) as Heq
      by (apply deferredSearches_no_growth; lia).
    rewrite Heq in Hlt |- *. clear Heq Hb Hsame.
    exists h. split; [by left|]. subst y.
    destruct (Webview.findAndWrap (hd_text h) (hd_page h)
      (Webview.restoredHighlightSpan h (Webview.nextElement st)) []
      (Webview.pages st)) as [doc|] eqn:E.
    + destruct (find_hit h st doc E) as [-> _].
      by eapply findAndWrap_found_again.
    + apply findAndWrap_None in E. rewrite (find_missed h st E) in Hlt. lia.
Qed.

End twice.

(** C1, as the code has it.  [restoreHighlights] keeps no record of what it
    has restored.  Invoked a second time for the same stored list on the same
    rendered document, it appends at most one further entry per stored
    anchor, and it appends none only if the first invocation had appended
    none: whenever the first pass placed a marker, the second pass places at
    least one more.  The marker spans in the document grow with the list. *)
Theorem restore_twice_adds_markers (saved : list HighlightData)
    (st : Webview.State) :
  let once := Webview.restoreHighlights saved st in
  let twice := Webview.restoreHighlights saved once in
  length (Webview.highlights once) ≤ length (Webview.highlights twice)
    ≤ length (Webview.highlights once) + length saved ∧
  (length (Webview.highlights twice) = length (Webview.highlights once)
   ↔ length (Webview.highlights once) = length (Webview.highlights st)) ∧
  documentMarkers (Webview.pages twice) + length (Webview.highlights st)
  = documentMarkers (Webview.pages st) + length (Webview.highlights twice).
Proof.
  intros once twice.
  set (x := Webview.deferredSearches saved st).
  destruct (restoreHighlights_markers saved st) as (Hp1 & Hh1 & Hn1).
  fold once x in Hp1, Hh1, Hn1.
  destruct (restoreHighlights_markers saved once) as (Hp2 & Hh2 & _).
  fold twice in Hp2, Hh2.
  destruct (deferredSearches_same_markers saved once x Hp1 Hh1 Hn1)
    as (Hp3 & Hh3 & _).
  rewrite Hp2, Hh2, Hp3, Hh3, Hh1. clear Hp1 Hh1 Hn1 Hp2 Hh2 Hp3 Hh3.
  pose proof (deferredSearches_count saved x) as Hc2.
  pose proof (deferredSearches_count saved st) as Hc1. fold x in Hc1.
  split; [lia|]. split.
  - split.
    + intros Heq.
      destruct (decide (length (Webview.highlights st)
                        < length (Webview.highlights x))) as [Hlt|]; [|lia].
      destruct (deferredSearches_found_again saved st Hlt) as (h & Hin & Hhit).
      fold x in Hhit.
      pose proof (deferredSearches_some_hit saved x h Hin Hhit). lia.
    + intros Heq. subst x.
      by rewrite (deferredSearches_no_growth saved st Heq) at 1.
  - pose proof (deferredSearches_documentMarkers saved x) as Hd2.
    pose proof (deferredSearches_documentMarkers saved st) as Hd1.
    fold x in Hd1. lia.
Qed.

(** C1: the claim as stated fails.  One stored highlight of "ipsum" on the
    sample page: one marker after one invocation, two after two. *)
Lemma restore_twice_duplicates :
  ¬ ∀ (saved : list HighlightData) (st : Webview.State),
      length (Webview.highlights
                (Webview.restoreHighlights saved
                   (Webview.restoreHighlights saved st)))
      = length (Webview.highlights (Webview.restoreHighlights saved st)).
Proof.
  intros H. specialize (H [Sample.ipsum] Sample.state).
  vm_compute in H. discriminate H.
Qed.

Lemma restore_wraps_first_occurrence_witness :
  ∃ layer',
    querySelector_textLayer 1
      (Webview.pages
         (restoreAnchor (HighlightAnchor Sample.ipsum) Sample.state))
    = Some layer' ∧
    serialize layer'
    = [TOpen PdfJs; TText (js "Lorem ");
       TOpen (Marker {| sp_id := 0;
                        sp_class := "pdf-highlight restored-highlight";
                        sp_color := "#FFFF00" |});
       TText (js "ipsum"); TClose; TText (js " dolor"); TClose;
       TOpen PdfJs; TText (js "sit ipsum amet"); TClose;
       TOpen PdfJs; TText (js "abcdefghijklmnopqrstuvwxyz0123456789");
       TClose].
Proof.
  destruct (restore_wraps_first_occurrence (HighlightAnchor Sample.ipsum)
              Sample.state Sample.layer [TOpen PdfJs]
              [TClose; TOpen PdfJs; TText (js "sit ipsum amet"); TClose;
               TOpen PdfJs;
               TText (js "abcdefghijklmnopqrstuvwxyz0123456789"); TClose]
              (js "Lorem ipsum dolor") 6) as [H _].
  - reflexivity.
  - reflexivity.
  - intros s Hs. apply list_elem_of_singleton in Hs. discriminate Hs.
  - reflexivity.
  - discriminate.
  - exact H.
Defined.


(** ** The host's store *)

(** Keys of different kinds differ in their prefix. *)
Ltac distinct_keys :=
  let H := fresh in
  intros H; cbv [String.append] in H; discriminate H.

Section store.

Lemma lookup_highlightsKey this :
  Host.globalState (Host.saveHighlights this) !! Host.getHighlightsKey this
  = Some (Host.StoredHighlights (Host._savedHighlights this)).
Proof. unfold Host.saveHighlights, Host.update. simpl. apply lookup_insert_eq. Qed.

(** A highlight that was added is in the list of the next session. *)
Lemma highlight_reloaded uri store color count h :
  Host._savedHighlights
    (Host.reopen
       (Host.onDidReceiveMessage (HighlightAdded color count h)
          (Host.new uri store)))
  = Host._savedHighlights (Host.new uri store) ++ [h].
Proof.
  unfold Host.reopen, Host.new, Host.loadHighlights at 1. simpl.
  unfold Host.getHighlightsKey. simpl. by rewrite lookup_insert_eq.
Qed.

Lemma removeHighlightFromStorage_in_range index this :
  (0 ≤ index < len (Host._savedHighlights this))%Z →
  let this' := Host.removeHighlightFromStorage index this in
  Host._savedHighlights this'
  = delete (Z.to_nat index) (Host._savedHighlights this) ∧
  Host.globalState this' !! Host.getHighlightsKey this
  = Some (Host.StoredHighlights
            (delete (Z.to_nat index) (Host._savedHighlights this))).
Proof.
  intros Hr. unfold Host.removeHighlightFromStorage.
  replace (index >=? 0)%Z with true by lia.
  replace (index <? len (Host._savedHighlights this))%Z with true by lia.
  simpl. split; [done|]. apply lookup_insert_eq.
Qed.

Lemma removeHighlightFromStorage_out_of_range index this :
  ¬ (0 ≤ index < len (Host._savedHighlights this))%Z →
  Host.removeHighlightFromStorage index this = this.
Proof.
  intros Hr. unfold Host.removeHighlightFromStorage.
  destruct (index >=? 0)%Z eqn:E1; [|done].
  destruct (index <? len (Host._savedHighlights this))%Z eqn:E2; [|done]. lia.
Qed.

End store.

(** C2: the code at a failing input, for every document identity, store and
    anchor.  An annotation, comment, sticky note or drawing added in one
    session is written to the store under its kind's key, and the next
    session on the same document starts with that kind's list empty: the
    constructor calls [loadHighlights] only, and [loadAllAnnotations] is never
    called.  (What is written is the session's own list, so lists stored by
    earlier sessions are overwritten.) *)
Theorem other_kinds_not_reloaded (uri : string)
    (store : gmap string Host.Stored) (count : Z) (a : AnnotationData)
    (c : CommentData) (n : StickyNoteData) (d : DrawingData) :
  let session := Host.new uri store in
  (let after :=
     Host.onDidReceiveMessage (AnnotationAdded (ad_type a) (ad_color a) count a)
       session in
   Host.globalState after !! ("pdf.annotations." +:+ uri)
   = Some (Host.StoredAnnotations [a]) ∧
   Host._savedAnnotations (Host.reopen after) = []) ∧
  (let after :=
     Host.onDidReceiveMessage (CommentAdded (cd_color c) count c) session in
   Host.globalState after !! ("pdf.comments." +:+ uri)
   = Some (Host.StoredComments [c]) ∧
   Host._savedComments (Host.reopen after) = []) ∧
  (let after := Host.onDidReceiveMessage (StickyNoteAdded count n) session in
   Host.globalState after !! ("pdf.stickyNotes." +:+ uri)
   = Some (Host.StoredStickyNotes [n]) ∧
   Host._savedStickyNotes (Host.reopen after) = []) ∧
  (let after := Host.onDidReceiveMessage (DrawingAdded count d) session in
   Host.globalState after !! ("pdf.drawings." +:+ uri)
   = Some (Host.StoredDrawings [d]) ∧
   Host._savedDrawings (Host.reopen after) = []).
Proof.
  repeat split; try done; simpl;
    unfold Host.drawingsKey, Host.stickyNotesKey, Host.commentsKey,
      Host.annotationsKey; simpl;
    repeat (rewrite lookup_insert_ne by distinct_keys);
    by rewrite lookup_insert_eq.
Qed.

(** ** Clearing and deleting *)

Section clearing.

Lemma unwrapSpan_Some id doc doc' :
  unwrapSpan id doc = Some doc' →
  documentMarkers doc = S (documentMarkers doc') ∧
  documentText doc' = documentText doc.
Proof.
  unfold documentMarkers, documentText. revert doc'.
  induction doc as [|pv rest IH]; intros doc'; csimpl; [done|].
  destruct (textLayer pv ≫= unwrap id) as [layer'|] eqn:E.
  - intros [= <-]. csimpl.
    destruct (textLayer pv) as [layer|]; [|done]. csimpl in *.
    destruct (unwrap_Some _ _ _ E) as [-> ->]. split; [lia|done].
  - destruct (unwrapSpan id rest) as [rest'|]; [|done]. intros [= <-].
    destruct (IH rest' eq_refl) as [H1 H2]. csimpl. rewrite H2.
    split; [lia|done].
Qed.








(** The handlers of the deletion messages of sticky notes and drawings only
    notify the user. *)
Lemma deletion_notices_keep_store this m :
  (∃ k, m = StickyNoteDeleted k ∨ m = DrawingDeleted k ∨ m = DrawingsCleared k) →
  let this' := Host.onDidReceiveMessage m this in
  Host.globalState this' = Host.globalState this ∧
  Host._savedStickyNotes this' = Host._savedStickyNotes this ∧
  Host._savedDrawings this' = Host._savedDrawings this.
Proof. by intros [k [->|[->| ->]]]. Qed.

(** Removing a highlight by index in the view: an index in range removes
    that entry, the later entries move down by one, and the host is told the
    index; any other index only posts an error, which the host ignores. *)
Lemma removeHighlight_in_range index st :
  (0 ≤ index < len (Webview.highlights st))%Z →
  let st' := Webview.removeHighlight index st in
  Webview.highlights st' = delete (Z.to_nat index) (Webview.highlights st) ∧
  Webview.outbox st'
  = Webview.outbox st
    ++ [HighlightRemovedWithData index;
        HighlightRemoved (len (Webview.highlights st) - 1)].
Proof.
  intros Hr. unfold Webview.removeHighlight, outOfRange.
  replace (index <? 0)%Z with false by lia.
  replace (index >=? len (Webview.highlights st))%Z with false by lia.
  cbv zeta. simpl orb. cbv iota.
  set (st1 := match Webview.highlights st !! Z.to_nat index with
              | Some _ => _ | None => st end).
  assert (Webview.highlights st1 = Webview.highlights st ∧
          Webview.outbox st1 = Webview.outbox st) as [Hh Ho].
  { subst st1. destruct (_ !! _); [|done]. by destruct (unwrapSpan _ _). }
  assert (len (delete (Z.to_nat index) (Webview.highlights st))
          = (len (Webview.highlights st) - 1)%Z) as Hl.
  { unfold len in *. rewrite length_delete; [lia|].
    apply lookup_lt_is_Some. lia. }
  unfold splice1. rewrite Hh.
  destruct (_ >=? _)%Z; simpl; rewrite Hl, Ho, <- app_assoc; by split.
Qed.

Lemma removeHighlight_out_of_range index st :
  ¬ (0 ≤ index < len (Webview.highlights st))%Z →
  Webview.removeHighlight index st
  = Webview.postMessage (HighlightError "Invalid index") st ∧
  ∀ host, Host.onDidReceiveMessage (HighlightError "Invalid index") host = host.
Proof.
  intros Hr. unfold Webview.removeHighlight, outOfRange. split; [|done].
  destruct (index <? 0)%Z eqn:E1; [done|].
  destruct (index >=? len (Webview.highlights st))%Z eqn:E2; [done|]. lia.
Qed.

(** Three stored highlights: removing index 1 twice leaves the first one. *)
Lemma removeHighlightFromStorage_twice (A0 A1 A2 : HighlightData) :
  let host :=
    Host.receiveAll
      [HighlightAdded "" 1 A0; HighlightAdded "" 2 A1; HighlightAdded "" 3 A2]
      (Host.new SampleStore.uri ∅) in
  let once := Host.removeHighlightFromStorage 1 host in
  let twice := Host.removeHighlightFromStorage 1 once in
  Host._savedHighlights host = [A0; A1; A2] ∧
  Host._savedHighlights once = [A0; A2] ∧
  Host._savedHighlights twice = [A0] ∧
  Host.globalState twice !! ("pdf-highlights-" +:+ SampleStore.uri)
  = Some (Host.StoredHighlights [A0]).
Proof. vm_compute. repeat split. Qed.

End clearing.




(** C6: the code at a failing input.  The sample note is deleted in the view
    (the close button of its panel calls [deleteStickyNote] with its index):
    the view's list becomes empty and [stickyNoteDeleted] is posted; the host
    only shows a notification, and both its list and the stored list still
    hold the note. *)
Theorem sticky_note_delete_not_persisted :
  let st' := Webview.deleteStickyNote 0 SampleStore.noted in
  Webview.stickyNotes st' = [] ∧
  Webview.outbox st' = [StickyNoteDeleted 0] ∧
  let host' := Host.receiveAll (Webview.outbox st') SampleStore.notedHost in
  Host._savedStickyNotes host' = [SampleStore.note] ∧
  Host.globalState host' !! ("pdf.stickyNotes." +:+ SampleStore.uri)
  = Some (Host.StoredStickyNotes [SampleStore.note]) ∧
  Host._savedStickyNotes SampleStore.notedHost = [SampleStore.note].
Proof. vm_compute. repeat split. Qed.

(** ** Capture *)

Section capture.

Lemma trimStart_blank s : forallb isWhiteSpace s = true → trimStart s = [].
Proof.
  induction s as [|c s IH]; simpl; [done|].
  rewrite andb_true_iff. intros [-> Hs]. by apply IH.
Qed.

(** A string of white space trims to the empty string. *)
Lemma trim_blank s : forallb isWhiteSpace s = true → trim s = [].
Proof. intros H. unfold trim. by rewrite trimStart_blank. Qed.

Lemma truncated_spec n t :
  (0 ≤ n)%Z →
  truncated n t
  = take (Z.to_nat n) t
    ++ (if decide (Z.to_nat n < length t) then ellipsis else []).
Proof.
  intros Hn. unfold truncated, jslength. rewrite substring_0_take by done.
  f_equal. destruct (Z.of_nat (length t) >? n)%Z eqn:E.
  - by rewrite decide_True by lia.
  - by rewrite decide_False by lia.
Qed.

Lemma getTextBefore_bounded range n :
  (0 < n)%Z → (jslength (Webview.getTextBefore range n) ≤ n)%Z.
Proof.
  intros Hn. unfold Webview.getTextBefore.
  destruct (Webview.preRangeText range); [by apply length_slice_last|].
  unfold jslength. simpl. lia.
Qed.

Lemma getTextAfter_bounded range n :
  (0 ≤ n)%Z → (jslength (Webview.getTextAfter range n) ≤ n)%Z.
Proof.
  intros Hn. unfold Webview.getTextAfter.
  destruct (Webview.postRangeText range); [by apply length_slice_to|].
  unfold jslength. simpl. lia.
Qed.

(** What a highlight capture stores when [surroundContents] succeeds: the
    trimmed selection, the current page, and the two context strings. *)
Lemma highlight_by_surround color sel now st doc :
  let highlightColor := Webview.orColor color (Webview.currentHighlightColor st) in
  let span := {| sp_id := Webview.nextElement st; sp_class := "pdf-highlight";
                 sp_color := highlightColor |} in
  trim (Webview.sel_toString sel) ≠ [] →
  Webview.surroundContents (Webview.sel_range sel) span (Webview.pages st)
  = (doc, true) →
  Webview.outbox (Webview.highlightSelection color (Some sel) now st)
  = Webview.outbox st
    ++ [HighlightAdded highlightColor (len (Webview.highlights st ++ [
          {| Webview.h_element := Webview.nextElement st;
             Webview.h_color := highlightColor;
             Webview.h_text := trim (Webview.sel_toString sel);
             Webview.h_page := Webview.currentPageNumber st;
             Webview.h_textBefore :=
               Webview.getTextBefore (Webview.sel_range sel) 20;
             Webview.h_textAfter :=
               Webview.getTextAfter (Webview.sel_range sel) 20 |}]))
          {| hd_text := trim (Webview.sel_toString sel);
             hd_color := highlightColor;
             hd_page := Webview.currentPageNumber st;
             hd_timestamp := now;
             hd_textBefore := Webview.getTextBefore (Webview.sel_range sel) 20;
             hd_textAfter := Webview.getTextAfter (Webview.sel_range sel) 20 |}].
Proof.
  intros highlightColor span Hne Hs. unfold Webview.highlightSelection.
  destruct (trim (Webview.sel_toString sel)) as [|c t] eqn:Et; [done|].
  simpl. fold highlightColor. fold span. by rewrite Hs.
Qed.

Lemma highlightSelection_added color selection now st c n a :
  let st' := Webview.highlightSelection color selection now st in
  Webview.outbox st' = Webview.outbox st ++ [HighlightAdded c n a] →
  ∃ e, Webview.highlights st' = Webview.highlights st ++ [e] ∧
       Webview.h_text e = hd_text a ∧ Webview.h_color e = hd_color a.
Proof.
  unfold Webview.highlightSelection.
  destruct selection as [sel|]; simpl.
  2:{ intros H. apply app_inj_tail in H as [_ H]. discriminate H. }
  destruct (truthy _); simpl.
  2:{ intros H. apply app_inj_tail in H as [_ H]. discriminate H. }
  destruct (Webview.surroundContents _ _ _) as [doc [|]]; simpl.
  { intros H. apply app_inj_tail in H as [_ H]. injection H as <- <- <-.
    eexists. by split. }
  destruct (Webview.extractAndInsert _ _ _) as [doc' [t|]]; simpl.
  - intros H. apply app_inj_tail in H as [_ H]. injection H as <- <- <-.
    eexists. by split.
  - intros H. apply app_inj_tail in H as [_ H]. discriminate H.
Qed.

Lemma addComment_added commentText color selection now now' st c n a :
  let st' :=
    Webview.addCommentToSelection commentText color selection now now' st in
  Webview.outbox st' = Webview.outbox st ++ [CommentAdded c n a] →
  ∃ e, Webview.comments st' = Webview.comments st ++ [e] ∧
       Webview.c_text e = cd_text a ∧ Webview.c_comment e = cd_comment a.
Proof.
  unfold Webview.addCommentToSelection.
  destruct selection as [sel|]; simpl.
  2:{ intros H. apply app_inj_tail in H as [_ H]. discriminate H. }
  destruct (truthy _); simpl.
  2:{ intros H. apply app_inj_tail in H as [_ H]. discriminate H. }
  destruct (Webview.surroundContents _ _ _) as [doc [|]]; simpl.
  - intros H. apply app_inj_tail in H as [_ H]. injection H as <- <- <-.
    eexists. by split.
  - intros H. apply app_inj_tail in H as [_ H]. discriminate H.
Qed.

(** What each capture function stores when [surroundContents] succeeds:
    the trimmed selection, the current page, and the context strings, each
    of at most 20 code units. *)
Lemma capture_by_surround op sel now now' st :
  trim (Webview.sel_toString sel) ≠ [] →
  (∀ span, (Webview.surroundContents (Webview.sel_range sel) span
              (Webview.pages st)).2 = true) →
  anchorOf <$> last (Webview.outbox (capture op (Some sel) now now' st))
  = Some (Some (trim (Webview.sel_toString sel),
                Webview.currentPageNumber st,
                Webview.getTextBefore (Webview.sel_range sel) 20,
                Webview.getTextAfter (Webview.sel_range sel) 20)) ∧
  (jslength (Webview.getTextBefore (Webview.sel_range sel) 20) ≤ 20)%Z ∧
  (jslength (Webview.getTextAfter (Webview.sel_range sel) 20) ≤ 20)%Z.
Proof.
  intros Hne Hs. split.
  2:{ split; [by apply getTextBefore_bounded | by apply getTextAfter_bounded]. }
  destruct (trim (Webview.sel_toString sel)) as [|c t] eqn:Et; [done|].
  destruct op as [color|type color|body color]; simpl.
  - unfold Webview.highlightSelection. rewrite Et. simpl.
    match goal with |- context [Webview.surroundContents ?r ?s ?d] =>
      specialize (Hs s); destruct (Webview.surroundContents r s d) as [doc b]
    end.
    simpl in Hs. subst b. simpl. by rewrite last_snoc.
  - unfold Webview.annotateSelection. rewrite Et. simpl.
    match goal with |- context [Webview.surroundContents ?r ?s ?d] =>
      specialize (Hs s); destruct (Webview.surroundContents r s d) as [doc b]
    end.
    simpl in Hs. subst b. simpl. by rewrite last_snoc.
  - unfold Webview.addCommentToSelection. rewrite Et. simpl.
    match goal with |- context [Webview.surroundContents ?r ?s ?d] =>
      specialize (Hs s); destruct (Webview.surroundContents r s d) as [doc b]
    end.
    simpl in Hs. subst b. simpl. by rewrite last_snoc.
Qed.

(** What a highlight capture stores when [surroundContents] throws and the
    fallback succeeds: the text content of the span, as it is. *)
Lemma highlight_by_fallback color sel now st doc doc' content :
  let highlightColor := Webview.orColor color (Webview.currentHighlightColor st) in
  let span := {| sp_id := Webview.nextElement st; sp_class := "pdf-highlight";
                 sp_color := highlightColor |} in
  trim (Webview.sel_toString sel) ≠ [] →
  Webview.surroundContents (Webview.sel_range sel) span (Webview.pages st)
  = (doc, false) →
  Webview.extractAndInsert (Webview.sel_range sel) span doc
  = (doc', Some content) →
  anchorOf <$> last (Webview.outbox
                       (Webview.highlightSelection color (Some sel) now st))
  = Some (Some (content, Webview.currentPageNumber st,
                Webview.getTextBefore (Webview.sel_range sel) 20,
                Webview.getTextAfter (Webview.sel_range sel) 20)).
Proof.
  intros highlightColor span Hne Hs Hf. unfold Webview.highlightSelection.
  destruct (trim (Webview.sel_toString sel)) as [|c t] eqn:Et; [done|].
  simpl. fold highlightColor. fold span. rewrite Hs, Hf. simpl.
  by rewrite last_snoc.
Qed.

(** The anchor a capture posts carries the two context strings its helpers
    returned for the length 20, whichever branch stored it. *)
Lemma capture_contexts op sel now now' st m text page before after :
  m ∈ drop (length (Webview.outbox st))
        (Webview.outbox (capture op (Some sel) now now' st)) →
  anchorOf m = Some (text, page, before, after) →
  before = Webview.getTextBefore (Webview.sel_range sel) 20 ∧
  after = Webview.getTextAfter (Webview.sel_range sel) 20.
Proof.
  destruct op as [color|type color|body color]; simpl.
  - unfold Webview.highlightSelection.
    destruct (truthy _); simpl.
    2:{ rewrite drop_app_length. by intros ->%list_elem_of_singleton. }
    destruct (Webview.surroundContents _ _ _) as [doc [|]]; simpl.
    { rewrite drop_app_length. intros ->%list_elem_of_singleton. simpl.
      by intros [= _ _ <- <-]. }
    destruct (Webview.extractAndInsert _ _ _) as [doc' [t|]]; simpl.
    + rewrite drop_app_length. intros ->%list_elem_of_singleton. simpl.
      by intros [= _ _ <- <-].
    + rewrite drop_app_length. by intros ->%list_elem_of_singleton.
  - unfold Webview.annotateSelection.
    destruct (truthy _); simpl.
    2:{ rewrite drop_app_length. by intros ->%list_elem_of_singleton. }
    destruct (Webview.surroundContents _ _ _) as [doc [|]]; simpl.
    { rewrite drop_app_length. intros ->%list_elem_of_singleton. simpl.
      by intros [= _ _ <- <-]. }
    destruct (Webview.extractAndInsert _ _ _) as [doc' [t|]]; simpl.
    + rewrite drop_app_length. intros ->%list_elem_of_singleton. simpl.
      by intros [= _ _ <- <-].
    + rewrite drop_app_length. by intros ->%list_elem_of_singleton.
  - unfold Webview.addCommentToSelection.
    destruct (truthy _); simpl.
    2:{ rewrite drop_app_length. by intros ->%list_elem_of_singleton. }
    destruct (Webview.surroundContents _ _ _) as [doc [|]]; simpl.
    + rewrite drop_app_length. intros ->%list_elem_of_singleton. simpl.
      by intros [= _ _ <- <-].
    + rewrite drop_app_length. by intros ->%list_elem_of_singleton.
Qed.

End capture.

(** C7. For each text-bound capture function ([highlightSelection],
    [annotateSelection] for underline / strikethrough / squiggly,
    [addCommentToSelection]): when there is no selection, or the selected
    string is empty or white space only, the function posts [noSelection] and
    does nothing else -- document, lists and every other variable of the view
    are as before -- and the host, on that message, shows the warning and
    leaves its lists and the store untouched. *)
Theorem blank_selection_rejected (op : CaptureOp)
    (selection : option Webview.Selection) (now now' : Z)
    (st : Webview.State) (host : Host.PdfPreview) :
  blankSelection selection = true →
  capture op selection now now' st = Webview.postMessage NoSelection st ∧
  Webview.highlights (capture op selection now now' st) = Webview.highlights st ∧
  Webview.annotations (capture op selection now now' st)
  = Webview.annotations st ∧
  Webview.comments (capture op selection now now' st) = Webview.comments st ∧
  Webview.pages (capture op selection now now' st) = Webview.pages st ∧
  Webview.outbox (capture op selection now now' st)
  = Webview.outbox st ++ [NoSelection] ∧
  let host' :=
    Host.receiveAll
      (drop (length (Webview.outbox st))
         (Webview.outbox (capture op selection now now' st))) host in
  Host.globalState host' = Host.globalState host ∧
  Host._savedHighlights host' = Host._savedHighlights host ∧
  Host._savedAnnotations host' = Host._savedAnnotations host ∧
  Host._savedComments host' = Host._savedComments host ∧
  Host.shown host' = Host.shown host ++ [Host.Warning "msg.noSelection"].
Proof.
  intros Hblank.
  assert (capture op selection now now' st = Webview.postMessage NoSelection st)
    as ->.
  { destruct selection as [sel|]; [|by destruct op].
    simpl in Hblank. apply trim_blank in Hblank.
    destruct op; simpl;
      unfold Webview.highlightSelection, Webview.annotateSelection,
        Webview.addCommentToSelection; by rewrite Hblank. }
  simpl. rewrite drop_app_length. by repeat split.
Qed.

Lemma blank_selection_rejected_witness :
  Webview.outbox
    (capture (AnnotateOp underline None) (Some SampleSelection.spaces) 0 0
       Sample.state)
  = [NoSelection].
Proof.
  apply (blank_selection_rejected (AnnotateOp underline None)
           (Some SampleSelection.spaces) 0 0 Sample.state
           (Host.new SampleStore.uri ∅)).
  reflexivity.
Defined.

(** C8: the code at a failing input.  The selection runs from "ipsum" in the
    first text run to the end of "sit " in the second. [surroundContents]
    throws, the fallback succeeds, and the anchor that is stored -- in the
    view's list, in the message, and in the host's store -- carries
    [span.textContent], "ipsum dolorsit " with its trailing space, not the
    trimmed selection "ipsum dolorsit".  [annotateSelection] does the same. *)
Theorem fallback_capture_stores_untrimmed_text :
  let st' :=
    Webview.highlightSelection None (Some SampleSelection.acrossRuns)
      1700000000600 Sample.state in
  let stored :=
    {| hd_text := js "ipsum dolorsit "; hd_color := "#FFFF00"; hd_page := 1;
       hd_timestamp := 1700000000600; hd_textBefore := js "Lorem ";
       hd_textAfter := js "ipsum amet" |} in
  Webview.outbox st' = [HighlightAdded "#FFFF00" 1 stored] ∧
  Webview.h_text <$> Webview.highlights st' = [js "ipsum dolorsit "] ∧
  Host._savedHighlights
    (Host.receiveAll (Webview.outbox st') (Host.new SampleStore.uri ∅))
  = [stored] ∧
  trim (Webview.sel_toString SampleSelection.acrossRuns) = js "ipsum dolorsit" ∧
  hd_text stored ≠ trim (Webview.sel_toString SampleSelection.acrossRuns) ∧
  ad_text <$>
    Host._savedAnnotations
      (Host.receiveAll
         (Webview.outbox
            (Webview.annotateSelection underline None
               (Some SampleSelection.acrossRuns) 1700000000600 1700000000601
               Sample.state))
         (Host.new SampleStore.uri ∅))
  = [js "ipsum dolorsit "].
Proof. vm_compute. repeat split. discriminate. Qed.

(** C9, as the code has it.  After a capture that stored an anchor [a]
    (appended to the view's list, and by the host to its stored list), the
    summary of that kind has one entry per list element and its last entry
    is the new anchor's: for a highlight, numbered with the length of the
    list, [a.text] cut to 50 code units, followed by "..." exactly when
    [a.text] is longer than 50; for a comment, numbered from 0, the selected
    text cut to 30 code units and the comment body cut to 50, each followed by
    "..." exactly when it was longer. *)
Theorem summary_after_capture (st : Webview.State) (host : Host.PdfPreview) :
  (∀ color selection now c n a,
     let st' := Webview.highlightSelection color selection now st in
     Webview.outbox st' = Webview.outbox st ++ [HighlightAdded c n a] →
     last (Host._savedHighlights
             (Host.onDidReceiveMessage (HighlightAdded c n a) host)) = Some a ∧
     ∃ items,
       Webview.outbox (Webview.getHighlightsSummary st')
       = Webview.outbox st'
         ++ [HighlightsSummary items (len (Webview.highlights st'))] ∧
       length items = length (Webview.highlights st') ∧
       last items
       = Some {| hs_index := len (Webview.highlights st');
                 hs_color := hd_color a;
                 hs_text :=
                   take 50 (hd_text a)
                   ++ (if decide (50 < length (hd_text a))
                       then js "..." else []) |}) ∧
  (∀ commentText color selection now now' c n a,
     let st' :=
       Webview.addCommentToSelection commentText color selection now now' st in
     Webview.outbox st' = Webview.outbox st ++ [CommentAdded c n a] →
     last (Host._savedComments
             (Host.onDidReceiveMessage (CommentAdded c n a) host)) = Some a ∧
     ∃ items item,
       Webview.outbox (Webview.getCommentsList st')
       = Webview.outbox st'
         ++ [CommentsList items (len (Webview.comments st'))] ∧
       length items = length (Webview.comments st') ∧
       last items = Some item ∧
       cs_index item = (len (Webview.comments st') - 1)%Z ∧
       cs_text item
       = take 30 (cd_text a)
         ++ (if decide (30 < length (cd_text a)) then js "..." else []) ∧
       cs_comment item
       = take 50 (cd_comment a)
         ++ (if decide (50 < length (cd_comment a)) then js "..." else [])).
Proof.
  split.
  - intros color selection now c n a st' Hout.
    split; [simpl; by rewrite last_snoc|].
    destruct (highlightSelection_added _ _ _ _ _ _ _ Hout) as (e & He & Ht & Hc).
    fold st' in He. eexists. split; [reflexivity|].
    rewrite length_imap. split; [done|].
    rewrite He, imap_app. simpl. rewrite last_snoc. f_equal.
    rewrite Ht, Hc, truncated_spec by lia.
    unfold len. rewrite length_app. simpl. f_equal. lia.
  - intros commentText color selection now now' c n a st' Hout.
    split; [simpl; by rewrite last_snoc|].
    destruct (addComment_added _ _ _ _ _ _ _ _ _ Hout) as (e & He & Ht & Hc).
    fold st' in He. eexists. eexists. split; [reflexivity|].
    rewrite length_imap. split; [done|].
    rewrite He, imap_app. simpl. rewrite last_snoc. split; [done|]. simpl.
    rewrite Ht, Hc, !truncated_spec by lia.
    unfold len. rewrite length_app. simpl. repeat split. lia.
Qed.

Lemma summary_after_capture_witness :
  ∃ items,
    Webview.outbox
      (Webview.getHighlightsSummary
         (Webview.highlightSelection None (Some SampleSelection.word)
            1700000000700 Sample.state))
    = Webview.outbox
        (Webview.highlightSelection None (Some SampleSelection.word)
           1700000000700 Sample.state)
      ++ [HighlightsSummary items 1] ∧
    last items
    = Some {| hs_index := 1; hs_color := "#FFFF00"; hs_text := js "ipsum" |}.
Proof.
  destruct (summary_after_capture Sample.state (Host.new SampleStore.uri ∅))
    as [H _].
  destruct (H None (Some SampleSelection.word) 1700000000700%Z "#FFFF00"%string
              1%Z
              {| hd_text := js "ipsum"; hd_color := "#FFFF00"; hd_page := 1;
                 hd_timestamp := 1700000000700; hd_textBefore := js "Lorem";
                 hd_textAfter := js "dolor" |})
    as (_ & items & H1 & _ & H2); [reflexivity|].
  exists items. split; [exact H1 | exact H2].
Defined.

(** C9: the claim as stated fails for comments.  A comment is added on the
    36 characters of the third text run; the last entry of the comment list
    carries the first 30 characters and "...", while the anchor's text cut to
    50 is the whole text. *)
Lemma comment_summary_cuts_at_30 :
  let st' :=
    Webview.addCommentToSelection (js "check this") None
      (Some SampleSelection.long) 1700000000200 1700000000200 Sample.state in
  Webview.outbox st' = [CommentAdded "#FFE4B5" 1 SampleStore.remark] ∧
  ∃ items total item,
    Webview.outbox (Webview.getCommentsList st')
    = Webview.outbox st' ++ [CommentsList items total] ∧
    last items = Some item ∧
    cs_text item = js "abcdefghijklmnopqrstuvwxyz0123..." ∧
    truncated 50 (cd_text SampleStore.remark)
    = js "abcdefghijklmnopqrstuvwxyz0123456789" ∧
    cs_text item ≠ truncated 50 (cd_text SampleStore.remark).
Proof.
  split; [reflexivity|]. eexists _, _, _.
  split; [reflexivity|]. split; [reflexivity|].
  split; [reflexivity|]. split; [reflexivity|]. vm_compute. discriminate.
Qed.

(** C10.  The two context helpers are total functions: when one of the DOM
    calls throws, the result is the empty string, whatever the requested
    length.  For every range and every requested length of at least 1
    neither result is longer than the requested length; [getTextBefore]
    returns the end of the text before the selection and [getTextAfter] the
    beginning of the text after it.  The helpers are local to the script and
    each of its six calls requests 20: whichever branch of a capture stores
    the anchor, its two context strings are the helpers' results for 20, of
    at most 20 code units, so that no capture stops because of them. *)
Theorem context_extraction_bounded (range : Webview.Range) :
  (∀ n, (1 ≤ n)%Z →
        (jslength (Webview.getTextBefore range n) ≤ n)%Z ∧
        (jslength (Webview.getTextAfter range n) ≤ n)%Z) ∧
  (∀ n, (0 ≤ n)%Z → (jslength (Webview.getTextAfter range n) ≤ n)%Z) ∧
  (∀ n, Webview.preRangeText range = None →
        Webview.getTextBefore range n = []) ∧
  (∀ n, Webview.postRangeText range = None →
        Webview.getTextAfter range n = []) ∧
  (∀ n t, Webview.preRangeText range = Some t →
          Webview.getTextBefore range n `suffix_of` t) ∧
  (∀ n t, Webview.postRangeText range = Some t →
          Webview.getTextAfter range n `prefix_of` t) ∧
  (∀ op sel now now' st m text page before after,
     Webview.sel_range sel = range →
     m ∈ drop (length (Webview.outbox st))
           (Webview.outbox (capture op (Some sel) now now' st)) →
     anchorOf m = Some (text, page, before, after) →
     before = Webview.getTextBefore range 20 ∧
     after = Webview.getTextAfter range 20 ∧
     (jslength before ≤ 20)%Z ∧ (jslength after ≤ 20)%Z).
Proof.
  split.
  { intros n Hn.
    split; [apply getTextBefore_bounded | apply getTextAfter_bounded]; lia. }
  split; [intros n Hn; by apply getTextAfter_bounded|].
  split.
  { intros n Hpre. unfold Webview.getTextBefore. by rewrite Hpre. }
  split.
  { intros n Hpost. unfold Webview.getTextAfter. by rewrite Hpost. }
  split.
  { intros n t Hpre. unfold Webview.getTextBefore. rewrite Hpre.
    apply slice_last_suffix. }
  split.
  { intros n t Hpost. unfold Webview.getTextAfter. rewrite Hpost.
    apply slice_to_prefix. }
  intros op sel now now' st m text page before after <- Hm Ha.
  destruct (capture_contexts _ _ _ _ _ _ _ _ _ _ Hm Ha) as [-> ->].
  split; [done|]. split; [done|].
  split; [apply getTextBefore_bounded | apply getTextAfter_bounded]; lia.
Qed.

Lemma context_extraction_bounded_witness :
  (jslength
     (Webview.getTextBefore
        (Webview.sel_range SampleSelection.acrossRuns) 20) ≤ 20)%Z.
Proof.
  apply (context_extraction_bounded
           (Webview.sel_range SampleSelection.acrossRuns)).
  lia.
Defined.

(** The bound on [getTextBefore] needs a length of at least 1:
    [text.slice(-0)] is [text.slice(0)], the whole text.  With "Lorem "
    before the selection, a call with length 0 -- the script has none --
    would return all 6 code units. *)
Lemma getTextBefore_zero_length :
  ¬ ∀ (range : Webview.Range) (n : Z),
      (0 ≤ n)%Z → (jslength (Webview.getTextBefore range n) ≤ n)%Z.
Proof.
  intros H.
  specialize (H (Webview.sel_range SampleSelection.acrossRuns) 0%Z).
  vm_compute in H. apply H; [discriminate | reflexivity].
Qed.

(** * Properties of the rest of the two halves *)

Ltac other_key :=
  let H := fresh in
  intros H; cbv [String.append] in H; first [discriminate H | by simplify_eq].

(** ** Highlights across the two halves and across sessions *)

Section sessions.

Lemma append_inj (p a b : string) : p +:+ a = p +:+ b → a = b.
Proof.
  induction p as [|c p IH]; simpl; [done|]. intros H. injection H. auto.
Qed.

Lemma newMessages_app st st' ms :
  Webview.outbox st' = Webview.outbox st ++ ms → newMessages st st' = ms.
Proof. unfold newMessages. intros ->. by rewrite drop_app_length. Qed.

Lemma onDidReceiveMessage_resource m this :
  Host.resource (Host.onDidReceiveMessage m this) = Host.resource this.
Proof.
  destruct m; simpl; try reflexivity;
    unfold Host.removeHighlightFromStorage, Host.restoreHighlights,
      Host.updateStickyNoteInStorage, Host.updateStickyNotePositionInStorage;
    repeat case_match; reflexivity.
Qed.

Lemma receiveAll_resource ms this :
  Host.resource (Host.receiveAll ms this) = Host.resource this.
Proof.
  revert this. induction ms as [|m ms IH]; intros this; [done|].
  simpl. rewrite IH. apply onDidReceiveMessage_resource.
Qed.

Lemma storedHighlights_step m this :
  storedHighlights this = Host._savedHighlights this →
  storedHighlights (Host.onDidReceiveMessage m this)
  = Host._savedHighlights (Host.onDidReceiveMessage m this).
Proof.
  intros H. unfold storedHighlights, Host.getHighlightsKey in *.
  destruct m; simpl; try exact H;
    unfold Host.removeHighlightFromStorage, Host.restoreHighlights,
      Host.updateStickyNoteInStorage, Host.updateStickyNotePositionInStorage;
    repeat match goal with
           | |- context [if ?c then _ else _] => destruct c
           | |- context [match ?l with [] => _ | _ :: _ => _ end] => destruct l
           end; simpl; try exact H;
    try (by rewrite lookup_insert_eq);
    repeat (rewrite lookup_insert_ne by other_key); try exact H.
Qed.

Lemma storedHighlights_receiveAll ms this :
  storedHighlights this = Host._savedHighlights this →
  storedHighlights (Host.receiveAll ms this)
  = Host._savedHighlights (Host.receiveAll ms this).
Proof.
  revert this. induction ms as [|m ms IH]; intros this H; [done|].
  simpl. apply IH. by apply storedHighlights_step.
Qed.

Lemma storedHighlights_new uri store :
  storedHighlights (Host.new uri store)
  = Host._savedHighlights (Host.new uri store).
Proof. reflexivity. Qed.

(** X1. Whatever messages a host session receives, the highlight list it
    ends with is the list the next session on the same document starts
    with; when the view of that session asks for the stored highlights, the
    host posts exactly that list, and posts nothing when it is empty. *)
Theorem highlights_survive_reopen (uri : string)
    (store : gmap string Host.Stored) (messages : list Msg) :
  let closed := Host.receiveAll messages (Host.new uri store) in
  Host._savedHighlights (Host.reopen closed) = Host._savedHighlights closed ∧
  Host.posted
    (Host.onDidReceiveMessage RequestStoredHighlights (Host.reopen closed))
  = match Host._savedHighlights closed with
    | [] => []
    | _ :: _ => [Host.RestoreHighlights (Host._savedHighlights closed)]
    end.
Proof.
  intros closed.
  assert (Host._savedHighlights (Host.reopen closed)
          = Host._savedHighlights closed) as Heq.
  { transitivity (storedHighlights closed); [reflexivity|].
    apply storedHighlights_receiveAll, storedHighlights_new. }
  split; [exact Heq|].
  simpl. unfold Host.restoreHighlights. rewrite Heq.
  destruct (Host._savedHighlights closed) eqn:E; [reflexivity|].
  reflexivity.
Qed.

Lemma onDidReceiveMessage_frame m this k :
  (∀ p, p ∈ keyPrefixes → p +:+ Host.resource this ≠ k) →
  Host.globalState (Host.onDidReceiveMessage m this) !! k
  = Host.globalState this !! k.
Proof.
  intros Hk.
  assert (∀ p, p ∈ keyPrefixes → ∀ v (s : gmap string Host.Stored),
            <[p +:+ Host.resource this := v]> s !! k = s !! k) as Hne.
  { intros p Hp v s. apply lookup_insert_ne. by apply Hk. }
  destruct m; simpl; try reflexivity;
    unfold Host.removeHighlightFromStorage, Host.restoreHighlights,
      Host.updateStickyNoteInStorage, Host.updateStickyNotePositionInStorage;
    repeat match goal with
           | |- context [if ?c then _ else _] => destruct c
           | |- context [match ?l with [] => _ | _ :: _ => _ end] => destruct l
           end; simpl; try reflexivity;
    unfold Host.getHighlightsKey, Host.annotationsKey, Host.commentsKey,
      Host.stickyNotesKey, Host.drawingsKey; simpl;
    repeat (rewrite Hne by (unfold keyPrefixes; set_solver)); reflexivity.
Qed.

Lemma receiveAll_frame ms this k :
  (∀ p, p ∈ keyPrefixes → p +:+ Host.resource this ≠ k) →
  Host.globalState (Host.receiveAll ms this) !! k = Host.globalState this !! k.
Proof.
  revert this. induction ms as [|m ms IH]; intros this Hk; [done|].
  simpl. rewrite IH.
  - by apply onDidReceiveMessage_frame.
  - by rewrite onDidReceiveMessage_resource.
Qed.

(** X2. A session on one document never changes what the store holds for
    another document: under each of the key prefixes of the annotation code,
    the entry of a different URI is the same after any sequence of
    messages. *)
Theorem other_documents_untouched (uri uri' : string)
    (store : gmap string Host.Stored) (messages : list Msg) :
  (uri =? uri')%string = false →
  ∀ prefix, prefix ∈ keyPrefixes →
    Host.globalState (Host.receiveAll messages (Host.new uri store))
      !! (prefix +:+ uri')
    = store !! (prefix +:+ uri').
Proof.
  intros Hne%String.eqb_neq prefix Hprefix.
  rewrite receiveAll_frame; [reflexivity|].
  intros p Hp. simpl.
  unfold keyPrefixes in *.
  repeat (apply elem_of_cons in Hp as [->|Hp]);
    try (by apply elem_of_nil in Hp);
    repeat (apply elem_of_cons in Hprefix as [->|Hprefix]);
    try (by apply elem_of_nil in Hprefix);
    other_key.
Qed.

Lemma other_documents_untouched_witness :
  Host.globalState
    (Host.receiveAll [HighlightAdded "#FFFF00" 1 Sample.ipsum]
       (Host.new SampleStore.uri ∅))
    !! ("pdf-highlights-" +:+ "file:///docs/other.pdf")
  = (∅ : gmap string Host.Stored)
      !! ("pdf-highlights-" +:+ "file:///docs/other.pdf").
Proof.
  apply (other_documents_untouched SampleStore.uri "file:///docs/other.pdf" ∅
           [HighlightAdded "#FFFF00" 1 Sample.ipsum]).
  - reflexivity.
  - unfold keyPrefixes. apply list_elem_of_here.
Defined.

Lemma aligned_length st host :
  aligned st host →
  len (Webview.highlights st) = len (Host._savedHighlights host).
Proof.
  intros H. unfold len. f_equal.
  rewrite <- (length_fmap viewAnchor), H. apply length_fmap.
Qed.

Lemma aligned_step m st host :
  aligned st host →
  let st' := handleRequest m st in
  aligned st' (Host.receiveAll (newMessages st st') host).
Proof.
  intros H. destruct m as [color selection now| |index|]; simpl.
  - unfold Webview.highlightSelection.
    destruct selection as [selection|];
      [destruct (truthy (trim (Webview.sel_toString selection)))|];
      try (erewrite newMessages_app by reflexivity; exact H).
    destruct (Webview.surroundContents _ _ _) as [doc [|]].
    + erewrite newMessages_app by reflexivity.
      unfold aligned in *. simpl. rewrite !fmap_app. by f_equal.
    + destruct (Webview.extractAndInsert _ _ _) as [doc' [content|]].
      * erewrite newMessages_app by reflexivity.
        unfold aligned in *. simpl. rewrite !fmap_app. by f_equal.
      * erewrite newMessages_app by reflexivity. exact H.
  - erewrite newMessages_app by reflexivity.
    unfold aligned in *. simpl.
    by destruct (imap _ (Webview.highlights st)).
  - destruct (decide (0 ≤ index < len (Webview.highlights st))%Z) as [Hin|Hout].
    + destruct (removeHighlight_in_range index st Hin) as [Hh Ho].
      erewrite newMessages_app by exact Ho.
      unfold aligned. rewrite Hh. simpl.
      assert (0 ≤ index < len (Host._savedHighlights host))%Z as Hin'
        by (by rewrite <- (aligned_length st host)).
      destruct (removeHighlightFromStorage_in_range index host Hin') as [-> _].
      rewrite !list_fmap_delete. by f_equal.
    + destruct (removeHighlight_out_of_range index st Hout) as [-> _].
      erewrite newMessages_app by reflexivity. exact H.
  - erewrite newMessages_app by reflexivity. reflexivity.
Qed.

(** X3. The highlight list of the view and the list of the host stay
    aligned, entry by entry (text, colour, page, context strings), through
    any sequence of highlight requests handled by the view and answered by
    the host: selecting, listing, removing by index (valid or not) and
    clearing.  The list in the store stays equal to the host's list. *)
Theorem view_and_store_stay_aligned (requests : list HighlightRequest)
    (st : Webview.State) (host : Host.PdfPreview) :
  aligned st host →
  storedHighlights host = Host._savedHighlights host →
  let after := session requests st host in
  aligned after.1 after.2 ∧
  storedHighlights after.2 = Host._savedHighlights after.2.
Proof.
  revert st host. induction requests as [|m rest IH]; intros st host Ha Hs.
  - by split.
  - simpl. apply IH.
    + by apply aligned_step.
    + by apply storedHighlights_receiveAll.
Qed.

Lemma view_and_store_stay_aligned_witness :
  let after :=
    session
      [HighlightSelectionRequest None (Some SampleSelection.word)
         1700000000700;
       RemoveHighlightRequest 0]
      Sample.state (Host.new SampleStore.uri ∅) in
  aligned after.1 after.2 ∧
  storedHighlights after.2 = Host._savedHighlights after.2.
Proof.
  apply (view_and_store_stay_aligned
           [HighlightSelectionRequest None (Some SampleSelection.word)
              1700000000700%Z;
            RemoveHighlightRequest 0%Z]
           Sample.state (Host.new SampleStore.uri ∅)); reflexivity.
Defined.

End sessions.

(** ** Markers and the text of the pages *)

Section page_text.

Lemma textContent_app a b :
  textContent (a ++ b) = textContent a ++ textContent b.
Proof. unfold textContent. by rewrite textNodes_app, concat_app. Qed.

Lemma surroundMatch_textContent text sp s r :
  surroundMatch text sp [] s = Some r → textContent r = s.
Proof.
  intros H. apply surroundMatch_Some in H as (i & _ & Hs & ->).
  rewrite Hs at 3.
  destruct text; unfold textContent, textNodes; simpl;
    by rewrite ?app_nil_r.
Qed.

Lemma walk_textContent f ns ns' :
  (∀ s r, f s = Some r → textContent r = s) →
  walk f ns = Some ns' → textContent ns' = textContent ns.
Proof.
  intros Hf H.
  apply walk_Some in H as (pre & s & post & r & Hns & _ & Hr & Hns' & _).
  unfold textContent. rewrite Hns, Hns', !concat_app, concat_cons.
  f_equal. f_equal. by apply Hf.
Qed.

Lemma documentText_setTextLayer p layer layer' doc :
  querySelector_textLayer p doc = Some layer →
  textContent layer' = textContent layer →
  documentText (setTextLayer p layer' doc) = documentText doc.
Proof.
  intros Hq Ht. induction doc as [|pv rest IH]; [done|].
  simpl in *. destruct (pageNumber pv =? p)%Z.
  - destruct (textLayer pv) as [l|] eqn:El.
    + injection Hq as ->. unfold documentText. csimpl. by rewrite ?El, Ht.
    + unfold documentText in *. csimpl. rewrite IH by done. by rewrite ?El.
  - unfold documentText in *. csimpl. rewrite IH by done. by rewrite ?El.
Qed.

Lemma findAndWrap_text text page sp doc doc' :
  Webview.findAndWrap text page sp [] doc = Some doc' →
  documentText doc' = documentText doc.
Proof.
  unfold Webview.findAndWrap.
  destruct (querySelector_textLayer page doc) as [layer|] eqn:Eq; [|done].
  destruct (walk _ layer) as [layer'|] eqn:Ew; [|done].
  intros [= <-]. eapply documentText_setTextLayer; [exact Eq|].
  eapply walk_textContent; [|exact Ew].
  intros s r. apply surroundMatch_textContent.
Qed.

Lemma find_text h st :
  documentText (Webview.pages (Webview.restoreSingleHighlight_find h st))
  = documentText (Webview.pages st).
Proof.
  unfold Webview.restoreSingleHighlight_find.
  destruct (Webview.findAndWrap _ _ _ _ _) as [doc|] eqn:E; [|done].
  simpl. by apply findAndWrap_text in E.
Qed.

Lemma deferredSearches_text l st :
  documentText (Webview.pages (Webview.deferredSearches l st))
  = documentText (Webview.pages st).
Proof.
  revert st. induction l as [|h l IH]; intros st; [done|].
  unfold Webview.deferredSearches in *. simpl. rewrite IH. apply find_text.
Qed.

(** X5. Restoring stored highlights, or a stored underline / strikethrough
    / squiggly annotation, never changes the text of any page: the spans are
    wrapped around text that stays where it is. *)
Theorem restore_keeps_page_text (saved : list HighlightData)
    (a : AnnotationData) (st : Webview.State) :
  documentText (Webview.pages (Webview.restoreHighlights saved st))
  = documentText (Webview.pages st) ∧
  documentText (Webview.pages (Webview.restoreSingleAnnotation a st))
  = documentText (Webview.pages st).
Proof.
  split.
  - destruct (restoreHighlights_markers saved st) as [-> _].
    apply deferredSearches_text.
  - unfold Webview.restoreSingleAnnotation.
    destruct (Webview.findAndWrap _ _ _ _ _) as [doc|] eqn:E; [|done].
    simpl. by apply findAndWrap_text in E.
Qed.

(** X4. [removeHighlight] never deletes text: for every index, valid or
    not, the text of every page is unchanged; it removes at most one marker
    span and leaves the annotations, comments, sticky notes and drawings as
    they are. *)
Theorem removeHighlight_keeps_text (index : Z) (st : Webview.State) :
  let st' := Webview.removeHighlight index st in
  documentText (Webview.pages st') = documentText (Webview.pages st) ∧
  documentMarkers (Webview.pages st') ≤ documentMarkers (Webview.pages st)
    ≤ S (documentMarkers (Webview.pages st')) ∧
  Webview.annotations st' = Webview.annotations st ∧
  Webview.comments st' = Webview.comments st ∧
  Webview.stickyNotes st' = Webview.stickyNotes st ∧
  Webview.drawingAnnotations st' = Webview.drawingAnnotations st.
Proof.
  unfold Webview.removeHighlight.
  destruct (outOfRange index (Webview.highlights st));
    [simpl; repeat split; lia|].
  set (st1 := match Webview.highlights st !! Z.to_nat index with
              | Some h =>
                  match unwrapSpan (Webview.h_element h) (Webview.pages st) with
                  | Some doc => Webview.set_pages doc st
                  | None => st
                  end
              | None => st
              end).
  assert (documentText (Webview.pages st1) = documentText (Webview.pages st) ∧
          documentMarkers (Webview.pages st1)
            ≤ documentMarkers (Webview.pages st)
            ≤ S (documentMarkers (Webview.pages st1)) ∧
          Webview.annotations st1 = Webview.annotations st ∧
          Webview.comments st1 = Webview.comments st ∧
          Webview.stickyNotes st1 = Webview.stickyNotes st ∧
          Webview.drawingAnnotations st1 = Webview.drawingAnnotations st) as H.
  { subst st1.
    destruct (Webview.highlights st !! Z.to_nat index) as [h|];
      [|repeat split; lia].
    destruct (unwrapSpan (Webview.h_element h) (Webview.pages st))
      as [doc|] eqn:E;
      [|repeat split; lia].
    apply unwrapSpan_Some in E as [Hm Ht]. simpl. repeat split; try done; lia. }
  clearbody st1. cbv zeta.
  match goal with |- context [if ?c then _ else _] => destruct c end;
    simpl; exact H.
Qed.

Lemma isSpan_Marker sp : isSpan (sp_id sp) (Marker sp) = true.
Proof. simpl. apply Nat.eqb_refl. Qed.

Lemma walk_surround_unwrap text sp extra ns ns' :
  walk (surroundMatch text sp extra) ns = Some ns' →
  is_Some (unwrap (sp_id sp) ns').
Proof.
  revert ns'. induction ns as [|s rest IH|t ks rest IHks IH] using forest_ind;
    intros ns'; [done| |].
  - rewrite walk_Text.
    destruct (surroundMatch text sp extra s) as [r|] eqn:Er.
    + intros [= <-]. apply surroundMatch_Some in Er as (i & _ & _ & ->).
      simpl app. rewrite unwrap_Text, unwrap_Element, isSpan_Marker. by eexists.
    + destruct (walk _ rest) as [rest'|]; [|done]. intros [= <-].
      rewrite unwrap_Text. destruct (IH rest' eq_refl) as [x ->]. by eexists.
  - rewrite walk_Element.
    destruct (walk _ ks) as [ks'|].
    + intros [= <-]. rewrite unwrap_Element.
      destruct (isSpan _ t); [by eexists|].
      destruct (IHks ks' eq_refl) as [x ->]. by eexists.
    + destruct (walk _ rest) as [rest'|]; [|done]. intros [= <-].
      rewrite unwrap_Element.
      destruct (isSpan _ t); [by eexists|].
      destruct (unwrap _ ks); [by eexists|].
      destruct (IH rest' eq_refl) as [x ->]. by eexists.
Qed.

Lemma unwrapSpan_setTextLayer id p layer layer' doc :
  querySelector_textLayer p doc = Some layer →
  is_Some (unwrap id layer') →
  is_Some (unwrapSpan id (setTextLayer p layer' doc)).
Proof.
  intros Hq [x Hx]. induction doc as [|pv rest IH]; [done|].
  simpl in Hq |- *.
  destruct (pageNumber pv =? p)%Z; [destruct (textLayer pv) as [l|] eqn:El|].
  - simpl. rewrite Hx. by eexists.
  - simpl. rewrite El. simpl. destruct (IH Hq) as [y ->]. by eexists.
  - simpl. destruct (textLayer pv ≫= unwrap id); [by eexists|].
    destruct (IH Hq) as [y ->]. by eexists.
Qed.

Lemma findAndWrap_unwrapSpan text page sp extra doc doc' :
  Webview.findAndWrap text page sp extra doc = Some doc' →
  is_Some (unwrapSpan (sp_id sp) doc').
Proof.
  unfold Webview.findAndWrap.
  destruct (querySelector_textLayer page doc) as [layer|] eqn:Eq; [|done].
  destruct (walk _ layer) as [layer'|] eqn:Ew; [|done].
  intros [= <-]. eapply unwrapSpan_setTextLayer; [exact Eq|].
  by eapply walk_surround_unwrap.
Qed.

Lemma outOfRange_false {A} index (l : list A) :
  (0 ≤ index < len l)%Z → outOfRange index l = false.
Proof.
  intros H. unfold outOfRange. rewrite Z.geb_leb.
  destruct (Z.ltb_spec index 0), (Z.leb_spec (len l) index); simpl;
    (reflexivity || lia).
Qed.

Lemma outOfRange_true {A} index (l : list A) :
  ¬ (0 ≤ index < len l)%Z → outOfRange index l = true.
Proof.
  intros H. unfold outOfRange. rewrite Z.geb_leb.
  destruct (Z.ltb_spec index 0), (Z.leb_spec (len l) index); simpl;
    (reflexivity || lia).
Qed.

Lemma removeHighlight_pages index st h :
  (0 ≤ index)%Z → Webview.highlights st !! Z.to_nat index = Some h →
  Webview.pages (Webview.removeHighlight index st)
  = default (Webview.pages st)
      (unwrapSpan (Webview.h_element h) (Webview.pages st)).
Proof.
  intros H0 Hl. unfold Webview.removeHighlight.
  rewrite outOfRange_false
    by (apply lookup_lt_Some in Hl; unfold len; lia).
  rewrite Hl.
  destruct (unwrapSpan _ _) as [doc|]; cbv zeta;
    match goal with |- context [if ?c then _ else _] => destruct c end;
    reflexivity.
Qed.

(** X6. Restoring a stored highlight and then removing the entry it added
    (the one at the former length of the list) gives back the highlight
    list, the number of marker spans and the text of the document. *)
Theorem restore_then_remove (h : HighlightData) (st : Webview.State) :
  let restored := Webview.restoreSingleHighlight_find h st in
  let removed :=
    Webview.removeHighlight (len (Webview.highlights st)) restored in
  Webview.highlights removed = Webview.highlights st ∧
  documentMarkers (Webview.pages removed) = documentMarkers (Webview.pages st) ∧
  documentText (Webview.pages removed) = documentText (Webview.pages st).
Proof.
  intros restored removed. subst restored removed.
  unfold Webview.restoreSingleHighlight_find.
  destruct (Webview.findAndWrap _ _ _ _ _) as [doc|] eqn:E.
  - pose proof (findAndWrap_markers _ _ _ _ _ _ E) as Hm.
    pose proof (findAndWrap_text _ _ _ _ _ E) as Ht.
    apply findAndWrap_unwrapSpan in E as [doc' Hu]. simpl in Hu.
    set (entry := {| Webview.h_element := Webview.nextElement st;
                     Webview.h_color := hd_color h;
                     Webview.h_text := hd_text h;
                     Webview.h_page := hd_page h;
                     Webview.h_textBefore := hd_textBefore h;
                     Webview.h_textAfter := hd_textAfter h |}).
    set (restored := Webview.set_highlights _ _).
    assert (Webview.highlights restored = Webview.highlights st ++ [entry])
      as Hh by reflexivity.
    assert (Webview.pages restored = doc) as Hp by reflexivity.
    assert (Webview.highlights restored
              !! Z.to_nat (len (Webview.highlights st)) = Some entry) as Hl.
    { rewrite Hh. unfold len. rewrite Nat2Z.id.
      rewrite lookup_app_r by lia. by rewrite Nat.sub_diag. }
    split.
    + destruct (removeHighlight_in_range (len (Webview.highlights st)) restored)
        as [-> _].
      { rewrite Hh. unfold len. rewrite length_app. simpl. lia. }
      rewrite Hh. unfold len. rewrite Nat2Z.id.
      rewrite delete_take_drop, take_app_length.
      rewrite drop_app_ge by lia.
      replace (S (length (Webview.highlights st))
               - length (Webview.highlights st)) with 1 by lia.
      simpl. apply app_nil_r.
    + rewrite (removeHighlight_pages _ _ entry) by (unfold len; lia || done).
      rewrite Hp. simpl. rewrite Hu. simpl.
      apply unwrapSpan_Some in Hu as [Hm' Ht'].
      change (markerCount []) with 0 in Hm.
      split; [lia|congruence].
  - unfold Webview.removeHighlight.
    rewrite outOfRange_true by lia. done.
Qed.

End page_text.

(** ** The cursor of the highlight list *)

Section jumps.

Lemma cursorInBounds_spec st :
  Jump.cursorInBounds st = true
  ↔ (-1 ≤ Webview.currentHighlightIndex st < len (Webview.highlights st))%Z.
Proof. unfold Jump.cursorInBounds. rewrite andb_true_iff. lia. Qed.

Lemma at_Some {A} (l : list A) i x :
  at_ l i = Some x ↔ (0 ≤ i)%Z ∧ l !! Z.to_nat i = Some x.
Proof.
  unfold at_. destruct (Z.ltb_spec i 0).
  - split; [done|]. intros [? _]. lia.
  - split; [by intros ?; split | by intros [_ ?]].
Qed.

Lemma find_cursor h st :
  Webview.currentHighlightIndex (Webview.restoreSingleHighlight_find h st)
  = Webview.currentHighlightIndex st.
Proof.
  unfold Webview.restoreSingleHighlight_find.
  by destruct (Webview.findAndWrap _ _ _ _ _).
Qed.

Lemma deferredSearches_cursor l st :
  Webview.currentHighlightIndex (Webview.deferredSearches l st)
  = Webview.currentHighlightIndex st.
Proof.
  revert st. induction l as [|h l IH]; intros st; [done|].
  unfold Webview.deferredSearches in *. simpl. rewrite IH. apply find_cursor.
Qed.

Lemma jump_cursor h st :
  Webview.currentHighlightIndex (Webview.restoreSingleHighlight_jump h st)
  = Webview.currentHighlightIndex st.
Proof.
  unfold Webview.restoreSingleHighlight_jump, Webview.assignCurrentPage.
  repeat match goal with |- context [if ?c then _ else _] => destruct c end;
    reflexivity.
Qed.

Lemma restoreHighlights_cursor l st :
  Webview.currentHighlightIndex (Webview.restoreHighlights l st)
  = Webview.currentHighlightIndex st.
Proof.
  unfold Webview.restoreHighlights. destruct l as [|h l]; [done|].
  rewrite deferredSearches_cursor.
  set (jumped := foldl _ st (h :: l)).
  assert (Webview.currentHighlightIndex jumped
          = Webview.currentHighlightIndex st) as Hj.
  { subst jumped. generalize (h :: l). intros l'. revert st.
    induction l' as [|x l' IH]; intros st; [done|].
    simpl. rewrite IH. apply jump_cursor. }
  cbv zeta. by destruct (_ >? _)%Z.
Qed.

Lemma restoreHighlights_length l st :
  length (Webview.highlights st)
  ≤ length (Webview.highlights (Webview.restoreHighlights l st)).
Proof.
  destruct (restoreHighlights_markers l st) as (_ & -> & _).
  apply deferredSearches_count.
Qed.

Lemma handleRequest_cursor m st :
  Jump.cursorInBounds st = true →
  Jump.cursorInBounds (handleRequest m st) = true.
Proof.
  rewrite !cursorInBounds_spec. intros H.
  destruct m as [color selection now| |index|]; simpl.
  - unfold Webview.highlightSelection.
    destruct selection as [selection|];
      [destruct (truthy (trim (Webview.sel_toString selection)))|];
      try exact H.
    destruct (Webview.surroundContents _ _ _) as [doc [|]].
    + simpl. unfold len in *. rewrite length_app. simpl. lia.
    + destruct (Webview.extractAndInsert _ _ _) as [doc' [content|]].
      * simpl. unfold len in *. rewrite length_app. simpl. lia.
      * exact H.
  - exact H.
  - unfold Webview.removeHighlight.
    destruct (outOfRange index (Webview.highlights st)) eqn:Eo; [exact H|].
    set (st1 := match Webview.highlights st !! Z.to_nat index with
                | Some h =>
                    match unwrapSpan (Webview.h_element h) (Webview.pages st)
                    with
                    | Some doc => Webview.set_pages doc st
                    | None => st
                    end
                | None => st
                end).
    assert (Webview.highlights st1 = Webview.highlights st ∧
            Webview.currentHighlightIndex st1
            = Webview.currentHighlightIndex st) as [Hh Hc].
    { subst st1. destruct (Webview.highlights st !! Z.to_nat index); [|done].
      by destruct (unwrapSpan _ _). }
    clearbody st1. cbv zeta. simpl.
    assert (0 ≤ index < len (Webview.highlights st))%Z as Hin.
    { unfold outOfRange in Eo. apply orb_false_elim in Eo as [E1 E2]. lia. }
    assert (len (splice1 index (Webview.highlights st1))
            = len (Webview.highlights st) - 1)%Z as Hlen.
    { unfold len, splice1 in *. rewrite Hh, length_delete; [lia|].
      apply lookup_lt_is_Some. lia. }
    destruct (_ >=? _)%Z eqn:Ec; simpl; rewrite Hlen; [lia|].
    rewrite Hlen in Ec. lia.
  - simpl. unfold len. simpl. lia.
Qed.

Lemma handle_cursor m st :
  Jump.cursorInBounds st = true →
  Jump.cursorInBounds (Jump.handle m st).1 = true.
Proof.
  intros H. destruct m as [m|index| |saved]; simpl.
  - by apply handleRequest_cursor.
  - unfold Jump.jumpToHighlightIndex.
    destruct (outOfRange index (Webview.highlights st)) eqn:Eo; [exact H|].
    unfold outOfRange in Eo. apply orb_false_elim in Eo as [E1 E2].
    assert (Jump.cursorInBounds (Webview.set_highlightIndex index st) = true).
    { apply cursorInBounds_spec. simpl. lia. }
    cbv zeta. by destruct (at_ _ _).
  - unfold Jump.jumpToNextHighlight.
    destruct (Z.eqb_spec (len (Webview.highlights st)) 0); [exact H|].
    apply cursorInBounds_spec in H.
    assert (Jump.cursorInBounds
              (Webview.set_highlightIndex
                 (Z.rem (Webview.currentHighlightIndex st + 1)
                    (len (Webview.highlights st))) st) = true).
    { apply cursorInBounds_spec. simpl.
      pose proof (Z.rem_bound_pos (Webview.currentHighlightIndex st + 1)
                    (len (Webview.highlights st))). lia. }
    cbv zeta. by destruct (at_ _ _).
  - apply cursorInBounds_spec. apply cursorInBounds_spec in H.
    rewrite restoreHighlights_cursor.
    pose proof (restoreHighlights_length saved st). unfold len in *. lia.
Qed.

(** X7. The cursor of the highlight list, [currentHighlightIndex], is
    always -1 or the position of an entry: this holds after every sequence
    of highlight requests (select, list, remove, clear, jump to an index,
    jump to the next one, restore) if it held before. *)
Theorem cursor_stays_in_bounds (messages : list Jump.Request)
    (st : Webview.State) :
  Jump.cursorInBounds st = true →
  Jump.cursorInBounds (Jump.handleAll messages st) = true.
Proof.
  revert st. induction messages as [|m rest IH]; intros st H; [done|].
  simpl. apply IH. by apply handle_cursor.
Qed.

Lemma cursor_stays_in_bounds_witness :
  Jump.cursorInBounds
    (Jump.handleAll
       [Jump.RestoreHighlights [Sample.ipsum]; Jump.JumpToNextHighlight;
        Jump.Annotate (RemoveHighlightRequest 0)]
       Sample.state) = true.
Proof.
  apply (cursor_stays_in_bounds
           [Jump.RestoreHighlights [Sample.ipsum]; Jump.JumpToNextHighlight;
            Jump.Annotate (RemoveHighlightRequest 0%Z)] Sample.state).
  reflexivity.
Defined.

(** X8. When a jump reports [highlightJumped], the highlight it reports
    exists: the 1-based index lies within the total, the total is the length
    of the list, the cursor is on that entry, the colour reported is the
    entry's colour, and neither the list nor the document changed. *)
Theorem jump_reports_existing_highlight (message : Jump.Request)
    (st : Webview.State) (index total : Z) (color : string) :
  (Jump.handle message st).2 = [Jump.HighlightJumped index total color] →
  let st' := (Jump.handle message st).1 in
  total = len (Webview.highlights st') ∧ (1 ≤ index ≤ total)%Z ∧
  Webview.currentHighlightIndex st' = (index - 1)%Z ∧
  Webview.highlights st' = Webview.highlights st ∧
  Webview.pages st' = Webview.pages st ∧
  ∃ h, Webview.highlights st' !! Z.to_nat (index - 1) = Some h ∧
       Webview.h_color h = color.
Proof.
  destruct message as [m|i| |saved]; simpl; try done.
  - unfold Jump.jumpToHighlightIndex.
    destruct (outOfRange i (Webview.highlights st));
      [done|].
    cbv zeta.
    destruct (at_ _ _) as [h|] eqn:E; [|done].
    intros [= <- <- <-]. simpl in *.
    apply at_Some in E as [E0 E]. pose proof (lookup_lt_Some _ _ _ E).
    replace (i + 1 - 1)%Z with i by lia.
    unfold len in *. repeat split; try lia. by exists h.
  - unfold Jump.jumpToNextHighlight.
    destruct (len (Webview.highlights st) =? 0)%Z;
      [done|].
    cbv zeta.
    destruct (at_ _ _) as [h|] eqn:E; [|done].
    intros [= <- <- <-]. simpl in *.
    apply at_Some in E as [E0 E]. pose proof (lookup_lt_Some _ _ _ E).
    match goal with |- context [(?x + 1 - 1)%Z] =>
      replace (x + 1 - 1)%Z with x by lia end.
    unfold len in *. repeat split; try lia. by exists h.
Qed.

Lemma jump_reports_existing_highlight_witness :
  Webview.currentHighlightIndex
    (Jump.handle Jump.JumpToNextHighlight
       (Webview.restoreHighlights [Sample.ipsum] Sample.state)).1 = (1 - 1)%Z.
Proof.
  apply (jump_reports_existing_highlight Jump.JumpToNextHighlight
           (Webview.restoreHighlights [Sample.ipsum] Sample.state)
           1%Z 1%Z "#FFFF00"%string).
  reflexivity.
Defined.

Lemma next_step st :
  Jump.cursorInBounds st = true →
  (0 < len (Webview.highlights st))%Z →
  let st' := (Jump.jumpToNextHighlight st).1 in
  Webview.highlights st' = Webview.highlights st ∧
  Webview.currentHighlightIndex st'
  = ((Webview.currentHighlightIndex st + 1)
     mod len (Webview.highlights st))%Z.
Proof.
  intros H%cursorInBounds_spec Hn. unfold Jump.jumpToNextHighlight.
  destruct (Z.eqb_spec (len (Webview.highlights st)) 0); [lia|].
  cbv zeta. rewrite <- Z.rem_mod_nonneg by lia.
  by destruct (at_ _ _).
Qed.

(** X9. [jumpToNextHighlight] walks the list cyclically: after [k + 1]
    presses the cursor is at (cursor + 1 + k) modulo the length of the list,
    and the list is unchanged; from a cursor on an entry, as many presses as
    there are entries lead back to it. *)
Theorem next_highlight_cycles (st : Webview.State) (k : nat) :
  Jump.cursorInBounds st = true →
  (0 <? len (Webview.highlights st))%Z = true →
  let st' := Jump.pressNext (S k) st in
  Webview.highlights st' = Webview.highlights st ∧
  Webview.currentHighlightIndex st'
  = ((Webview.currentHighlightIndex st + 1 + Z.of_nat k)
     mod len (Webview.highlights st))%Z ∧
  ((0 ≤ Webview.currentHighlightIndex st)%Z →
   S k = length (Webview.highlights st) →
   Webview.currentHighlightIndex st' = Webview.currentHighlightIndex st).
Proof.
  intros Hb Hn%Z.ltb_lt.
  assert (Webview.highlights (Jump.pressNext (S k) st) = Webview.highlights st ∧
          Webview.currentHighlightIndex (Jump.pressNext (S k) st)
          = ((Webview.currentHighlightIndex st + 1 + Z.of_nat k)
             mod len (Webview.highlights st))%Z) as [Hh Hc].
  { induction k as [|k [IHh IHc]].
    - destruct (next_step st Hb Hn) as [Hh Hc]. split; [exact Hh|].
      unfold Jump.pressNext. simpl. rewrite Hc. f_equal. lia.
    - change (Jump.pressNext (S (S k)) st)
        with (Jump.jumpToNextHighlight (Jump.pressNext (S k) st)).1.
      destruct (next_step (Jump.pressNext (S k) st)) as [Hh Hc].
      + apply cursorInBounds_spec. rewrite IHh, IHc.
        pose proof (Z.mod_pos_bound
                      (Webview.currentHighlightIndex st + 1 + Z.of_nat k)
                      (len (Webview.highlights st)) Hn). lia.
      + by rewrite IHh.
      + split; [by rewrite Hh|].
        rewrite Hc, IHh, IHc, Zplus_mod_idemp_l. f_equal. lia. }
  intros st'. subst st'. split; [exact Hh|]. split; [exact Hc|].
  intros H0 Hk. rewrite Hc. apply cursorInBounds_spec in Hb.
  replace (Webview.currentHighlightIndex st + 1 + Z.of_nat k)%Z
    with (Webview.currentHighlightIndex st
          + 1 * len (Webview.highlights st))%Z by (unfold len; lia).
  rewrite Z_mod_plus_full. apply Z.mod_small. lia.
Qed.

Lemma next_highlight_cycles_witness :
  Webview.highlights
    (Jump.pressNext 2
       (Webview.restoreHighlights [Sample.ipsum; Sample.ipsum] Sample.state))
  = Webview.highlights
      (Webview.restoreHighlights [Sample.ipsum; Sample.ipsum] Sample.state).
Proof.
  apply (next_highlight_cycles
           (Webview.restoreHighlights [Sample.ipsum; Sample.ipsum] Sample.state)
           1); reflexivity.
Defined.

End jumps.

Ltac branches :=
  repeat match goal with
         | |- context [if ?c then _ else _] => destruct c eqn:?
         | |- context [match ?x with Some _ => _ | None => _ end] =>
             destruct x eqn:?
         end.

(** ** Pages and page history of the host *)

Section navigation.
Context (toLowerCase : jsstring → jsstring) (msgPage : Z → jsstring).

Lemma inDocument_spec this :
  inDocument this = true
  ↔ (1 ≤ Reader._currentPage this ≤ Reader._totalPages this)%Z.
Proof. unfold inDocument. rewrite andb_true_iff. lia. Qed.

(** What [gotoPage] leaves alone, and the two ways it can end. *)
Lemma gotoPage_cases page input this :
  let this' := Reader.gotoPage page input this in
  Reader._totalPages this' = Reader._totalPages this ∧
  Reader._pageHistory this' = Reader._pageHistory this ∧
  Reader._historyIndex this' = Reader._historyIndex this ∧
  Reader._isNavigating this' = Reader._isNavigating this ∧
  Reader._bookmarks this' = Reader._bookmarks this ∧
  Reader._searchHistory this' = Reader._searchHistory this ∧
  Reader.globalState this' = Reader.globalState this ∧
  Reader.resource this' = Reader.resource this ∧
  Reader.fileName this' = Reader.fileName this ∧
  Reader.shown this' = Reader.shown this ∧
  ((Reader._currentPage this' = Reader._currentPage this ∧
    Reader.posted this' = Reader.posted this)
   ∨ ∃ p, (1 ≤ p ≤ Reader._totalPages this)%Z ∧
          (page = Some p ∨ (page = None ∧ input = Some p)) ∧
          Reader._currentPage this' = p ∧
          Reader.posted this' = Reader.posted this ++ [Reader.GotoPage p]).
Proof.
  unfold Reader.gotoPage.
  destruct page as [p|]; [|destruct input as [p|]];
    try (repeat split; by left).
  all: destruct (Z.geb_spec p 1), (Z.leb_spec p (Reader._totalPages this));
    simpl; repeat split; try (by left);
    right; exists p; repeat split; try lia; auto.
Qed.

Lemma gotoPage_inDocument page input this :
  inDocument this = true →
  inDocument (Reader.gotoPage page input this) = true.
Proof.
  rewrite !inDocument_spec. intros H.
  destruct (gotoPage_cases page input this)
    as (Ht & _ & _ & _ & _ & _ & _ & _ & _ & _ &
        [[Hc _]|(p & Hp & _ & Hc & _)]);
    rewrite Ht, Hc; lia.
Qed.

Lemma addToHistory_pages page this :
  let this' := Reader.addToHistory page this in
  Reader._currentPage this' = Reader._currentPage this ∧
  Reader._totalPages this' = Reader._totalPages this ∧
  Reader.posted this' = Reader.posted this ∧
  Reader._isNavigating this' = Reader._isNavigating this ∧
  Reader._bookmarks this' = Reader._bookmarks this ∧
  Reader._searchHistory this' = Reader._searchHistory this ∧
  Reader.globalState this' = Reader.globalState this ∧
  Reader.resource this' = Reader.resource this ∧
  Reader.fileName this' = Reader.fileName this ∧
  Reader.shown this' = Reader.shown this.
Proof.
  unfold Reader.addToHistory. cbv zeta.
  repeat match goal with |- context [if ?c then _ else _] => destruct c end;
    simpl; repeat split.
Qed.

Lemma step_inDocument c this :
  fromViewer c = true → inDocument this = true →
  inDocument (Reader.step toLowerCase msgPage c this) = true.
Proof.
  intros Hc H. destruct c; simpl.
  - by apply gotoPage_inDocument.
  - by apply gotoPage_inDocument.
  - unfold Reader.nextPage. branches; [by apply gotoPage_inDocument|done].
  - unfold Reader.previousPage. branches; [by apply gotoPage_inDocument|done].
  - by apply gotoPage_inDocument.
  - unfold Reader.goBack. branches; try done; by apply gotoPage_inDocument.
  - unfold Reader.goForward. branches; try done; by apply gotoPage_inDocument.
  - unfold Reader.pageChanged. cbv zeta.
    apply inDocument_spec. simpl.
    destruct (Reader._isNavigating _); simpl.
    + simpl in Hc. lia.
    + destruct (addToHistory_pages page
                  (Reader.set_totalPages total
                     (Reader.set_currentPage page this))) as (-> & -> & _).
      simpl in *. lia.
  - exact H.
  - unfold Reader.showBookmarks. branches; try done.
    by apply gotoPage_inDocument.
  - unfold Reader.removeBookmark. branches; done.
  - unfold Reader.importBookmarks. destruct file; try done.
    destruct selected as [[|]|]; done.
  - exact H.
  - exact H.
  - unfold Reader.addSearchHistory. cbv zeta. branches; done.
Qed.

(** The messages a command posted to the viewer. *)
Lemma step_posted c this p :
  Reader.GotoPage p
    ∈ drop (length (Reader.posted this))
        (Reader.posted (Reader.step toLowerCase msgPage c this)) →
  (1 ≤ p ≤ Reader._totalPages this)%Z ∧
  Reader._currentPage (Reader.step toLowerCase msgPage c this) = p.
Proof.
  assert (∀ page input that,
            Reader.posted that = Reader.posted this →
            Reader._totalPages that = Reader._totalPages this →
            Reader.GotoPage p
              ∈ drop (length (Reader.posted this))
                  (Reader.posted (Reader.gotoPage page input that)) →
            (1 ≤ p ≤ Reader._totalPages this)%Z ∧
            Reader._currentPage (Reader.gotoPage page input that) = p) as Hg.
  { intros page input that Hp Ht.
    destruct (gotoPage_cases page input that)
      as (_ & _ & _ & _ & _ & _ & _ & _ & _ & _ &
          [[_ ->]|(q & Hq & _ & Hc & ->)]); rewrite Hp.
    - rewrite drop_all. by intros ?%elem_of_nil.
    - rewrite drop_app_length. intros [= ->]%list_elem_of_singleton.
      split; [lia|done]. }
  assert (∀ that,
            Reader.posted that = Reader.posted this →
            Reader.GotoPage p
              ∈ drop (length (Reader.posted this)) (Reader.posted that) →
            (1 ≤ p ≤ Reader._totalPages this)%Z ∧
            Reader._currentPage that = p) as Hn.
  { intros that ->. rewrite drop_all. by intros ?%elem_of_nil. }
  destruct c; simpl.
  - by apply Hg.
  - by apply Hg.
  - unfold Reader.nextPage. branches; [by apply Hg|by apply Hn].
  - unfold Reader.previousPage. branches; [by apply Hg|by apply Hn].
  - by apply Hg.
  - unfold Reader.goBack. branches; try (by apply Hg); by apply Hn.
  - unfold Reader.goForward. branches; try (by apply Hg); by apply Hn.
  - apply Hn. unfold Reader.pageChanged. cbv zeta.
    destruct (Reader._isNavigating _); simpl; [done|].
    by destruct (addToHistory_pages page
                   (Reader.set_totalPages total
                      (Reader.set_currentPage page this))) as (_ & _ & -> & _).
  - by apply Hn.
  - unfold Reader.showBookmarks. branches; try (by apply Hg); by apply Hn.
  - apply Hn. unfold Reader.removeBookmark. branches; done.
  - apply Hn. unfold Reader.importBookmarks. destruct file; try done.
    destruct selected as [[|]|]; done.
  - by apply Hn.
  - by apply Hn.
  - apply Hn. unfold Reader.addSearchHistory. cbv zeta. branches; done.
Qed.

(** X13. The page of the host stays inside the document: if the current
    page lies between 1 and the number of pages, it still does after any
    sequence of commands (first, last, next, previous, go to, back, forward,
    bookmarks, positions, search history) and of [pageChanged] messages of a
    viewer showing a page of its document.  Every [gotoPage] message a
    command posts carries a page between 1 and the number of pages, and the
    host's current page is then that page. *)
Theorem navigation_stays_in_document (commands : list Reader.Command)
    (this : Reader.PdfPreview) :
  forallb fromViewer commands = true →
  inDocument this = true →
  inDocument (Reader.run toLowerCase msgPage commands this) = true ∧
  ∀ c p,
    Reader.GotoPage p
      ∈ drop (length (Reader.posted this))
          (Reader.posted (Reader.step toLowerCase msgPage c this)) →
    (1 ≤ p ≤ Reader._totalPages this)%Z ∧
    Reader._currentPage (Reader.step toLowerCase msgPage c this) = p.
Proof.
  intros Hc H. split; [|intros c p; apply step_posted].
  revert this H. induction commands as [|c rest IH]; intros this H; [done|].
  simpl in Hc. apply andb_true_iff in Hc as [Hc Hrest].
  simpl. apply IH; [done|]. by apply step_inDocument.
Qed.

Lemma historyInBounds_spec this :
  historyInBounds this = true
  ↔ (len (Reader._pageHistory this) ≤ 50)%Z ∧
    (-1 ≤ Reader._historyIndex this < len (Reader._pageHistory this))%Z.
Proof. unfold historyInBounds. rewrite !andb_true_iff. lia. Qed.

Lemma sliceArray_0 {A} (l : list A) n :
  (0 ≤ n ≤ len l)%Z → sliceArray l 0 n = take (Z.to_nat n) l.
Proof.
  intros H. unfold sliceArray, relative. simpl.
  destruct (Z.ltb_spec n 0); [lia|].
  unfold len in *.
  replace (0 `min` Z.of_nat (length l))%Z with 0%Z by lia.
  rewrite drop_0. f_equal. lia.
Qed.

Lemma at_last {A} (l : list A) : at_ l (len l - 1) = last l.
Proof.
  unfold at_, len. destruct l as [|x l] using rev_ind; [done|].
  rewrite length_app, last_snoc. simpl.
  destruct (Z.ltb_spec (Z.of_nat (length l + 1) - 1) 0); [lia|].
  replace (Z.to_nat (Z.of_nat (length l + 1) - 1)) with (length l) by lia.
  by rewrite lookup_app_r, Nat.sub_diag.
Qed.

(** After [addToHistory] the cursor is on the last entry, which is the page
    added. *)
Lemma addToHistory_cursor page this :
  historyInBounds this = true →
  let this' := Reader.addToHistory page this in
  (len (Reader._pageHistory this') ≤ 50)%Z ∧
  Reader._historyIndex this' = (len (Reader._pageHistory this') - 1)%Z ∧
  last (Reader._pageHistory this') = Some page.
Proof.
  intros (Hl & Hi)%historyInBounds_spec.
  unfold Reader.addToHistory.
  set (this1 := if (_ <? _)%Z then _ else this).
  assert ((len (Reader._pageHistory this1) ≤ 50)%Z ∧
          Reader._historyIndex this1
          = (len (Reader._pageHistory this1) - 1)%Z) as [Hl1 Hi1].
  { subst this1.
    destruct (Z.ltb_spec (Reader._historyIndex this)
                (len (Reader._pageHistory this) - 1)); simpl; [|lia].
    rewrite sliceArray_0 by lia. unfold len in *.
    rewrite length_take. lia. }
  clearbody this1. cbv zeta.
  rewrite at_last.
  destruct (bool_decide_reflect
              (last (Reader._pageHistory this1) ≠ Some page)) as [Hne|Heq];
    simpl.
  - unfold len in *. rewrite !length_app. simpl.
    destruct (Z.gtb_spec
                (Z.of_nat (length (Reader._pageHistory this1) + 1)) 50);
      simpl.
    + rewrite length_drop, length_app. simpl. split; [lia|]. split; [lia|].
      destruct (Reader._pageHistory this1) as [|y l]; simpl in *; [lia|].
      by rewrite drop_0, last_snoc.
    + rewrite length_app. simpl. split; [lia|]. split; [lia|].
      by rewrite last_snoc.
  - apply dec_stable in Heq.
    destruct (Z.gtb_spec (len (Reader._pageHistory this1)) 50); [lia|].
    done.
Qed.

Lemma same_history that this :
  Reader._pageHistory that = Reader._pageHistory this →
  Reader._historyIndex that = Reader._historyIndex this →
  historyInBounds that = historyInBounds this.
Proof. unfold historyInBounds. by intros -> ->. Qed.

Lemma gotoPage_history page input this :
  historyInBounds (Reader.gotoPage page input this) = historyInBounds this.
Proof.
  destruct (gotoPage_cases page input this) as (_ & Hh & Hi & _).
  by apply same_history.
Qed.

Lemma step_history c this :
  historyInBounds this = true →
  historyInBounds (Reader.step toLowerCase msgPage c this) = true.
Proof.
  intros H. destruct c; simpl.
  - unfold Reader.firstPage. by rewrite gotoPage_history.
  - unfold Reader.lastPage. by rewrite gotoPage_history.
  - unfold Reader.nextPage. branches; [by rewrite gotoPage_history|done].
  - unfold Reader.previousPage. branches; [by rewrite gotoPage_history|done].
  - by rewrite gotoPage_history.
  - unfold Reader.goBack.
    destruct (Z.gtb_spec (Reader._historyIndex this) 0); [|done].
    cbv zeta. rewrite gotoPage_history.
    apply historyInBounds_spec in H. apply historyInBounds_spec. simpl. lia.
  - unfold Reader.goForward.
    destruct (Z.ltb_spec (Reader._historyIndex this)
                (len (Reader._pageHistory this) - 1)); [|done].
    cbv zeta. rewrite gotoPage_history.
    apply historyInBounds_spec in H. apply historyInBounds_spec. simpl. lia.
  - unfold Reader.pageChanged. cbv zeta.
    destruct (Reader._isNavigating _); simpl; [done|].
    destruct (addToHistory_cursor page
                (Reader.set_totalPages total
                   (Reader.set_currentPage page this)) H) as (Hl & Hi & _).
    apply historyInBounds_spec. unfold historyInBounds. simpl.
    unfold len in *. lia.
  - exact H.
  - unfold Reader.showBookmarks. branches; try done.
    by rewrite gotoPage_history.
  - unfold Reader.removeBookmark. branches; done.
  - unfold Reader.importBookmarks. destruct file; try done.
    destruct selected as [[|]|]; done.
  - exact H.
  - exact H.
  - unfold Reader.addSearchHistory. cbv zeta. branches; done.
Qed.

(** X14. The page history holds at most 50 entries and its cursor is -1 or
    the position of an entry, after any sequence of commands and messages.
    After a page change that is not the echo of a navigation, the cursor is
    on the last entry, that entry is the page visited, and [goForward] only
    reports that there is no forward history. *)
Theorem history_stays_in_bounds (commands : list Reader.Command)
    (this : Reader.PdfPreview) :
  historyInBounds this = true →
  historyInBounds (Reader.run toLowerCase msgPage commands this) = true ∧
  ∀ page total input,
    Reader._isNavigating this = false →
    let visited := Reader.pageChanged page total this in
    Reader._historyIndex visited = (len (Reader._pageHistory visited) - 1)%Z ∧
    last (Reader._pageHistory visited) = Some page ∧
    Reader.goForward input visited
    = Reader.show (Reader.Information "msg.noForwardHistory" []) visited.
Proof.
  intros H. split.
  - revert this H. induction commands as [|c rest IH]; intros this H; [done|].
    simpl. apply IH. by apply step_history.
  - intros page total input Hn visited. subst visited.
    unfold Reader.pageChanged. cbv zeta. simpl. rewrite Hn. simpl.
    destruct (addToHistory_cursor page
                (Reader.set_totalPages total
                   (Reader.set_currentPage page this)) H) as (Hl & Hi & Hp).
    split; [exact Hi|]. split; [exact Hp|].
    unfold Reader.goForward. simpl. rewrite Hi.
    by rewrite Z.ltb_irrefl.
Qed.

(** X15. [goBack] followed by [goForward] returns to where it started: the
    cursor of the history is back, the history is unchanged and nothing was
    reported; when the two entries are pages of the document, the host shows
    the earlier page after [goBack] and the later one after [goForward], and
    has posted [gotoPage] for both. *)
Theorem goBack_then_goForward (input input' : option Z)
    (this : Reader.PdfPreview) :
  historyInBounds this = true →
  (0 <? Reader._historyIndex this)%Z = true →
  let back := Reader.goBack input this in
  let forth := Reader.goForward input' back in
  Reader._historyIndex back = (Reader._historyIndex this - 1)%Z ∧
  Reader._historyIndex forth = Reader._historyIndex this ∧
  Reader._pageHistory forth = Reader._pageHistory this ∧
  Reader.shown forth = Reader.shown this ∧
  ∀ p q,
    at_ (Reader._pageHistory this) (Reader._historyIndex this - 1) = Some p →
    at_ (Reader._pageHistory this) (Reader._historyIndex this) = Some q →
    (1 ≤ p ≤ Reader._totalPages this)%Z →
    (1 ≤ q ≤ Reader._totalPages this)%Z →
    Reader._currentPage back = p ∧ Reader._currentPage forth = q ∧
    Reader.posted forth
    = Reader.posted this ++ [Reader.GotoPage p; Reader.GotoPage q].
Proof.
  intros (Hl & Hi)%historyInBounds_spec H0%Z.ltb_lt.
  set (b := Reader.set_isNavigating true
              (Reader.set_historyIndex (Reader._historyIndex this - 1) this)).
  assert (Reader.goBack input this
          = Reader.gotoPage
              (at_ (Reader._pageHistory this) (Reader._historyIndex this - 1))
              input b) as Eb.
  { unfold Reader.goBack.
    destruct (Z.gtb_spec (Reader._historyIndex this) 0); [reflexivity|lia]. }
  intros back forth. subst back forth. rewrite Eb.
  set (back := Reader.gotoPage _ input b).
  destruct (gotoPage_cases
              (at_ (Reader._pageHistory this) (Reader._historyIndex this - 1))
              input b)
    as (Ht & Hh & Hx & _ & _ & _ & _ & _ & _ & Hs & _).
  fold back in Ht, Hh, Hx, Hs. simpl in Ht, Hh, Hx, Hs.
  set (f := Reader.set_isNavigating true
              (Reader.set_historyIndex (Reader._historyIndex back + 1) back)).
  assert (Reader.goForward input' back
          = Reader.gotoPage
              (at_ (Reader._pageHistory this) (Reader._historyIndex this))
              input' f) as Ef.
  { unfold Reader.goForward.
    destruct (Z.ltb_spec (Reader._historyIndex back)
                (len (Reader._pageHistory back) - 1)) as [_|Hge].
    - cbv zeta. fold f. f_equal. subst f. simpl. rewrite Hh, Hx. f_equal. lia.
    - rewrite Hh, Hx in Hge. lia. }
  rewrite Ef.
  destruct (gotoPage_cases
              (at_ (Reader._pageHistory this) (Reader._historyIndex this))
              input' f)
    as (Ht' & Hh' & Hx' & _ & _ & _ & _ & _ & _ & Hs' & _).
  simpl in Ht', Hh', Hx', Hs'.
  split; [exact Hx|]. split; [rewrite Hx', Hx; lia|].
  split; [by rewrite Hh'|]. split; [by rewrite Hs'|].
  intros p q Hp Hq Hpr Hqr.
  assert (Reader._currentPage back = p ∧
          Reader.posted back = Reader.posted this ++ [Reader.GotoPage p])
    as [Hbp Hbo].
  { subst back. unfold Reader.gotoPage. rewrite Hp. subst b. simpl.
    destruct (Z.geb_spec p 1), (Z.leb_spec p (Reader._totalPages this));
      try lia. done. }
  split; [exact Hbp|].
  unfold Reader.gotoPage. rewrite Hq. subst f. simpl. rewrite Ht.
  destruct (Z.geb_spec q 1), (Z.leb_spec q (Reader._totalPages this));
    try lia.
  simpl. split; [done|]. rewrite Hbo. by rewrite <- app_assoc.
Qed.

End navigation.

Lemma navigation_stays_in_document_witness :
  inDocument
    (Reader.run (λ s, s) (λ _, []) [Reader.NextPage; Reader.LastPage]
       SampleReader.opened) = true.
Proof.
  apply (navigation_stays_in_document (λ s, s) (λ _, [])
           [Reader.NextPage; Reader.LastPage] SampleReader.opened);
    reflexivity.
Defined.

Lemma history_stays_in_bounds_witness :
  historyInBounds
    (Reader.run (λ s, s) (λ _, [])
       [Reader.GoBack None; Reader.PageChanged 1 2; Reader.PageChanged 2 2]
       SampleReader.browsed) = true.
Proof.
  apply (history_stays_in_bounds (λ s, s) (λ _, [])
           [Reader.GoBack None; Reader.PageChanged 1%Z 2%Z;
            Reader.PageChanged 2%Z 2%Z] SampleReader.browsed).
  reflexivity.
Defined.

Lemma goBack_then_goForward_witness :
  Reader._historyIndex
    (Reader.goForward None (Reader.goBack None SampleReader.browsed))
  = Reader._historyIndex SampleReader.browsed.
Proof.
  apply (goBack_then_goForward None None SampleReader.browsed); reflexivity.
Defined.


Ltac ifs :=
  repeat match goal with
         | |- context [if ?c then _ else _] => destruct c eqn:?
         end.

(** ** Bookmarks, recent positions and search history *)

Section shelves.
Context (toLowerCase : jsstring → jsstring) (msgPage : Z → jsstring).



Lemma filter_none {A} (P : A → Prop) `{∀ x, Decision (P x)} (l : list A) :
  (∀ x, x ∈ l → ¬ P x) → filter P l = [].
Proof.
  induction l as [|x l IH]; intros Hl; [done|].
  rewrite filter_cons, decide_False by (apply Hl; left).
  apply IH. intros y Hy. apply Hl. by right.
Qed.

Lemma mergeBookmarks_filter existing bookmarks :
  Reader.mergeBookmarks existing bookmarks
  = existing
    ++ filter (λ b, Reader.bm_page b ∉ Reader.bm_page <$> existing) bookmarks.
Proof.
  unfold Reader.mergeBookmarks.
  generalize (Reader.bm_page <$> existing). intros pages.
  generalize existing. clear existing.
  induction bookmarks as [|b rest IH]; intros acc; simpl.
  - by rewrite app_nil_r.
  - rewrite IH, filter_cons.
    destruct (bool_decide_reflect (Reader.bm_page b ∈ pages)) as [Hin|Hout].
    + by rewrite decide_False by (by intros ?).
    + rewrite decide_True by done. by rewrite <- app_assoc.
Qed.

(** X18. Importing bookmarks in merge mode keeps the existing bookmarks in
    place and appends, in the order of the file, exactly the imported ones
    whose page had no bookmark before the import (two imported bookmarks on
    the same new page are both appended).  A bookmark is then on every page
    of the file, the result is stored, and importing the same file again
    changes nothing. *)
Theorem import_merge_is_idempotent (bookmarks : list Reader.Bookmark)
    (this : Reader.PdfPreview) :
  let once :=
    Reader.importBookmarks (Reader.BookmarksArray bookmarks)
      (Some Reader.merge) this in
  let twice :=
    Reader.importBookmarks (Reader.BookmarksArray bookmarks)
      (Some Reader.merge) once in
  Reader._bookmarks once
  = Reader._bookmarks this
    ++ filter (λ b, Reader.bm_page b
                    ∉ Reader.bm_page <$> Reader._bookmarks this) bookmarks ∧
  Reader._bookmarks this `prefix_of` Reader._bookmarks once ∧
  Reader._bookmarks twice = Reader._bookmarks once ∧
  (∀ b, b ∈ bookmarks →
        Reader.bm_page b ∈ Reader.bm_page <$> Reader._bookmarks once) ∧
  (∀ b, b ∈ Reader._bookmarks once →
        b ∈ Reader._bookmarks this ∨
        (b ∈ bookmarks ∧
         Reader.bm_page b ∉ Reader.bm_page <$> Reader._bookmarks this)) ∧
  storedBookmarks once = Reader._bookmarks once ∧
  storedBookmarks twice = Reader._bookmarks once.
Proof.
  simpl. rewrite !mergeBookmarks_filter.
  set (old := Reader._bookmarks this).
  set (added := filter (λ b, Reader.bm_page b ∉ Reader.bm_page <$> old)
                  bookmarks).
  assert (∀ b, b ∈ bookmarks →
               Reader.bm_page b ∈ Reader.bm_page <$> (old ++ added))
    as Hall.
  { intros b Hb. rewrite fmap_app, elem_of_app.
    destruct (decide (Reader.bm_page b ∈ Reader.bm_page <$> old)) as [?|Hn];
      [by left|right].
    apply list_elem_of_fmap. exists b. split; [done|].
    subst added. by apply list_elem_of_filter. }
  assert ((old ++ added)
            ++ filter (λ b, Reader.bm_page b
                            ∉ Reader.bm_page <$> (old ++ added)) bookmarks
          = old ++ added) as Hsame.
  { rewrite filter_none; [apply app_nil_r|].
    intros b Hb Hn. by apply Hn, Hall. }
  split; [done|]. split; [by apply prefix_app_r|]. split; [done|].
  split; [exact Hall|]. split.
  { intros b [Hb|Hb]%elem_of_app; [by left|right].
    subst added. by apply list_elem_of_filter in Hb as [? ?]. }
  unfold storedBookmarks, Reader.getBookmarksKey. simpl.
  rewrite !lookup_insert_eq. by rewrite Hsame.
Qed.

Lemma storedPositions_update l this :
  Reader.storedPositions
    (Reader.update Reader.getRecentPositionsKey (Reader.StoredPositions l) this)
  = l.
Proof. unfold Reader.storedPositions. simpl. by rewrite lookup_insert_eq. Qed.

(** X19. [saveCurrentPosition] puts the entry of the current document
    (URI, current page, time, file name) first in the list of recent
    positions; the list never grows beyond the larger of 20 and its former
    length, the entries after the first are former entries in their order,
    a list with one entry per URI stays so, and with fewer than 20 former
    entries no other document loses its entry. *)
Theorem recent_positions_entry (now : Z) (this : Reader.PdfPreview) :
  let old := Reader.storedPositions this in
  let new := Reader.storedPositions (Reader.saveCurrentPosition now this) in
  head new
  = Some {| Reader.rp_uri := Reader.resource this;
            Reader.rp_page := Reader._currentPage this;
            Reader.rp_timestamp := now;
            Reader.rp_fileName := Reader.fileName this |} ∧
  length new ≤ Nat.max 20 (length old) ∧
  tail new `sublist_of` old ∧
  (NoDup (Reader.rp_uri <$> old) → NoDup (Reader.rp_uri <$> new)) ∧
  (∀ p, p ∈ old → Reader.rp_uri p ≠ Reader.resource this →
        length old < 20 → p ∈ new).
Proof.
  intros old new. subst new. unfold Reader.saveCurrentPosition.
  cbv zeta. rewrite storedPositions_update. fold old.
  set (entry := {| Reader.rp_uri := Reader.resource this;
                   Reader.rp_page := Reader._currentPage this;
                   Reader.rp_timestamp := now;
                   Reader.rp_fileName := Reader.fileName this |}).
  set (rest := match list_find _ old with
               | Some (existingIndex, _) => delete existingIndex old
               | None => old
               end).
  assert (rest `sublist_of` old ∧ length rest ≤ length old ∧
          (length old ≤ length rest ∨ 0 < length old) ∧
          (NoDup (Reader.rp_uri <$> old) →
           Reader.resource this ∉ Reader.rp_uri <$> rest) ∧
          (∀ p, p ∈ old → Reader.rp_uri p ≠ Reader.resource this → p ∈ rest))
    as (Hsub & Hlen & Hlen' & Hfresh & Hkeep).
  { subst rest.
    destruct (list_find _ old) as [[i x]|] eqn:E.
    - apply list_find_Some in E as (Hi & Hx & _). simpl in Hx.
      pose proof (lookup_lt_Some _ _ _ Hi) as Hlt.
      pose proof (take_drop_middle _ _ _ Hi) as Hold.
      split; [apply sublist_delete|].
      split; [rewrite length_delete by eauto; lia|].
      split; [right; lia|].
      rewrite delete_take_drop. split.
      + rewrite <- Hold at 1. rewrite !fmap_app, fmap_cons, Hx.
        intros (_ & Hl & (Hr & _)%NoDup_cons)%NoDup_app.
        intros [Hin|Hin]%elem_of_app; [|done].
        apply (Hl _ Hin). left.
      + intros p Hp Hne. rewrite <- Hold in Hp.
        apply elem_of_app in Hp as [Hp|Hp]; [apply elem_of_app; by left|].
        apply elem_of_cons in Hp as [->|Hp]; [done|].
        apply elem_of_app. by right.
    - apply list_find_None in E.
      split; [done|]. split; [done|]. split; [left; lia|]. split; [|done].
      intros _ (y & Hy & Hin)%list_elem_of_fmap.
      rewrite Forall_forall in E. by apply (E y Hin). }
  clearbody rest.
  set (l := entry :: rest).
  assert (length l = S (length rest)) as Hl by reflexivity.
  destruct (Z.gtb_spec (len l) 20) as [Hbig|Hsmall]; unfold len in *.
  - assert (take (length l - 1) l = entry :: take (length rest - 1) rest)
      as ->.
    { rewrite Hl. subst l. destruct rest; simpl in *; [lia|]. f_equal.
      by rewrite Nat.sub_0_r. }
    split; [done|]. split; [simpl; rewrite length_take; lia|].
    split; [simpl; etrans; [apply sublist_take|done]|].
    split.
    + intros Hnd. csimpl. apply NoDup_cons. split.
      * intros Hin. apply (Hfresh Hnd).
        eapply list_elem_of_fmap in Hin as (y & -> & Hin).
        apply list_elem_of_fmap. exists y. split; [done|].
        eapply elem_of_sublist; [exact Hin|apply sublist_take].
      * eapply sublist_NoDup; [exact Hnd|].
        apply fmap_sublist. etrans; [apply sublist_take|done].
    + intros p Hp Hne Hlt. lia.
  - split; [done|]. split; [simpl; lia|]. split; [done|]. split.
    + intros Hnd. subst l. csimpl. apply NoDup_cons. split; [by apply Hfresh|].
      eapply sublist_NoDup; [exact Hnd|]. by apply fmap_sublist.
    + intros p Hp Hne _. right. by apply Hkeep.
Qed.

(** X20. [addSearchHistory] ignores a blank query.  Otherwise the new query
    comes first, at most 50 entries are kept, the entries after it are
    former entries in their order, none of them equals the query up to
    case, with fewer than 50 former entries no other query is dropped, and
    the list is stored. *)
Theorem search_history_entry (query : jsstring) (resultsCount : option Z)
    (now : Z) (this : Reader.PdfPreview) :
  let this' :=
    Reader.addSearchHistory toLowerCase query resultsCount now this in
  if truthy (trim query) then
    head (Reader._searchHistory this')
    = Some {| Reader.sh_query := query; Reader.sh_timestamp := now;
              Reader.sh_resultsCount := resultsCount |} ∧
    length (Reader._searchHistory this') ≤ 50 ∧
    tail (Reader._searchHistory this')
      `sublist_of` Reader._searchHistory this ∧
    Forall (λ item, toLowerCase (Reader.sh_query item) ≠ toLowerCase query)
      (tail (Reader._searchHistory this')) ∧
    (∀ item, item ∈ Reader._searchHistory this →
             toLowerCase (Reader.sh_query item) ≠ toLowerCase query →
             length (Reader._searchHistory this) < 50 →
             item ∈ Reader._searchHistory this') ∧
    storedSearches this' = Reader._searchHistory this'
  else this' = this.
Proof.
  unfold Reader.addSearchHistory.
  destruct (truthy (trim query)); simpl; [|done].
  set (item := {| Reader.sh_query := query; Reader.sh_timestamp := now;
                  Reader.sh_resultsCount := resultsCount |}).
  set (kept := filter _ (Reader._searchHistory this)).
  assert (kept `sublist_of` Reader._searchHistory this) as Hsub
    by apply sublist_filter.
  assert (Forall (λ item, toLowerCase (Reader.sh_query item)
                          ≠ toLowerCase query) kept) as Hall.
  { apply Forall_forall. intros x Hx.
    subst kept. by apply list_elem_of_filter in Hx as [? _]. }
  assert (∀ x, x ∈ Reader._searchHistory this →
               toLowerCase (Reader.sh_query x) ≠ toLowerCase query →
               x ∈ kept) as Hkeep.
  { intros x Hx Hne. subst kept. by apply list_elem_of_filter. }
  pose proof (sublist_length _ _ Hsub) as Hlen.
  clearbody kept.
  destruct (Z.gtb_spec (len (item :: kept)) 50) as [Hbig|Hsmall];
    unfold len in *; simpl in *.
  - rewrite sliceArray_0 by (unfold len; simpl; lia).
    change (Z.to_nat 50) with 50. simpl.
    split; [done|]. split; [rewrite length_take; lia|].
    split; [etrans; [apply sublist_take|done]|].
    split; [by apply Forall_take|].
    split; [intros; lia|].
    unfold storedSearches. simpl. by rewrite lookup_insert_eq.
  - split; [done|]. split; [lia|]. split; [done|]. split; [done|].
    split; [intros x Hx Hne _; right; by apply Hkeep|].
    unfold storedSearches. simpl. by rewrite lookup_insert_eq.
Qed.

End shelves.

Lemma recent_positions_entry_witness :
  NoDup
    (Reader.rp_uri <$>
       Reader.storedPositions
         (Reader.saveCurrentPosition 1700000000800 SampleReader.opened)).
Proof.
  apply (recent_positions_entry 1700000000800%Z SampleReader.opened).
  apply NoDup_nil_2.
Defined.

(** ** Page ranges *)

Section page_ranges.

Lemma elem_of_setAdd x y l : y ∈ Reader.setAdd x l ↔ y = x ∨ y ∈ l.
Proof.
  unfold Reader.setAdd. destruct (bool_decide_reflect (x ∈ l)).
  - split; [by right|]. by intros [->|?].
  - rewrite elem_of_app, list_elem_of_singleton. tauto.
Qed.

Lemma NoDup_setAdd x l : NoDup l → NoDup (Reader.setAdd x l).
Proof.
  intros H. unfold Reader.setAdd.
  destruct (bool_decide_reflect (x ∈ l)); [done|].
  apply NoDup_app. split; [done|]. split; [|apply NoDup_singleton].
  intros y Hy ->%list_elem_of_singleton. done.
Qed.

Lemma loop_elem (cond : Z → bool) l acc p :
  p ∈ foldl (λ pages i, if cond i then Reader.setAdd i pages else pages) acc l
  ↔ p ∈ acc ∨ (p ∈ l ∧ cond p = true).
Proof.
  revert acc. induction l as [|i l IH]; intros acc; simpl.
  - split; [by left|]. intros [?|[?%elem_of_nil _]]; done.
  - rewrite IH. destruct (cond i) eqn:E.
    + rewrite elem_of_setAdd, elem_of_cons. split.
      * intros [[->|?]|[? ?]]; auto.
      * intros [?|[[->|?] ?]]; auto.
    + rewrite elem_of_cons. split.
      * intros [?|[? ?]]; auto.
      * intros [?|[[->|?] ?]]; auto. congruence.
Qed.

Lemma loop_NoDup (cond : Z → bool) l acc :
  NoDup acc →
  NoDup (foldl (λ pages i, if cond i then Reader.setAdd i pages else pages)
           acc l).
Proof.
  revert acc. induction l as [|i l IH]; intros acc H; simpl; [done|].
  apply IH. destruct (cond i); [by apply NoDup_setAdd|done].
Qed.

Lemma inRange_spec total i :
  (i >=? 1)%Z && (i <=? total)%Z = true ↔ (1 ≤ i ≤ total)%Z.
Proof. rewrite andb_true_iff. lia. Qed.

Lemma addPart_elem total acc part p :
  p ∈ Reader.addPart total acc part
  ↔ p ∈ acc ∨ ((1 ≤ p ≤ total)%Z ∧ selects part p).
Proof.
  unfold Reader.addPart, selects.
  destruct (existsb (N.eqb 45) part).
  - destruct ((Reader.parseInt <$> Reader.split 45 part) !! 0)
      as [[a|]|]; try tauto.
    destruct ((Reader.parseInt <$> Reader.split 45 part) !! 1)
      as [[b|]|]; try tauto.
    rewrite (loop_elem (λ i, (i >=? 1)%Z && (i <=? total)%Z)).
    rewrite elem_of_seqZ, inRange_spec. split.
    + intros [?|[? ?]]; [by left|right]. split; [done|lia].
    + intros [?|[? ?]]; [by left|right]. split; [lia|done].
  - destruct (Reader.parseInt part) as [page|] eqn:E.
    + destruct ((page >=? 1)%Z && (page <=? total)%Z) eqn:Er.
      * apply inRange_spec in Er. rewrite elem_of_setAdd. split.
        -- intros [->|?]; [right|by left]. done.
        -- intros [?|[_ [= ->]]]; auto.
      * split; [by left|]. intros [?|[Hr [= ->]]]; [done|].
        apply inRange_spec in Hr. congruence.
    + split; [by left|]. by intros [?|[_ ?]].
Qed.

Lemma addPart_NoDup total acc part :
  NoDup acc → NoDup (Reader.addPart total acc part).
Proof.
  intros H. unfold Reader.addPart.
  destruct (existsb (N.eqb 45) part).
  - destruct (_ !! 0) as [[a|]|]; try done.
    destruct (_ !! 1) as [[b|]|]; try done.
    by apply (loop_NoDup (λ i, (i >=? 1)%Z && (i <=? total)%Z)).
  - destruct (Reader.parseInt part); [|done].
    destruct (_ && _); [by apply NoDup_setAdd|done].
Qed.

Lemma parts_elem total parts acc p :
  p ∈ foldl (Reader.addPart total) acc parts
  ↔ p ∈ acc ∨ ((1 ≤ p ≤ total)%Z ∧ ∃ part, part ∈ parts ∧ selects part p).
Proof.
  revert acc. induction parts as [|part parts IH]; intros acc; simpl.
  - split; [by left|]. intros [?|[_ (? & ?%elem_of_nil & _)]]; done.
  - rewrite IH, addPart_elem. split.
    + intros [[?|[? ?]]|[? (q & ? & ?)]]; auto.
      * right. split; [done|]. exists part. split; [left|done].
      * right. split; [done|]. exists q. split; [by right|done].
    + intros [?|[? (q & [->|?]%elem_of_cons & ?)]]; auto.
      right. split; [done|]. by exists q.
Qed.

Lemma parts_NoDup total parts acc :
  NoDup acc → NoDup (foldl (Reader.addPart total) acc parts).
Proof.
  revert acc. induction parts as [|part parts IH]; intros acc H; simpl; [done|].
  by apply IH, addPart_NoDup.
Qed.

Lemma elem_of_insertSorted x y l :
  y ∈ Reader.insertSorted x l ↔ y = x ∨ y ∈ l.
Proof.
  induction l as [|z l IH]; simpl.
  - by rewrite list_elem_of_singleton, elem_of_nil; tauto.
  - destruct (x <=? z)%Z; [by rewrite elem_of_cons|].
    rewrite !elem_of_cons, IH. tauto.
Qed.

Lemma elem_of_sortAscending y l : y ∈ Reader.sortAscending l ↔ y ∈ l.
Proof.
  induction l as [|x l IH]; simpl; [done|].
  by rewrite elem_of_insertSorted, IH, elem_of_cons.
Qed.

Lemma ascending_cons a l :
  ascending (a :: l) = true ↔ (∀ z, z ∈ l → (a < z)%Z) ∧ ascending l = true.
Proof.
  revert a. induction l as [|b l IH]; intros a.
  - simpl. split; [|done]. intros _. split; [|done]. by intros ? ?%elem_of_nil.
  - change (ascending (a :: b :: l))
      with ((a <? b)%Z && ascending (b :: l)).
    rewrite andb_true_iff, Z.ltb_lt. split.
    + intros [Hab Hb]. split; [|done].
      apply IH in Hb as [Hb _].
      intros z [->|Hz]%elem_of_cons; [done|]. specialize (Hb z Hz). lia.
    + intros [Ha Hb]. split; [|done]. apply Ha. left.
Qed.

Lemma insertSorted_ascending x l :
  ascending l = true → x ∉ l → ascending (Reader.insertSorted x l) = true.
Proof.
  induction l as [|y l IH]; intros Hl Hx; [done|]. simpl.
  apply ascending_cons in Hl as [Hy Hl].
  destruct (Z.leb_spec x y).
  - apply ascending_cons. split; [|by apply ascending_cons].
    assert (x ≠ y) by (intros ->; apply Hx; left).
    intros z [->|Hz]%elem_of_cons; [lia|]. specialize (Hy z Hz). lia.
  - apply ascending_cons. split.
    + intros z [->|Hz]%elem_of_insertSorted; [lia|by apply Hy].
    + apply IH; [done|]. intros ?. apply Hx. by right.
Qed.

Lemma sortAscending_ascending l :
  NoDup l → ascending (Reader.sortAscending l) = true.
Proof.
  induction 1 as [|x l Hx Hl IH]; [done|]. simpl.
  apply insertSorted_ascending; [done|]. by rewrite elem_of_sortAscending.
Qed.

(** X21. [parsePageRange] returns the selected pages in strictly ascending
    order, and a page is returned exactly when it lies between 1 and the
    number of pages and one of the comma-separated parts selects it (as the
    single number it starts with, or as a number between the two bounds of
    ["a-b"], in either order).  Stated for inputs of at most 15 code units,
    whose numbers are exact in JavaScript. *)
Theorem page_range_sorted_in_document (input : jsstring)
    (this : Reader.PdfPreview) :
  (jslength input ≤ 15)%Z →
  let pages := Reader.parsePageRange input this in
  ascending pages = true ∧
  ∀ p, p ∈ pages
       ↔ (1 ≤ p ≤ Reader._totalPages this)%Z ∧
         ∃ part, part ∈ trim <$> Reader.split 44 input ∧ selects part p.
Proof.
  intros _ pages. subst pages. unfold Reader.parsePageRange. cbv zeta. split.
  - apply sortAscending_ascending, parts_NoDup, NoDup_nil_2.
  - intros p. rewrite elem_of_sortAscending, parts_elem, elem_of_nil. tauto.
Qed.

End page_ranges.

Lemma page_range_sorted_in_document_witness :
  ascending (Reader.parsePageRange (js "3, 1-2, 9, 2") SampleReader.opened)
  = true.
Proof.
  apply (page_range_sorted_in_document (js "3, 1-2, 9, 2") SampleReader.opened).
  change (12 ≤ 15)%Z. lia.
Defined.

(** ** The page of the host and the page of the viewer *)

Section agreement.
Context (toLowerCase : jsstring → jsstring) (msgPage : Z → jsstring).

Lemma samePage_spec this st :
  samePage this st = true
  ↔ Reader._currentPage this = Webview.currentPageNumber st ∧
    Reader._totalPages this = Webview.pagesCount st.
Proof. unfold samePage. rewrite andb_true_iff. lia. Qed.

Lemma deliver_same this that st :
  samePage this st = true →
  Reader._currentPage that = Reader._currentPage this →
  Reader._totalPages that = Reader._totalPages this →
  Reader.posted that = Reader.posted this →
  samePage that (deliver this that st) = true ∧ deliver this that st = st.
Proof.
  intros H Hc Ht Hp. unfold deliver. rewrite Hp, drop_all. simpl.
  split; [|done]. apply samePage_spec in H. apply samePage_spec.
  by rewrite Hc, Ht.
Qed.

Lemma deliver_gotoPage page input this that st :
  samePage this st = true →
  Reader._currentPage that = Reader._currentPage this →
  Reader._totalPages that = Reader._totalPages this →
  Reader.posted that = Reader.posted this →
  let this' := Reader.gotoPage page input that in
  samePage this' (deliver this this' st) = true ∧
  Webview.set_page (Webview.currentPageNumber (deliver this this' st)) st
  = deliver this this' st.
Proof.
  intros H Hc Ht Hp this'. subst this'.
  destruct (gotoPage_cases page input that)
    as (Ht' & _ & _ & _ & _ & _ & _ & _ & _ & _ &
        [[Hc' Hp']|(p & Hr & _ & Hc' & Hp')]).
  - destruct (deliver_same this (Reader.gotoPage page input that) st H)
      as [H0 Hd]; try congruence.
    rewrite Hd in *. split; [done|]. by destruct st.
  - apply samePage_spec in H as [H1 H2].
    unfold deliver. rewrite Hp', Hp, drop_app_length. simpl.
    rewrite Ht, H2 in Hr.
    unfold Webview.assignCurrentPage.
    destruct (Z.eqb_spec p 0); [lia|].
    destruct (Z.geb_spec p 1); [|lia].
    destruct (Z.leb_spec p (Webview.pagesCount st)); [|lia].
    destruct (Z.ltb_spec 0 p); [|lia]. simpl.
    split; [|done]. apply samePage_spec. simpl. by rewrite Hc', Ht', Ht.
Qed.

(** X16. Host and viewer agree on the page: if they agree on the current
    page and the number of pages, they still do after any command of the
    host once the viewer has handled the messages the command posted, and
    the viewer changed nothing but its current page; and after the viewer's
    [pageChanged] message the host agrees with it whatever it held before. *)
Theorem host_and_viewer_agree (c : Reader.Command)
    (this : Reader.PdfPreview) (st : Webview.State) :
  samePage this st = true →
  hostCommand c = true →
  let this' := Reader.step toLowerCase msgPage c this in
  let st' := deliver this this' st in
  samePage this' st' = true ∧
  Webview.set_page (Webview.currentPageNumber st') st = st' ∧
  ∀ that,
    samePage (Reader.step toLowerCase msgPage (notifyPageChange st') that) st'
    = true.
Proof.
  intros H Hc this' st'. subst st' this'.
  assert (samePage (Reader.step toLowerCase msgPage c this)
            (deliver this (Reader.step toLowerCase msgPage c this) st) = true ∧
          Webview.set_page
            (Webview.currentPageNumber
               (deliver this (Reader.step toLowerCase msgPage c this) st)) st
          = deliver this (Reader.step toLowerCase msgPage c this) st)
    as [H1 H2]; [|split; [exact H1|split; [exact H2|]]].
  - assert (∀ that,
              Reader._currentPage that = Reader._currentPage this →
              Reader._totalPages that = Reader._totalPages this →
              Reader.posted that = Reader.posted this →
              samePage that (deliver this that st) = true ∧
              Webview.set_page
                (Webview.currentPageNumber (deliver this that st)) st
              = deliver this that st) as Hs.
    { intros that E1 E2 E3.
      destruct (deliver_same this that st H E1 E2 E3) as [H0 Hd].
      rewrite Hd in *. split; [done|]. by destruct st. }
    destruct c; simpl; try done.
    + by apply deliver_gotoPage.
    + by apply deliver_gotoPage.
    + unfold Reader.nextPage. ifs; [by apply deliver_gotoPage|by apply Hs].
    + unfold Reader.previousPage. ifs; [by apply deliver_gotoPage|by apply Hs].
    + by apply deliver_gotoPage.
    + unfold Reader.goBack. ifs; [by apply deliver_gotoPage|by apply Hs].
    + unfold Reader.goForward. ifs; [by apply deliver_gotoPage|by apply Hs].
    + by apply Hs.
    + unfold Reader.showBookmarks. ifs; [by apply Hs|].
      destruct selected as [index|]; [|by apply Hs].
      destruct (at_ _ index); [by apply deliver_gotoPage|by apply Hs].
    + apply Hs; unfold Reader.removeBookmark; ifs; try done;
        by destruct selected.
    + apply Hs; unfold Reader.importBookmarks; destruct file; try done;
        by destruct selected as [[|]|].
    + by apply Hs.
    + by apply Hs.
    + apply Hs; unfold Reader.addSearchHistory; cbv zeta; ifs; done.
  - intros that. apply samePage_spec. simpl. unfold Reader.pageChanged.
    cbv zeta. simpl. destruct (Reader._isNavigating that); simpl; [done|].
    by destruct (addToHistory_pages
                   (Webview.currentPageNumber (deliver this
                      (Reader.step toLowerCase msgPage c this) st))
                   (Reader.set_totalPages
                      (Webview.pagesCount (deliver this
                         (Reader.step toLowerCase msgPage c this) st))
                      (Reader.set_currentPage
                         (Webview.currentPageNumber (deliver this
                            (Reader.step toLowerCase msgPage c this) st))
                         that))) as (-> & -> & _).
Qed.

End agreement.

Lemma host_and_viewer_agree_witness :
  samePage (Reader.step (λ s, s) (λ _, []) Reader.NextPage SampleReader.opened)
    (deliver SampleReader.opened
       (Reader.step (λ s, s) (λ _, []) Reader.NextPage SampleReader.opened)
       Sample.state) = true.
Proof.
  apply (host_and_viewer_agree (λ s, s) (λ _, []) Reader.NextPage
           SampleReader.opened Sample.state); reflexivity.
Defined.

(** ** Comments *)

Section comments.

Lemma commentsAligned_length st host :
  commentsAligned st host →
  length (Webview.comments st) = length (Host._savedComments host).
Proof.
  intros H. rewrite <- (length_fmap viewComment), H. apply length_fmap.
Qed.

Lemma addComment_aligned commentText color selection now now' st host :
  commentsAligned st host →
  storedComments host = Host._savedComments host →
  let r := commentStep (AddComment commentText color selection now now')
             st host in
  commentsAligned r.1 r.2 ∧ storedComments r.2 = Host._savedComments r.2.
Proof.
  intros Ha Hs. simpl. unfold Webview.addCommentToSelection.
  destruct selection as [selection|];
    [destruct (negb (truthy (trim (Webview.sel_toString selection))))|];
    try (erewrite newMessages_app by reflexivity; by split).
  destruct (Webview.surroundContents _ _ _) as [doc [|]].
  - erewrite newMessages_app by reflexivity. split.
    + unfold commentsAligned in *. simpl. rewrite !fmap_app. by f_equal.
    + unfold storedComments, Host.commentsKey, Host.stickyNotesKey,
        Host.drawingsKey. simpl.
      rewrite !lookup_insert_ne by other_key. by rewrite lookup_insert_eq.
  - erewrite newMessages_app by reflexivity. by split.
Qed.

Lemma spliceAt_in_range {A} index (l : list A) :
  (0 ≤ index < len l)%Z →
  Comments.spliceAt index l = delete (Z.to_nat index) l.
Proof.
  intros H. unfold Comments.spliceAt, relative.
  destruct (Z.ltb_spec index 0); [lia|]. do 2 f_equal. lia.
Qed.

Lemma at_in_range {A} index (l : list A) :
  (0 ≤ index < len l)%Z → is_Some (at_ l index).
Proof.
  intros H. unfold at_. destruct (Z.ltb_spec index 0); [lia|].
  apply lookup_lt_is_Some. unfold len in *. lia.
Qed.

Lemma popup_aligned index choice st host :
  commentsAligned st host →
  storedComments host = Host._savedComments host →
  let r := Comments.popup index choice st host in
  commentsAligned r.1 r.2 ∧ storedComments r.2 = Host._savedComments r.2.
Proof.
  intros Ha Hs. unfold Comments.popup, Comments.showCommentPopup.
  destruct (decide (0 ≤ index < len (Webview.comments st))%Z) as [Hin|Hout];
    [|by rewrite outOfRange_true by done].
  rewrite outOfRange_false by done.
  destruct (Webview.comments st !! Z.to_nat index) as [c|] eqn:Ec; [|done].
  assert (0 ≤ index < len (Host._savedComments host))%Z as Hin'.
  { unfold len in *. by rewrite <- (commentsAligned_length st host). }
  cbv zeta.
  destruct choice as [[| [newComment|] | |]|]; simpl; try done.
  - unfold Comments.jumpToComment. rewrite outOfRange_false by done.
    rewrite Ec. simpl.
    split; [|done]. unfold commentsAligned in *.
    unfold Webview.assignCurrentPage.
    by repeat match goal with
              | |- context [if ?c then _ else _] => destruct c
              end.
  - destruct (at_in_range index (Host._savedComments host) Hin') as [d ->].
    unfold Comments.editComment. rewrite outOfRange_false by done. simpl.
    split.
    + unfold commentsAligned in *. simpl.
      rewrite (list_fmap_alter viewComment _
                 (λ t, (t.1.1.1.1.1.1, newComment, t.1.1.1.1.2, t.1.1.1.2,
                        t.1.1.2, t.1.2, t.2)))
        by (by apply Forall_forall).
      rewrite (list_fmap_alter storedComment _
                 (λ t, (t.1.1.1.1.1.1, newComment, t.1.1.1.1.2, t.1.1.1.2,
                        t.1.1.2, t.1.2, t.2)))
        by (by apply Forall_forall).
      by rewrite Ha.
    + unfold storedComments, Host.commentsKey. simpl.
      by rewrite lookup_insert_eq.
  - unfold Comments.deleteComment. rewrite outOfRange_false by done.
    rewrite Ec. simpl. split.
    + unfold commentsAligned in *. simpl. unfold splice1.
      rewrite spliceAt_in_range by done.
      rewrite !list_fmap_delete. by rewrite Ha.
    + unfold storedComments, Host.commentsKey. simpl.
      by rewrite lookup_insert_eq.
Qed.

Lemma commentStep_aligned s st host :
  commentsAligned st host →
  storedComments host = Host._savedComments host →
  let r := commentStep s st host in
  commentsAligned r.1 r.2 ∧ storedComments r.2 = Host._savedComments r.2.
Proof.
  destruct s; [apply addComment_aligned|apply popup_aligned].
Qed.

(** X11. The comment list of the view and the list of the host stay
    aligned through any sequence of added comments and popup choices (jump,
    edit, delete, copy, or none) on any index, and the list in the store
    stays equal to the host's list: the host edits and deletes the stored
    comment at the index of the popup, the view the entry at the same
    index. *)
Theorem comments_stay_aligned (steps : list CommentStep)
    (st : Webview.State) (host : Host.PdfPreview) :
  commentsAligned st host →
  storedComments host = Host._savedComments host →
  let after := commentSession steps st host in
  commentsAligned after.1 after.2 ∧
  storedComments after.2 = Host._savedComments after.2.
Proof.
  revert st host. induction steps as [|s rest IH]; intros st host Ha Hs.
  - by split.
  - simpl. destruct (commentStep_aligned s st host Ha Hs) as [Ha' Hs'].
    by apply IH.
Qed.

Lemma forallb_absent_cons icon k rest :
  forallb (Comments.iconAbsentNode icon) (k :: rest) = true
  ↔ Comments.iconAbsentNode icon k = true ∧
    forallb (Comments.iconAbsentNode icon) rest = true.
Proof. simpl. apply andb_true_iff. Qed.

Lemma iconAbsentNode_Element icon t ks :
  Comments.iconAbsentNode icon (Element t ks) = true
  ↔ Comments.isIcon icon t = false ∧
    forallb (Comments.iconAbsentNode icon) ks = true.
Proof.
  simpl.
  change ((fix forallb (l : list node) : bool :=
             match l with
             | [] => true
             | a :: l0 => Comments.iconAbsentNode icon a && forallb l0
             end) ks)
    with (forallb (Comments.iconAbsentNode icon) ks).
  rewrite andb_true_iff, negb_true_iff. done.
Qed.

Lemma removeIconNode_Element icon t ks :
  Comments.removeIconNode icon (Element t ks)
  = if Comments.isIcon icon t then []
    else [Element t (flat_map (Comments.removeIconNode icon) ks)].
Proof. reflexivity. Qed.

Lemma removeIcon_absent icon ns :
  forallb (Comments.iconAbsentNode icon) ns = true →
  flat_map (Comments.removeIconNode icon) ns = ns.
Proof.
  induction ns as [|s rest IH|t ks rest IHks IH] using forest_ind; [done| |].
  - intros [_ H]%forallb_absent_cons. simpl. f_equal. by apply IH.
  - intros [[Ht Hks]%iconAbsentNode_Element H]%forallb_absent_cons.
    change (flat_map (Comments.removeIconNode icon) (Element t ks :: rest))
      with (Comments.removeIconNode icon (Element t ks)
            ++ flat_map (Comments.removeIconNode icon) rest).
    rewrite removeIconNode_Element, Ht, IHks, IH by done. done.
Qed.

Lemma removeIcon_surround icon data i j sp rest :
  forallb (Comments.iconAbsentNode icon) rest = true →
  flat_map (Comments.removeIconNode icon)
    (surroundTextRange data i j sp [Webview.commentIcon icon] ++ rest)
  = surroundTextRange data i j sp [] ++ rest.
Proof.
  intros H. rewrite flat_map_app, (removeIcon_absent icon rest H).
  f_equal. unfold surroundTextRange.
  destruct (decide (i < j)); simpl; by rewrite Nat.eqb_refl.
Qed.

Lemma surroundMatch_cases text sp extra s :
  surroundMatch text sp extra s
  = if (indexOf text s =? -1)%Z then None
    else Some (surroundTextRange s (Z.to_nat (indexOf text s))
                 (Z.to_nat (indexOf text s) + length text) sp extra).
Proof. reflexivity. Qed.

Lemma walk_removeIcon icon text sp ns ns' :
  forallb (Comments.iconAbsentNode icon) ns = true →
  walk (surroundMatch text sp [Webview.commentIcon icon]) ns = Some ns' →
  walk (surroundMatch text sp []) ns
  = Some (flat_map (Comments.removeIconNode icon) ns').
Proof.
  revert ns'. induction ns as [|s rest IH|t ks rest IHks IH] using forest_ind;
    intros ns'; [done| |].
  - intros [_ H]%forallb_absent_cons. rewrite !walk_Text.
    rewrite !surroundMatch_cases. destruct (indexOf text s =? -1)%Z.
    + destruct (walk _ rest) as [rest'|] eqn:E; [|done]. intros [= <-].
      by rewrite (IH rest' H eq_refl).
    + intros Heq. apply (inj Some) in Heq. rewrite <- Heq.
      by rewrite removeIcon_surround.
  - intros [[Ht Hks]%iconAbsentNode_Element H]%forallb_absent_cons.
    rewrite !walk_Element.
    destruct (walk _ ks) as [ks'|] eqn:Ek.
    + intros [= <-]. rewrite (IHks ks' Hks eq_refl).
      change (flat_map (Comments.removeIconNode icon) (Element t ks' :: rest))
        with (Comments.removeIconNode icon (Element t ks')
              ++ flat_map (Comments.removeIconNode icon) rest).
      by rewrite removeIconNode_Element, Ht, (removeIcon_absent icon rest H).
    + destruct (walk _ rest) as [rest'|] eqn:Er; [|done]. intros [= <-].
      assert (walk (surroundMatch text sp []) ks = None) as ->.
      { apply walk_None. intros x Hx.
        apply walk_None with (s := x) in Ek; [|done].
        rewrite surroundMatch_cases in *.
        by destruct (indexOf text x =? -1)%Z. }
      rewrite (IH rest' H eq_refl). cbn [fmap option_fmap option_map].
      change (flat_map (Comments.removeIconNode icon) (Element t ks :: rest'))
        with (Comments.removeIconNode icon (Element t ks)
              ++ flat_map (Comments.removeIconNode icon) rest').
      by rewrite removeIconNode_Element, Ht, (removeIcon_absent icon ks Hks).
Qed.

Lemma removeIcon_doc_absent icon doc :
  Comments.iconAbsent icon doc = true → Comments.removeIcon icon doc = doc.
Proof.
  induction doc as [|pv rest IH]; [done|].
  intros [Hpv H]%andb_true_iff. unfold Comments.removeIcon in *. csimpl.
  rewrite IH by done. f_equal. destruct pv as [n [layer|] e]; [|done].
  simpl in *. by rewrite removeIcon_absent.
Qed.

Lemma removeIcon_setTextLayer icon p layer' doc :
  Comments.iconAbsent icon doc = true →
  Comments.removeIcon icon (setTextLayer p layer' doc)
  = setTextLayer p (flat_map (Comments.removeIconNode icon) layer') doc.
Proof.
  induction doc as [|pv rest IH]; [done|].
  intros [Hpv H]%andb_true_iff. simpl.
  destruct (pageNumber pv =? p)%Z; [destruct (textLayer pv) as [l|] eqn:El|].
  - unfold Comments.removeIcon. csimpl. f_equal.
    by apply (removeIcon_doc_absent icon rest).
  - unfold Comments.removeIcon in *. csimpl. rewrite IH by done.
    f_equal. destruct pv as [n [layer|] e]; simpl in *; [done|done].
  - unfold Comments.removeIcon in *. csimpl. rewrite IH by done.
    f_equal. destruct pv as [n [layer|] e]; [|done].
    simpl in *. by rewrite removeIcon_absent.
Qed.

Lemma querySelector_absent icon p doc layer :
  Comments.iconAbsent icon doc = true →
  querySelector_textLayer p doc = Some layer →
  forallb (Comments.iconAbsentNode icon) layer = true.
Proof.
  induction doc as [|pv rest IH]; [done|].
  intros [Hpv H]%andb_true_iff. simpl.
  destruct (pageNumber pv =? p)%Z; [destruct (textLayer pv) as [l|] eqn:El|];
    try by apply IH.
  intros [= <-]. done.
Qed.

Lemma findAndWrap_removeIcon icon text page sp doc doc' :
  Comments.iconAbsent icon doc = true →
  Webview.findAndWrap text page sp [Webview.commentIcon icon] doc = Some doc' →
  Webview.findAndWrap text page sp [] doc
  = Some (Comments.removeIcon icon doc').
Proof.
  intros Hab. unfold Webview.findAndWrap.
  destruct (querySelector_textLayer page doc) as [layer|] eqn:Eq; [|done].
  destruct (walk _ layer) as [layer'|] eqn:Ew; [|done]. intros [= <-].
  erewrite walk_removeIcon; [|by eapply querySelector_absent|exact Ew].
  by rewrite removeIcon_setTextLayer.
Qed.

(** X12. Restoring a stored comment and then deleting the entry it added
    gives back the comment list, the number of marker spans and the text of
    the document: [deleteComment] removes the icon with its text and unwraps
    the span.  The identity of the new icon is not yet in the document. *)
Theorem restore_then_delete_comment (c : CommentData) (st : Webview.State) :
  Comments.iconAbsent (S (Webview.nextElement st)) (Webview.pages st) = true →
  let restored := Webview.restoreSingleComment c st in
  let deleted :=
    (Comments.deleteComment (len (Webview.comments st)) restored).1 in
  Webview.comments deleted = Webview.comments st ∧
  documentMarkers (Webview.pages deleted) = documentMarkers (Webview.pages st) ∧
  documentText (Webview.pages deleted) = documentText (Webview.pages st).
Proof.
  intros Hab restored deleted. subst deleted restored.
  unfold Webview.restoreSingleComment.
  destruct (Webview.findAndWrap _ _ _ _ _) as [doc|] eqn:E.
  - pose proof (findAndWrap_removeIcon _ _ _ _ _ _ Hab E) as Eplain.
    pose proof (findAndWrap_markers _ _ _ _ _ _ Eplain) as Hm.
    pose proof (findAndWrap_text _ _ _ _ _ Eplain) as Ht.
    pose proof (findAndWrap_unwrapSpan _ _ _ _ _ _ E) as [d0 Hu0].
    pose proof (findAndWrap_unwrapSpan _ _ _ _ _ _ Eplain) as [d1 Hu1].
    simpl in Hu0, Hu1. change (markerCount []) with 0 in Hm.
    set (entry := {| Webview.c_element := Webview.nextElement st;
                     Webview.c_icon := S (Webview.nextElement st);
                     Webview.c_text := cd_text c;
                     Webview.c_comment := cd_comment c;
                     Webview.c_color := cd_color c;
                     Webview.c_page := cd_page c;
                     Webview.c_textBefore := cd_textBefore c;
                     Webview.c_textAfter := cd_textAfter c;
                     Webview.c_timestamp := cd_timestamp c;
                     Webview.c_author := cd_author c |}).
    unfold Comments.deleteComment. simpl.
    rewrite outOfRange_false
      by (unfold len; rewrite length_app; simpl; lia).
    unfold len. rewrite Nat2Z.id.
    rewrite lookup_app_r by lia. rewrite Nat.sub_diag. simpl.
    unfold Comments.detachComment. simpl. rewrite Hu0, Hu1.
    apply unwrapSpan_Some in Hu1 as [Hm1 Ht1].
    split; [|split; [lia|congruence]].
    unfold splice1. rewrite Nat2Z.id, delete_take_drop, take_app_length.
    rewrite drop_app_ge by lia.
    replace (S (length (Webview.comments st)) - length (Webview.comments st))
      with 1 by lia.
    simpl. apply app_nil_r.
  - unfold Comments.deleteComment. by rewrite outOfRange_true by lia.
Qed.

End comments.

Lemma comments_stay_aligned_witness :
  let after :=
    commentSession
      [AddComment (js "check this") None (Some SampleSelection.long)
         1700000000200 1700000000201;
       Popup 0 (Some (Comments.edit (Some (js "checked"))));
       Popup 0 (Some Comments.delete_)]
      Sample.state (Host.new SampleStore.uri ∅) in
  commentsAligned after.1 after.2 ∧
  storedComments after.2 = Host._savedComments after.2.
Proof.
  apply (comments_stay_aligned
           [AddComment (js "check this") None (Some SampleSelection.long)
              1700000000200%Z 1700000000201%Z;
            Popup 0%Z (Some (Comments.edit (Some (js "checked"))));
            Popup 0%Z (Some Comments.delete_)]
           Sample.state (Host.new SampleStore.uri ∅)); reflexivity.
Defined.

Lemma restore_then_delete_comment_witness :
  documentText
    (Webview.pages
       (Comments.deleteComment 0
          (Webview.restoreSingleComment SampleStore.remark Sample.state)).1)
  = documentText (Webview.pages Sample.state).
Proof.
  apply (restore_then_delete_comment SampleStore.remark Sample.state).
  reflexivity.
Defined.

(** ** The highlight picker *)

Section picker.

Lemma summary_item st k h :
  Webview.highlights st !! k = Some h →
  imap (λ i h, {| hs_index := Z.of_nat i + 1; hs_color := Webview.h_color h;
                  hs_text := truncated 50 (Webview.h_text h) |})
    (Webview.highlights st) !! k
  = Some {| hs_index := Z.of_nat k + 1; hs_color := Webview.h_color h;
            hs_text := truncated 50 (Webview.h_text h) |}.
Proof. intros H. by rewrite list_lookup_imap, H. Qed.

(** X10. The line picked in the highlight picker is the highlight acted on:
    for the line at position [k] of the summary the view sent (numbered
    from 1), "delete" removes entry [k] of the view's list (counted from 0)
    and nothing else, "jump" puts the cursor on entry [k], "copy" leaves the
    list as it is, and a confirmed "delete all" empties it. *)
Theorem picked_highlight_is_the_one_acted_on (st : Webview.State)
    (host : Host.PdfPreview) (k : nat) (h : Webview.Highlight) :
  Webview.highlights st !! k = Some h →
  Webview.highlights (Picker.pick (Some (Picker.Item k (Some Picker.delete_)))
                        st host)
  = delete k (Webview.highlights st) ∧
  Webview.currentHighlightIndex
    (Picker.pick (Some (Picker.Item k (Some Picker.jump))) st host)
  = Z.of_nat k ∧
  Webview.highlights
    (Picker.pick (Some (Picker.Item k (Some Picker.copy))) st host)
  = Webview.highlights st ∧
  Webview.highlights (Picker.pick (Some (Picker.DeleteAll true)) st host) = [].
Proof.
  intros Hk. pose proof (lookup_lt_Some _ _ _ Hk) as Hlt.
  unfold Picker.pick. unfold Webview.getHighlightsSummary at 1 3 5 7.
  simpl. rewrite !last_snoc.
  unfold Picker.handleHighlightsSummary.
  rewrite (summary_item st k h Hk).
  destruct (imap _ (Webview.highlights st)) as [|x l] eqn:Ei.
  { apply (f_equal length) in Ei. rewrite length_imap in Ei. simpl in Ei. lia. }
  unfold Picker.itemIndex. simpl hs_index.
  replace (Z.of_nat k + 1 - 1)%Z with (Z.of_nat k) by lia.
  destruct (Z.geb_spec (Z.of_nat k) 0); [|lia].
  repeat split.
  - simpl.
    destruct (removeHighlight_in_range (Z.of_nat k)
                (Webview.getHighlightsSummary st)) as [-> _].
    { simpl. unfold len. lia. }
    simpl. by rewrite Nat2Z.id.
  - simpl. unfold Jump.jumpToHighlightIndex.
    rewrite outOfRange_false by (simpl; unfold len; lia).
    cbv zeta. by destruct (at_ _ _).
  - by destruct (list_find _ _).
Qed.

Lemma picked_highlight_is_the_one_acted_on_witness :
  Webview.highlights
    (Picker.pick (Some (Picker.Item 0 (Some Picker.delete_)))
       (Webview.restoreHighlights [Sample.ipsum] Sample.state)
       (Host.new SampleStore.uri ∅))
  = delete 0
      (Webview.highlights
         (Webview.restoreHighlights [Sample.ipsum] Sample.state)).
Proof.
  eapply (picked_highlight_is_the_one_acted_on
            (Webview.restoreHighlights [Sample.ipsum] Sample.state)
            (Host.new SampleStore.uri ∅) 0).
  reflexivity.
Defined.

End picker.

(** ** Sticky notes in the store; clearing twice *)

Section more_store.

(** X22. A content update and a position update of a stored sticky note
    change exactly that note (content, x and y; colour, page and timestamp
    are kept), store the list, and give the same result in either order; for
    an index outside the list neither changes anything. *)
Theorem sticky_note_updates_in_store (index x y : Z) (content : jsstring)
    (this : Host.PdfPreview) :
  let edited :=
    Host.onDidReceiveMessage (StickyNoteUpdated index content) this in
  let moved :=
    Host.onDidReceiveMessage (StickyNotePositionChanged index x y) edited in
  let other :=
    Host.onDidReceiveMessage (StickyNoteUpdated index content)
      (Host.onDidReceiveMessage (StickyNotePositionChanged index x y) this) in
  if outOfRange index (Host._savedStickyNotes this) then moved = this
  else
    Host._savedStickyNotes moved
    = alter (λ n, {| sn_content := content; sn_color := sn_color n;
                     sn_page := sn_page n; sn_x := x; sn_y := y;
                     sn_timestamp := sn_timestamp n |})
        (Z.to_nat index) (Host._savedStickyNotes this) ∧
    Host.globalState moved !! Host.stickyNotesKey this
    = Some (Host.StoredStickyNotes (Host._savedStickyNotes moved)) ∧
    other = moved.
Proof.
  simpl.
  destruct (decide (0 ≤ index < len (Host._savedStickyNotes this))%Z)
    as [Hin|Hout].
  - rewrite outOfRange_false by done.
    unfold Host.updateStickyNoteInStorage,
      Host.updateStickyNotePositionInStorage.
    assert ((index >=? 0)%Z && (index <? len (Host._savedStickyNotes this))%Z
            = true) as Hc by (apply andb_true_iff; lia).
    rewrite Hc. simpl. unfold len in *. rewrite !length_alter, Hc. simpl.
    rewrite !list_alter_alter_eq.
    split; [done|]. split.
    + unfold Host.stickyNotesKey. simpl. by rewrite lookup_insert_eq.
    + unfold Host.saveStickyNotes, Host.update, Host.stickyNotesKey. simpl.
      by rewrite !insert_insert_eq.
  - rewrite outOfRange_true by done.
    unfold Host.updateStickyNoteInStorage,
      Host.updateStickyNotePositionInStorage.
    assert ((index >=? 0)%Z && (index <? len (Host._savedStickyNotes this))%Z
            = false) as Hc by (apply andb_false_iff; lia).
    by rewrite !Hc.
Qed.

Lemma filter_twice {A} (P : A → Prop) `{∀ x, Decision (P x)} (l : list A) :
  filter P (filter P l) = filter P l.
Proof.
  induction l as [|a l IH]; [done|]. rewrite filter_cons.
  destruct (decide (P a)); [|done].
  by rewrite filter_cons, decide_True, IH.
Qed.

Lemma filter_complement {A} (P : A → Prop) `{∀ x, Decision (P x)} (l : list A) :
  filter P (filter (λ x, ¬ P x) l) = [].
Proof.
  induction l as [|a l IH]; [done|]. rewrite filter_cons.
  destruct (decide (¬ P a)); [|done].
  by rewrite filter_cons, decide_False, IH.
Qed.

(** X23. Clearing twice: a second [clearAllHighlights] only posts
    [highlightsCleared] with count 0, and a second [clearDrawings] on the
    same page only posts [drawingsCleared] with count 0. *)
Theorem clearing_twice (st : Webview.State) :
  Webview.clearAllHighlights (Webview.clearAllHighlights st)
  = Webview.postMessage (HighlightsCleared 0) (Webview.clearAllHighlights st) ∧
  Webview.clearDrawings (Webview.clearDrawings st)
  = Webview.postMessage (DrawingsCleared 0) (Webview.clearDrawings st).
Proof.
  split; [reflexivity|].
  unfold Webview.clearDrawings. simpl.
  rewrite filter_twice.
  rewrite (filter_complement (λ d, dd_page d = Webview.currentPageNumber st)).
  reflexivity.
Qed.

End more_store.

(** ** The reading position *)

Section position.

Lemma position_onDidReceiveMessage_resource m this :
  Position.resource (Position.onDidReceiveMessage m this)
  = Position.resource this.
Proof.
  destruct m as [page total|scale|total page|page scale]; simpl; try done.
  - unfold Position.restoreState. by destruct (_ !! _).
  - destruct page as [p|]; [destruct (p =? 0)%Z|];
      destruct scale as [s|]; try done; by destruct (decide (s = ""%string)).
Qed.

Lemma position_receiveAll_resource messages this :
  Position.resource (Position.receiveAll messages this)
  = Position.resource this.
Proof.
  revert this. induction messages as [|m messages IH]; intros this; [done|].
  simpl.
  fold (Position.receiveAll messages (Position.onDidReceiveMessage m this)).
  by rewrite IH, position_onDidReceiveMessage_resource.
Qed.

(** Page changes are not saved: they leave the store, the scale and the
    messages posted as they are. *)
Lemma pageChanged_keeps_state moves this :
  forallb Position.isPageChanged moves = true →
  Position.workspaceState (Position.receiveAll moves this)
  = Position.workspaceState this ∧
  Position._currentScale (Position.receiveAll moves this)
  = Position._currentScale this ∧
  Position.posted (Position.receiveAll moves this) = Position.posted this ∧
  (moves = [] ∨
   ∃ page total, last moves = Some (Position.PageChanged page total) ∧
                 Position._currentPage (Position.receiveAll moves this) = page).
Proof.
  revert this. induction moves as [|m moves IH]; intros this H.
  { repeat split. by left. }
  simpl in H. apply andb_true_iff in H as [Hm H].
  destruct m as [page total| | |]; try done. simpl.
  fold (Position.receiveAll moves
          (Position.set_totalPages total (Position.set_currentPage page this))).
  destruct (IH (Position.set_totalPages total
                  (Position.set_currentPage page this)) H)
    as (-> & -> & -> & Hlast).
  repeat split. right. destruct Hlast as [->|(p & t & Hl & Hp)].
  - by exists page, total.
  - exists p, t. split; [|done]. destruct moves; [done|]. exact Hl.
Qed.

(** What [documentLoaded] does when a position is stored. *)
Lemma documentLoaded_restores total page this state :
  Position.workspaceState this !! ("pdf-state-" +:+ Position.resource this)
  = Some state →
  let next :=
    Position.onDidReceiveMessage (Position.DocumentLoaded total page) this in
  Position._currentPage next = Position.ps_page state ∧
  Position._currentScale next = Position.ps_scale state ∧
  Position._totalPages next = total ∧
  Position.posted next
  = Position.posted this
    ++ [Position.RestoreState (Position.ps_page state)
          (Position.ps_scale state)].
Proof.
  intros Hs. simpl. unfold Position.restoreState, Position.getStateKey. simpl.
  by rewrite Hs.
Qed.

(** X24. The position at the moment the panel is closed is the one the next
    session restores, as long as that session receives nothing but page
    changes before its [documentLoaded].  Whatever messages the old session
    received, its dispose handler stores the current page and scale under
    the document's key and leaves the entries of other documents alone; on
    [documentLoaded] the next session takes that page and that scale,
    whatever pages the viewer reported, and posts [restoreState] with both;
    a viewer whose document has that page then shows it.  A [scaleChanged]
    of the new session that arrives before [documentLoaded] is saved at
    once, with the page the new session has at that moment (page 1 if it
    comes first), and it is that position that [documentLoaded] restores. *)
Theorem position_restored_on_reopen (this : Position.PdfPreview)
    (messages early : list Position.Message) (total : Z) (page : option Z)
    (st : Webview.State) :
  let closed := Position.receiveAll messages this in
  let next :=
    Position.onDidReceiveMessage (Position.DocumentLoaded total page)
      (Position.receiveAll early (Position.reopen closed)) in
  Position.workspaceState (Position.dispose closed)
    !! ("pdf-state-" +:+ Position.resource this)
  = Some {| Position.ps_page := Position._currentPage closed;
            Position.ps_scale := Position._currentScale closed;
            Position.ps_scrollTop := 0; Position.ps_scrollLeft := 0 |} ∧
  (∀ uri, uri ≠ Position.resource this →
     Position.workspaceState (Position.dispose closed)
       !! ("pdf-state-" +:+ uri)
     = Position.workspaceState closed !! ("pdf-state-" +:+ uri)) ∧
  (forallb Position.isPageChanged early = true →
   Position._currentPage next = Position._currentPage closed ∧
   Position._currentScale next = Position._currentScale closed ∧
   Position._totalPages next = total ∧
   Position.posted next
   = [Position.RestoreState (Position._currentPage closed)
        (Position._currentScale closed)] ∧
   ((1 ≤ Position._currentPage closed ≤ Webview.pagesCount st)%Z →
    Webview.currentPageNumber
      (foldl (λ st m, Position.viewRestoreState m st) st
         (Position.posted next))
    = Position._currentPage closed)) ∧
  (∀ pre scale moves,
     early = pre ++ Position.ScaleChanged scale :: moves →
     forallb Position.isPageChanged moves = true →
     let first := Position.receiveAll pre (Position.reopen closed) in
     Position._currentPage next = Position._currentPage first ∧
     Position._currentScale next = scale ∧
     last (Position.posted next)
     = Some (Position.RestoreState (Position._currentPage first) scale)) ∧
  Position._currentPage (Position.reopen closed) = 1%Z.
Proof.
  intros closed next.
  pose proof (position_receiveAll_resource messages this) as Hr.
  fold closed in Hr.
  assert (Position.workspaceState (Position.dispose closed)
          = <["pdf-state-" +:+ Position.resource this :=
                {| Position.ps_page := Position._currentPage closed;
                   Position.ps_scale := Position._currentScale closed;
                   Position.ps_scrollTop := 0;
                   Position.ps_scrollLeft := 0 |}]>
              (Position.workspaceState closed)) as Hw.
  { unfold Position.dispose, Position.saveState, Position.getStateKey. simpl.
    by rewrite Hr. }
  assert (∀ l, Position.resource (Position.receiveAll l (Position.reopen closed))
               = Position.resource this) as Hres.
  { intros l. by rewrite position_receiveAll_resource. }
  split; [by rewrite Hw, lookup_insert_eq|].
  split.
  { intros uri Hne. rewrite Hw, lookup_insert_ne; [done|].
    intros Heq. by apply append_inj in Heq. }
  split; [|split; [|done]].
  - intros Hearly.
    destruct (pageChanged_keeps_state early (Position.reopen closed) Hearly)
      as (Hs & _ & Hp & _).
    destruct (documentLoaded_restores total page
                (Position.receiveAll early (Position.reopen closed))
                {| Position.ps_page := Position._currentPage closed;
                   Position.ps_scale := Position._currentScale closed;
                   Position.ps_scrollTop := 0;
                   Position.ps_scrollLeft := 0 |})
      as (H1 & H2 & H3 & H4).
    { rewrite Hs, Hres.
      change (Position.workspaceState (Position.reopen closed))
        with (Position.workspaceState (Position.dispose closed)).
      by rewrite Hw, lookup_insert_eq. }
    fold next in H1, H2, H3, H4. rewrite Hp in H4.
    cbn [Position.ps_page Position.ps_scale] in H1, H2, H4.
    change (Position.posted (Position.reopen closed)) with
      (@nil Position.ToWebview) in H4. rewrite app_nil_l in H4.
    split; [done|]. split; [done|]. split; [done|]. split; [done|].
    rewrite H4. intros Hrange. simpl. unfold Webview.assignCurrentPage.
    destruct (Z.eqb_spec (Position._currentPage closed) 0); [lia|]. simpl.
    destruct (Z.ltb_spec 0 (Position._currentPage closed)); [|lia].
    destruct (Z.leb_spec (Position._currentPage closed)
                (Webview.pagesCount st)); [|lia].
    done.
  - intros pre scale moves -> Hmoves first.
    set (saved := Position.saveState (Position.set_currentScale scale first)).
    assert (Position.receiveAll (pre ++ Position.ScaleChanged scale :: moves)
              (Position.reopen closed)
            = Position.receiveAll moves saved) as Heq.
    { unfold Position.receiveAll. by rewrite foldl_app. }
    subst next. rewrite Heq. clear Heq.
    destruct (pageChanged_keeps_state moves saved Hmoves)
      as (Hs & _ & Hp & _).
    destruct (documentLoaded_restores total page
                (Position.receiveAll moves saved)
                {| Position.ps_page := Position._currentPage first;
                   Position.ps_scale := scale;
                   Position.ps_scrollTop := 0;
                   Position.ps_scrollLeft := 0 |})
      as (H1 & H2 & _ & H4).
    { rewrite Hs, position_receiveAll_resource. subst saved.
      unfold Position.saveState, Position.getStateKey. simpl.
      by rewrite lookup_insert_eq. }
    cbn [Position.ps_page Position.ps_scale] in H1, H2, H4.
    split; [done|]. split; [done|]. by rewrite H4, last_snoc.
Qed.

(** A session in which the viewer moved to page 2 after the last change of
    scale; the next session first hears of page 1 and then of the loaded
    document, and shows page 2. *)
Lemma position_restored_on_reopen_witness :
  Webview.currentPageNumber
    (foldl (λ st m, Position.viewRestoreState m st) Sample.state
       (Position.posted
          (Position.onDidReceiveMessage (Position.DocumentLoaded 2 (Some 1%Z))
             (Position.receiveAll [Position.PageChanged 1 2]
                (Position.reopen
                   (Position.receiveAll
                      [Position.PageChanged 1 2;
                       Position.ScaleChanged "page-width";
                       Position.PageChanged 2 2]
                      (Position.new SampleStore.uri ∅)))))))
  = 2%Z.
Proof.
  apply (position_restored_on_reopen (Position.new SampleStore.uri ∅)
           [Position.PageChanged 1%Z 2%Z; Position.ScaleChanged "page-width";
            Position.PageChanged 2%Z 2%Z] [Position.PageChanged 1%Z 2%Z]
           2%Z (Some 1%Z) Sample.state).
  - reflexivity.
  - simpl. lia.
Defined.

End position.
